(** * HyperShift install assets and the [infra] destroy command

    A shallow embedding of [cmd/install/assets/hypershift_operator.go] and
    [cmd/infra/destroy.go].

    Every builder of the [assets] package is a struct of configuration
    fields with one method [Build] that returns a pointer to a freshly
    allocated Kubernetes API object.  Some configuration fields are pointers
    to objects owned by the caller ([*corev1.Namespace], [*corev1.Secret],
    ...); [Build] reads through them and panics when one is nil.

    The embedding keeps these three aspects apart:
    - the Kubernetes schema is a family of records, one module per Go
      struct, with the fields the builders set;
    - the objects the caller owns live in a heap, configuration pointers
      are heap locations (or nil), and [Build] is a computation in a state
      and panic monad [M] over that heap;
    - pointers to values that a composite literal creates itself
      ([&replicas], [&metav1.LabelSelector{...}], ...) are owned by the
      returned object and are modelled by [option]. *)

From stdpp Require Import base option list gmap strings.
From Stdlib Require Import ZArith.

Local Open Scope Z_scope.
Local Open Scope string_scope.

(** ** Go primitives *)

(** [len(s) > 0] on a Go string. *)
Definition nonempty (s : string) : bool := negb (String.eqb s "").

(** The verb [%t] of [fmt.Sprintf]. *)
Definition fmt_t (b : bool) : string := if b then "true" else "false".

(** [append(s, x1, ..., xn)]: a slice is a list, nil is the empty list. *)
Definition append {A} (s xs : list A) : list A := (s ++ xs)%list.

(** A pointer into the caller's heap: nil or a location. *)
Definition loc := nat.
Definition ptr := option loc.
Definition nil : ptr := None.

(** ** k8s.io/apimachinery *)

Module schema.
Record GroupVersion := { Group : string; Version : string }.

Definition String (gv : GroupVersion) : string :=
  if nonempty (Group gv) then Group gv +:+ "/" +:+ Version gv else Version gv.
End schema.

Module TypeMeta.
Record t := { Kind : string; APIVersion : string }.
End TypeMeta.

Module ObjectMeta.
Record t := {
  Name : string;
  Namespace : string;
  Labels : gmap string string
}.
End ObjectMeta.

Module LabelSelector.
Record t := { MatchLabels : gmap string string }.
End LabelSelector.

Module intstr.
Inductive IntOrString :=
| Int (IntVal : Z)
| String (StrVal : string).

Definition FromInt (val : Z) : IntOrString := Int val.
Definition FromString (val : string) : IntOrString := String val.
End intstr.

Module resource.
(** A parsed quantity, kept as the text it was parsed from.  [MustParse]
    panics on malformed text; the builders only call it on the literals
    "20Mi", "5m", "150Mi" and "10m", which parse. *)
Record Quantity := { text : string }.
Definition MustParse (str : string) : Quantity := {| text := str |}.
End resource.

(** ** k8s.io/api/core/v1 *)

Module corev1.
Definition SchemeGroupVersion : schema.GroupVersion :=
  {| schema.Group := ""; schema.Version := "v1" |}.
Definition PullAlways : string := "Always".
Definition PullIfNotPresent : string := "IfNotPresent".
Definition URISchemeHTTP : string := "HTTP".
Definition ProtocolTCP : string := "TCP".
Definition ResourceCPU : string := "cpu".
Definition ResourceMemory : string := "memory".
Definition ServiceTypeClusterIP : string := "ClusterIP".
End corev1.

Module Namespace.
Record t := { TypeMeta : TypeMeta.t; ObjectMeta : ObjectMeta.t }.
Definition Name (n : t) : string := ObjectMeta.Name (ObjectMeta n).

(** [namespace.Labels = v]. *)
Definition set_Labels (v : gmap string string) (n : t) : t :=
  {| TypeMeta := TypeMeta n;
     ObjectMeta :=
       {| ObjectMeta.Name := ObjectMeta.Name (ObjectMeta n);
          ObjectMeta.Namespace := ObjectMeta.Namespace (ObjectMeta n);
          ObjectMeta.Labels := v |} |}.
End Namespace.

Module Secret.
Record t := {
  TypeMeta : TypeMeta.t;
  ObjectMeta : ObjectMeta.t;
  Data : gmap string (list Byte.byte)
}.
Definition Name (s : t) : string := ObjectMeta.Name (ObjectMeta s).
End Secret.

Module ServiceAccount.
Record t := { TypeMeta : TypeMeta.t; ObjectMeta : ObjectMeta.t }.
Definition Name (s : t) : string := ObjectMeta.Name (ObjectMeta s).
Definition Namespace (s : t) : string := ObjectMeta.Namespace (ObjectMeta s).
End ServiceAccount.

Module ObjectFieldSelector.
Record t := { FieldPath : string }.
End ObjectFieldSelector.

Module EnvVarSource.
Record t := { FieldRef : option ObjectFieldSelector.t }.
End EnvVarSource.

Module EnvVar.
Record t := {
  Name : string;
  Value : string;
  ValueFrom : option EnvVarSource.t
}.
End EnvVar.

Module VolumeMount.
Record t := { Name : string; MountPath : string }.
End VolumeMount.

Module SecretVolumeSource.
Record t := { SecretName : string }.
End SecretVolumeSource.

Module ServiceAccountTokenProjection.
Record t := { Audience : string; Path : string }.
End ServiceAccountTokenProjection.

Module VolumeProjection.
Record t := { ServiceAccountToken : option ServiceAccountTokenProjection.t }.
End VolumeProjection.

Module ProjectedVolumeSource.
Record t := { Sources : list VolumeProjection.t }.
End ProjectedVolumeSource.

Module VolumeSource.
Record t := {
  Secret : option SecretVolumeSource.t;
  Projected : option ProjectedVolumeSource.t
}.
End VolumeSource.

Module Volume.
Record t := { Name : string; VolumeSource : VolumeSource.t }.
End Volume.

Module ContainerPort.
Record t := { Name : string; ContainerPort : Z; Protocol : string }.
End ContainerPort.

Module HTTPGetAction.
Record t := { Path : string; Port : intstr.IntOrString; Scheme : string }.
End HTTPGetAction.

Module ProbeHandler.
Record t := { HTTPGet : option HTTPGetAction.t }.
End ProbeHandler.

Module Probe.
Record t := {
  ProbeHandler : ProbeHandler.t;
  InitialDelaySeconds : Z;
  PeriodSeconds : Z;
  SuccessThreshold : Z;
  FailureThreshold : Z;
  TimeoutSeconds : Z
}.
End Probe.

Module ResourceRequirements.
Record t := { Requests : gmap string resource.Quantity }.
End ResourceRequirements.

Module SecurityContext.
Record t := { RunAsUser : option Z }.
End SecurityContext.

Module Container.
Record t := {
  Name : string;
  SecurityContext : option SecurityContext.t;
  Image : string;
  ImagePullPolicy : string;
  Env : list EnvVar.t;
  Command : list string;
  Args : list string;
  Ports : list ContainerPort.t;
  LivenessProbe : option Probe.t;
  ReadinessProbe : option Probe.t;
  Resources : ResourceRequirements.t;
  VolumeMounts : list VolumeMount.t
}.

(** The assignments [c.Env = v], [c.Args = v] and [c.VolumeMounts = v]. *)
Definition set_Env (v : list EnvVar.t) (c : t) : t :=
  {| Name := Name c; SecurityContext := SecurityContext c; Image := Image c;
     ImagePullPolicy := ImagePullPolicy c; Env := v; Command := Command c;
     Args := Args c; Ports := Ports c; LivenessProbe := LivenessProbe c;
     ReadinessProbe := ReadinessProbe c; Resources := Resources c;
     VolumeMounts := VolumeMounts c |}.

Definition set_Args (v : list string) (c : t) : t :=
  {| Name := Name c; SecurityContext := SecurityContext c; Image := Image c;
     ImagePullPolicy := ImagePullPolicy c; Env := Env c; Command := Command c;
     Args := v; Ports := Ports c; LivenessProbe := LivenessProbe c;
     ReadinessProbe := ReadinessProbe c; Resources := Resources c;
     VolumeMounts := VolumeMounts c |}.

Definition set_VolumeMounts (v : list VolumeMount.t) (c : t) : t :=
  {| Name := Name c; SecurityContext := SecurityContext c; Image := Image c;
     ImagePullPolicy := ImagePullPolicy c; Env := Env c; Command := Command c;
     Args := Args c; Ports := Ports c; LivenessProbe := LivenessProbe c;
     ReadinessProbe := ReadinessProbe c; Resources := Resources c;
     VolumeMounts := v |}.
End Container.

Module PodSpec.
Record t := {
  ServiceAccountName : string;
  Containers : list Container.t;
  Volumes : list Volume.t
}.

Definition set_Containers (v : list Container.t) (s : t) : t :=
  {| ServiceAccountName := ServiceAccountName s; Containers := v;
     Volumes := Volumes s |}.

Definition set_Volumes (v : list Volume.t) (s : t) : t :=
  {| ServiceAccountName := ServiceAccountName s; Containers := Containers s;
     Volumes := v |}.
End PodSpec.

Module PodTemplateSpec.
Record t := { ObjectMeta : ObjectMeta.t; Spec : PodSpec.t }.
End PodTemplateSpec.

Module ServicePort.
Record t := {
  Name : string;
  Protocol : string;
  Port : Z;
  TargetPort : intstr.IntOrString
}.
End ServicePort.

Module ServiceSpec.
Record t := {
  Type_ : string;
  Selector : gmap string string;
  Ports : list ServicePort.t
}.
End ServiceSpec.

Module Service.
Record t := {
  TypeMeta : TypeMeta.t;
  ObjectMeta : ObjectMeta.t;
  Spec : ServiceSpec.t
}.
End Service.

(** ** k8s.io/api/apps/v1 *)

Module appsv1.
Definition SchemeGroupVersion : schema.GroupVersion :=
  {| schema.Group := "apps"; schema.Version := "v1" |}.
End appsv1.

Module DeploymentSpec.
Record t := {
  Replicas : option Z;
  Selector : option LabelSelector.t;
  Template : PodTemplateSpec.t
}.
End DeploymentSpec.

Module Deployment.
Record t := {
  TypeMeta : TypeMeta.t;
  ObjectMeta : ObjectMeta.t;
  Spec : DeploymentSpec.t
}.

(** [d.Spec.Template.Spec], read and assigned. *)
Definition PodSpec (d : t) : PodSpec.t :=
  PodTemplateSpec.Spec (DeploymentSpec.Template (Spec d)).

Definition set_PodSpec (v : PodSpec.t) (d : t) : t :=
  {| TypeMeta := TypeMeta d; ObjectMeta := ObjectMeta d;
     Spec :=
       {| DeploymentSpec.Replicas := DeploymentSpec.Replicas (Spec d);
          DeploymentSpec.Selector := DeploymentSpec.Selector (Spec d);
          DeploymentSpec.Template :=
            {| PodTemplateSpec.ObjectMeta :=
                 PodTemplateSpec.ObjectMeta (DeploymentSpec.Template (Spec d));
               PodTemplateSpec.Spec := v |} |} |}.
End Deployment.

(** ** k8s.io/api/rbac/v1 *)

Module rbacv1.
Definition SchemeGroupVersion : schema.GroupVersion :=
  {| schema.Group := "rbac.authorization.k8s.io"; schema.Version := "v1" |}.
End rbacv1.

Module PolicyRule.
Record t := {
  APIGroups : list string;
  Resources : list string;
  Verbs : list string
}.
End PolicyRule.

Module ClusterRole.
Record t := {
  TypeMeta : TypeMeta.t;
  ObjectMeta : ObjectMeta.t;
  Rules : list PolicyRule.t
}.
Definition Name (r : t) : string := ObjectMeta.Name (ObjectMeta r).
End ClusterRole.

Module Role.
Record t := {
  TypeMeta : TypeMeta.t;
  ObjectMeta : ObjectMeta.t;
  Rules : list PolicyRule.t
}.
Definition Name (r : t) : string := ObjectMeta.Name (ObjectMeta r).
End Role.

Module RoleRef.
Record t := { APIGroup : string; Kind : string; Name : string }.
End RoleRef.

Module Subject.
Record t := {
  Kind : string;
  APIGroup : string;
  Name : string;
  Namespace : string
}.

(** [subject.Name = v] and [subject.Namespace = v]. *)
Definition set_Name (v : string) (s : t) : t :=
  {| Kind := Kind s; APIGroup := APIGroup s; Name := v;
     Namespace := Namespace s |}.

Definition set_Namespace (v : string) (s : t) : t :=
  {| Kind := Kind s; APIGroup := APIGroup s; Name := Name s;
     Namespace := v |}.
End Subject.

Module ClusterRoleBinding.
Record t := {
  TypeMeta : TypeMeta.t;
  ObjectMeta : ObjectMeta.t;
  RoleRef : RoleRef.t;
  Subjects : list Subject.t
}.
End ClusterRoleBinding.

Module RoleBinding.
Record t := {
  TypeMeta : TypeMeta.t;
  ObjectMeta : ObjectMeta.t;
  RoleRef : RoleRef.t;
  Subjects : list Subject.t
}.
End RoleBinding.

(** ** k8s.io/api/scheduling/v1 *)

Module schedulingv1.
Definition SchemeGroupVersion : schema.GroupVersion :=
  {| schema.Group := "scheduling.k8s.io"; schema.Version := "v1" |}.
End schedulingv1.

Module PriorityClass.
Record t := {
  TypeMeta : TypeMeta.t;
  ObjectMeta : ObjectMeta.t;
  Value : Z;
  GlobalDefault : bool;
  Description : string
}.
End PriorityClass.

(** ** prometheus-operator monitoring/v1 *)

Module prometheusoperatorv1.
Definition SchemeGroupVersion : schema.GroupVersion :=
  {| schema.Group := "monitoring.coreos.com"; schema.Version := "v1" |}.
End prometheusoperatorv1.

Module Endpoint.
Record t := { Interval : string; Port : string }.
End Endpoint.

Module ServiceMonitorSpec.
Record t := {
  JobLabel : string;
  Selector : LabelSelector.t;
  Endpoints : list Endpoint.t
}.
End ServiceMonitorSpec.

Module ServiceMonitor.
Record t := {
  TypeMeta : TypeMeta.t;
  ObjectMeta : ObjectMeta.t;
  Spec : ServiceMonitorSpec.t
}.
End ServiceMonitor.

Module Rule.
Record t := { Record_ : string; Expr : intstr.IntOrString }.
End Rule.

Module RuleGroup.
Record t := { Name : string; Interval : string; Rules : list Rule.t }.
End RuleGroup.

Module PrometheusRuleSpec.
Record t := { Groups : list RuleGroup.t }.
Definition zero : t := {| Groups := [] |}.
End PrometheusRuleSpec.

Module PrometheusRule.
Record t := {
  TypeMeta : TypeMeta.t;
  ObjectMeta : ObjectMeta.t;
  Spec : PrometheusRuleSpec.t
}.

Definition set_Spec (v : PrometheusRuleSpec.t) (r : t) : t :=
  {| TypeMeta := TypeMeta r; ObjectMeta := ObjectMeta r; Spec := v |}.
End PrometheusRule.

(** ** The heap and the monad of [Build] *)

(** What a heap cell holds: one of the API objects the builders take by
    pointer or return by pointer. *)
Inductive Object :=
| ONamespace (v : Namespace.t)
| OSecret (v : Secret.t)
| OServiceAccount (v : ServiceAccount.t)
| ODeployment (v : Deployment.t)
| OService (v : Service.t)
| OClusterRole (v : ClusterRole.t)
| ORole (v : Role.t)
| OClusterRoleBinding (v : ClusterRoleBinding.t)
| ORoleBinding (v : RoleBinding.t)
| OPriorityClass (v : PriorityClass.t)
| OServiceMonitor (v : ServiceMonitor.t)
| OPrometheusRule (v : PrometheusRule.t).

(** Cells are never freed; a location is an index and allocation extends
    the heap at its end. *)
Definition Heap := list Object.

(** A computation reads and extends the heap and returns, or panics
    ([None]). *)
Definition M (A : Type) : Type := Heap -> option (A * Heap).

Definition ret {A} (a : A) : M A := fun h => Some (a, h).

Definition bind {A B} (m : M A) (k : A -> M B) : M B :=
  fun h => match m h with
           | Some (a, h') => k a h'
           | None => None
           end.

Definition panic {A} : M A := fun _ => None.

Declare Scope go_scope.
Delimit Scope go_scope with go.
Notation "x <- m ;; k" := (bind m (fun x => k))
  (at level 100, m at next level, right associativity) : go_scope.
Local Open Scope go_scope.

(** [&T{...}]: a fresh cell. *)
Definition alloc (o : Object) : M loc :=
  fun h => Some (length h, (h ++ [o])%list).

Definition asNamespace (o : Object) : option Namespace.t :=
  match o with ONamespace v => Some v | _ => None end.
Definition asSecret (o : Object) : option Secret.t :=
  match o with OSecret v => Some v | _ => None end.
Definition asServiceAccount (o : Object) : option ServiceAccount.t :=
  match o with OServiceAccount v => Some v | _ => None end.
Definition asClusterRole (o : Object) : option ClusterRole.t :=
  match o with OClusterRole v => Some v | _ => None end.
Definition asRole (o : Object) : option Role.t :=
  match o with ORole v => Some v | _ => None end.

(** What a pointer of static type [*T] points to; [as_T] selects the
    cells of type [T].  There is nothing behind nil.  Go's typing rules out
    a dangling pointer and a pointer to a cell of another type; [deref] has
    no value there either. *)
Definition deref {A} (as_T : Object -> option A) (h : Heap) (p : ptr)
    : option A :=
  match p with
  | Some l => match h !! l with
              | Some o => as_T o
              | None => None
              end
  | None => None
  end.

(** [*p] (and [p.f]): dereferencing nil panics. *)
Definition load {A} (as_T : Object -> option A) (p : ptr) : M A :=
  fun h => match deref as_T h p with
           | Some v => Some (v, h)
           | None => None
           end.

(** The object a computation returns a pointer to, read after the call. *)
Definition result (m : M loc) (h : Heap) : option Object :=
  match m h with
  | Some (l, h') => h' !! l
  | None => None
  end.

(** A pointer as Go's typing keeps it: nil, or a cell of its type. *)
Definition well_typed {A} (as_T : Object -> option A) (h : Heap) (p : ptr)
    : Prop :=
  p <> nil -> is_Some (deref as_T h p).

(** ** Package assets: the builder structs *)

Module HyperShiftNamespace.
Record t := { Name : string; EnableOCPClusterMonitoring : bool }.
End HyperShiftNamespace.

Module HyperShiftOperatorCredentialsSecret.
Record t := { Namespace : ptr; CredsBytes : list Byte.byte }.
End HyperShiftOperatorCredentialsSecret.

Module HyperShiftOperatorOIDCProviderS3Secret.
Record t := {
  Namespace : ptr;
  OIDCStorageProviderS3CredBytes : list Byte.byte;
  CredsKey : string
}.
End HyperShiftOperatorOIDCProviderS3Secret.

Module ExternalDNSCredsSecret.
Record t := { Namespace : ptr; CredsBytes : list Byte.byte }.
End ExternalDNSCredsSecret.

Module ExternalDNSDeployment.
Record t := {
  Namespace : ptr;
  Image : string;
  ServiceAccount : ptr;
  Provider : string;
  DomainFilter : string;
  CredentialsSecret : ptr
}.
End ExternalDNSDeployment.

Module HyperShiftOperatorDeployment.
Record t := {
  Namespace : ptr;
  OperatorImage : string;
  ServiceAccount : ptr;
  Replicas : Z;
  EnableOCPClusterMonitoring : bool;
  EnableCIDebugOutput : bool;
  PrivatePlatform : string;
  AWSPrivateCreds : string;
  AWSPrivateRegion : string;
  OIDCBucketName : string;
  OIDCBucketRegion : string;
  OIDCStorageProviderS3Secret : ptr;
  OIDCStorageProviderS3SecretKey : string
}.
End HyperShiftOperatorDeployment.

Module HyperShiftOperatorService.
Record t := { Namespace : ptr }.
End HyperShiftOperatorService.

Module ExternalDNSServiceAccount.
Record t := { Namespace : ptr }.
End ExternalDNSServiceAccount.

Module ExternalDNSClusterRole.
Record t := mk { }.
End ExternalDNSClusterRole.

Module ExternalDNSClusterRoleBinding.
Record t := { ClusterRole : ptr; ServiceAccount : ptr }.
End ExternalDNSClusterRoleBinding.

Module HyperShiftOperatorServiceAccount.
Record t := { Namespace : ptr }.
End HyperShiftOperatorServiceAccount.

Module HyperShiftOperatorClusterRole.
Record t := mk { }.
End HyperShiftOperatorClusterRole.

Module HyperShiftOperatorClusterRoleBinding.
Record t := { ClusterRole : ptr; ServiceAccount : ptr }.
End HyperShiftOperatorClusterRoleBinding.

Module HyperShiftOperatorRole.
Record t := { Namespace : ptr }.
End HyperShiftOperatorRole.

Module HyperShiftOperatorRoleBinding.
Record t := { Role : ptr; ServiceAccount : ptr }.
End HyperShiftOperatorRoleBinding.

Module HyperShiftControlPlanePriorityClass.
Record t := mk { }.
End HyperShiftControlPlanePriorityClass.

Module HyperShiftAPICriticalPriorityClass.
Record t := mk { }.
End HyperShiftAPICriticalPriorityClass.

Module HyperShiftEtcdPriorityClass.
Record t := mk { }.
End HyperShiftEtcdPriorityClass.

Module HyperShiftPrometheusRole.
Record t := { Namespace : ptr }.
End HyperShiftPrometheusRole.

Module HyperShiftOperatorPrometheusRoleBinding.
Record t := {
  Namespace : ptr;
  Role : ptr;
  EnableOCPClusterMonitoring : bool
}.
End HyperShiftOperatorPrometheusRoleBinding.

Module HyperShiftServiceMonitor.
Record t := { Namespace : ptr }.
End HyperShiftServiceMonitor.

Module HypershiftRecordingRule.
Record t := { Namespace : ptr }.
End HypershiftRecordingRule.

Module HyperShiftClientClusterRole.
Record t := mk { }.
End HyperShiftClientClusterRole.

Module HyperShiftClientServiceAccount.
Record t := { Namespace : ptr }.
End HyperShiftClientServiceAccount.

Module HyperShiftClientClusterRoleBinding.
Record t := { ClusterRole : ptr; ServiceAccount : ptr; GroupName : string }.
End HyperShiftClientClusterRoleBinding.

Module HyperShiftReaderClusterRole.
Record t := mk { }.
End HyperShiftReaderClusterRole.

Module HyperShiftReaderClusterRoleBinding.
Record t := { ClusterRole : ptr; GroupName : string }.
End HyperShiftReaderClusterRoleBinding.

(** ** github.com/spf13/cobra *)

Module cobra.
(** A command with the fields [NewDestroyCommand] sets, the flag sets
    ([flags], the local and persistent flags a command defines; [pflags],
    the persistent ones), which are nil until a flag is defined, and the
    children [commands]. *)
#[local] Set Warnings "-register-all".
Inductive Command := {
  Use : string;
  Short : string;
  SilenceUsage : bool;
  flags : list string;
  pflags : list string;
  commands : list Command
}.

(** [c.AddCommand(cmds...)] appends the children in order. *)
Definition AddCommand (cmds : list Command) (c : Command) : Command :=
  {| Use := Use c; Short := Short c; SilenceUsage := SilenceUsage c;
     flags := flags c; pflags := pflags c;
     commands := append (commands c) cmds |}.
End cobra.

(** ** Package assets: constants and [Build] methods *)

Definition EtcdPriorityClass : string := "hypershift-etcd".
Definition APICriticalPriorityClass : string := "hypershift-api-critical".
Definition DefaultPriorityClass : string := "hypershift-control-plane".

Definition awsCredsSecretName : string := "hypershift-operator-aws-credentials".
Definition awsCredsSecretKey : string := "credentials".
Definition oidcProviderS3CredsSecretName : string :=
  "hypershift-operator-oidc-provider-s3-credentials".
Definition externaDNSCredsSecretName : string := "external-dns-credentials".

(** [TypeMeta{Kind: kind, APIVersion: gv.String()}]. *)
Definition typeMeta (kind : string) (gv : schema.GroupVersion) : TypeMeta.t :=
  {| TypeMeta.Kind := kind; TypeMeta.APIVersion := schema.String gv |}.

(** [ObjectMeta{Name: name, Namespace: namespace}], labels unset. *)
Definition objectMeta (name namespace : string) : ObjectMeta.t :=
  {| ObjectMeta.Name := name; ObjectMeta.Namespace := namespace;
     ObjectMeta.Labels := ∅ |}.

(** [d.Spec.Template.Spec.Containers[0] = f(d.Spec.Template.Spec.Containers[0])];
    indexing an empty slice panics. *)
Definition update_Container0 (f : Container.t -> Container.t)
    (d : Deployment.t) : M Deployment.t :=
  match PodSpec.Containers (Deployment.PodSpec d) with
  | c :: cs =>
      ret (Deployment.set_PodSpec
             (PodSpec.set_Containers (f c :: cs) (Deployment.PodSpec d)) d)
  | [] => panic
  end.

(** [d.Spec.Template.Spec.Volumes = append(d.Spec.Template.Spec.Volumes, vs...)]. *)
Definition append_Volumes (vs : list Volume.t) (d : Deployment.t) : Deployment.t :=
  Deployment.set_PodSpec
    (PodSpec.set_Volumes (append (PodSpec.Volumes (Deployment.PodSpec d)) vs)
       (Deployment.PodSpec d)) d.

(** A volume whose source is the secret [name]. *)
Definition secretVolume (name secretName : string) : Volume.t :=
  {| Volume.Name := name;
     Volume.VolumeSource :=
       {| VolumeSource.Secret :=
            Some {| SecretVolumeSource.SecretName := secretName |};
          VolumeSource.Projected := None |} |}.

(** [&corev1.Probe{ProbeHandler: {HTTPGet: &{Path, Port: intstr.FromInt(port),
    Scheme: HTTP}}, ...}]. *)
Definition httpProbe (path : string) (port initialDelay period success failure
    timeout : Z) : option Probe.t :=
  Some {| Probe.ProbeHandler :=
            {| ProbeHandler.HTTPGet :=
                 Some {| HTTPGetAction.Path := path;
                         HTTPGetAction.Port := intstr.FromInt port;
                         HTTPGetAction.Scheme := corev1.URISchemeHTTP |} |};
          Probe.InitialDelaySeconds := initialDelay;
          Probe.PeriodSeconds := period;
          Probe.SuccessThreshold := success;
          Probe.FailureThreshold := failure;
          Probe.TimeoutSeconds := timeout |}.

Section HyperShift.

(** Constants of [github.com/openshift/hypershift/api/v1alpha1] and the
    function [recordingRuleSpec] of this package, whose declarations are
    outside the two source files: the platform types [hyperv1.NonePlatform]
    and [hyperv1.AWSPlatform], and the label key
    [hyperv1.OperatorComponent]. *)
Variables NonePlatform AWSPlatform OperatorComponent : string.
Variable recordingRuleSpec : PrometheusRuleSpec.t.

Definition HyperShiftNamespace_Build (o : HyperShiftNamespace.t) : M loc :=
  let namespace :=
    {| Namespace.TypeMeta := typeMeta "Namespace" corev1.SchemeGroupVersion;
       Namespace.ObjectMeta := objectMeta (HyperShiftNamespace.Name o) "" |} in
  let namespace :=
    if HyperShiftNamespace.EnableOCPClusterMonitoring o
    then Namespace.set_Labels
           {[ "openshift.io/cluster-monitoring" := "true" ]} namespace
    else namespace in
  alloc (ONamespace namespace).

Definition HyperShiftOperatorCredentialsSecret_Build
    (o : HyperShiftOperatorCredentialsSecret.t) : M loc :=
  ns <- load asNamespace (HyperShiftOperatorCredentialsSecret.Namespace o);;
  let secret :=
    {| Secret.TypeMeta := typeMeta "Secret" corev1.SchemeGroupVersion;
       Secret.ObjectMeta := objectMeta awsCredsSecretName (Namespace.Name ns);
       Secret.Data :=
         {[ awsCredsSecretKey :=
              HyperShiftOperatorCredentialsSecret.CredsBytes o ]} |} in
  alloc (OSecret secret).

Definition HyperShiftOperatorOIDCProviderS3Secret_Build
    (o : HyperShiftOperatorOIDCProviderS3Secret.t) : M loc :=
  ns <- load asNamespace (HyperShiftOperatorOIDCProviderS3Secret.Namespace o);;
  let secret :=
    {| Secret.TypeMeta := typeMeta "Secret" corev1.SchemeGroupVersion;
       Secret.ObjectMeta :=
         objectMeta oidcProviderS3CredsSecretName (Namespace.Name ns);
       Secret.Data :=
         {[ HyperShiftOperatorOIDCProviderS3Secret.CredsKey o :=
              HyperShiftOperatorOIDCProviderS3Secret.OIDCStorageProviderS3CredBytes o ]} |} in
  alloc (OSecret secret).

Definition ExternalDNSCredsSecret_Build (o : ExternalDNSCredsSecret.t) : M loc :=
  ns <- load asNamespace (ExternalDNSCredsSecret.Namespace o);;
  let secret :=
    {| Secret.TypeMeta := typeMeta "Secret" corev1.SchemeGroupVersion;
       Secret.ObjectMeta :=
         objectMeta externaDNSCredsSecretName (Namespace.Name ns);
       Secret.Data :=
         {[ "credentials" := ExternalDNSCredsSecret.CredsBytes o ]} |} in
  alloc (OSecret secret).

(** The deployment is private to [Build] until it is returned: the
    assignments through [deployment.Spec...] act on a local value and the
    cell is allocated at the [return]. *)
Definition ExternalDNSDeployment_Build (o : ExternalDNSDeployment.t) : M loc :=
  let replicas := 1 in
  ns <- load asNamespace (ExternalDNSDeployment.Namespace o);;
  sa <- load asServiceAccount (ExternalDNSDeployment.ServiceAccount o);;
  cs <- load asSecret (ExternalDNSDeployment.CredentialsSecret o);;
  let deployment :=
    {| Deployment.TypeMeta := typeMeta "Deployment" appsv1.SchemeGroupVersion;
       Deployment.ObjectMeta := objectMeta "external-dns" (Namespace.Name ns);
       Deployment.Spec :=
         {| DeploymentSpec.Selector :=
              Some {| LabelSelector.MatchLabels :=
                        {[ "name" := "external-dns" ]} |};
            DeploymentSpec.Replicas := Some replicas;
            DeploymentSpec.Template :=
              {| PodTemplateSpec.ObjectMeta :=
                   {| ObjectMeta.Name := ""; ObjectMeta.Namespace := "";
                      ObjectMeta.Labels :=
                        {[ "name" := "external-dns";
                           "app" := "external-dns";
                           OperatorComponent := "external-dns" ]} |};
                 PodTemplateSpec.Spec :=
                   {| PodSpec.ServiceAccountName := ServiceAccount.Name sa;
                      PodSpec.Containers :=
                        [ {| Container.Name := "external-dns";
                             Container.SecurityContext := None;
                             Container.Image := ExternalDNSDeployment.Image o;
                             Container.ImagePullPolicy := corev1.PullIfNotPresent;
                             Container.Env := [];
                             Container.Command := ["/external-dns"];
                             Container.Args :=
                               [ "--source=service";
                                 "--source=openshift-route";
                                 "--domain-filter=" +:+
                                   ExternalDNSDeployment.DomainFilter o;
                                 "--provider=" +:+
                                   ExternalDNSDeployment.Provider o;
                                 "--registry=noop";
                                 "--txt-owner-id=hypershift" ];
                             Container.Ports :=
                               [ {| ContainerPort.Name := "metrics";
                                    ContainerPort.ContainerPort := 7979;
                                    ContainerPort.Protocol := "" |} ];
                             Container.LivenessProbe :=
                               httpProbe "/healthz" 7979 60 60 1 5 5;
                             Container.ReadinessProbe := None;
                             Container.Resources :=
                               {| ResourceRequirements.Requests :=
                                    {[ corev1.ResourceMemory :=
                                         resource.MustParse "20Mi";
                                       corev1.ResourceCPU :=
                                         resource.MustParse "5m" ]} |};
                             Container.VolumeMounts :=
                               [ {| VolumeMount.Name := "credentials";
                                    VolumeMount.MountPath := "/etc/provider" |} ]
                          |} ];
                      PodSpec.Volumes :=
                        [ secretVolume "credentials" (Secret.Name cs) ] |} |} |}
    |} in
  (* Add platform specific settings *)
  deployment <-
    (if String.eqb (ExternalDNSDeployment.Provider o) "aws" then
       deployment <-
         update_Container0
           (fun c =>
              Container.set_Env
                (append (Container.Env c)
                   [ {| EnvVar.Name := "AWS_SHARED_CREDENTIALS_FILE";
                        EnvVar.Value := "/etc/provider/credentials";
                        EnvVar.ValueFrom := None |};
                     {| EnvVar.Name := "AWS_REGION";
                        EnvVar.Value := "us-east-1";
                        EnvVar.ValueFrom := None |} ]) c)
           deployment;;
       update_Container0
         (fun c =>
            Container.set_Args
              (append (Container.Args c) ["--aws-zone-type=public"]) c)
         deployment
     else ret deployment);;
  alloc (ODeployment deployment).

(** The guard of the OIDC wiring, with Go's short-circuit [&&]: the secret
    is read only when the pointer is not nil. *)
Definition oidcConfigured (o : HyperShiftOperatorDeployment.t) : M bool :=
  if nonempty (HyperShiftOperatorDeployment.OIDCBucketName o)
     && nonempty (HyperShiftOperatorDeployment.OIDCBucketRegion o)
     && nonempty (HyperShiftOperatorDeployment.OIDCStorageProviderS3SecretKey o)
     && bool_decide
          (HyperShiftOperatorDeployment.OIDCStorageProviderS3Secret o <> nil)
  then
    s <- load asSecret
           (HyperShiftOperatorDeployment.OIDCStorageProviderS3Secret o);;
    ret (nonempty (Secret.Name s))
  else ret false.

Definition HyperShiftOperatorDeployment_Build
    (o : HyperShiftOperatorDeployment.t) : M loc :=
  let args :=
    [ "run";
      "--namespace=$(MY_NAMESPACE)";
      "--deployment-name=operator";
      "--metrics-addr=:9000";
      "--enable-ocp-cluster-monitoring=" +:+
        fmt_t (HyperShiftOperatorDeployment.EnableOCPClusterMonitoring o);
      "--enable-ci-debug-output=" +:+
        fmt_t (HyperShiftOperatorDeployment.EnableCIDebugOutput o);
      "--private-platform=" +:+
        HyperShiftOperatorDeployment.PrivatePlatform o ] in
  let oidcVolumeMount : list VolumeMount.t := [] in
  let oidcVolumeCred : list Volume.t := [] in
  let envVars :=
    [ {| EnvVar.Name := "MY_NAMESPACE";
         EnvVar.Value := "";
         EnvVar.ValueFrom :=
           Some {| EnvVarSource.FieldRef :=
                     Some {| ObjectFieldSelector.FieldPath :=
                               "metadata.namespace" |} |} |} ] in
  cond <- oidcConfigured o;;
  wiring <-
    (if cond : bool then
       s <- load asSecret
              (HyperShiftOperatorDeployment.OIDCStorageProviderS3Secret o);;
       ret (append args
              [ "--oidc-storage-provider-s3-bucket-name=" +:+
                  HyperShiftOperatorDeployment.OIDCBucketName o;
                "--oidc-storage-provider-s3-region=" +:+
                  HyperShiftOperatorDeployment.OIDCBucketRegion o;
                "--oidc-storage-provider-s3-credentials=/etc/oidc-storage-provider-s3-creds/" +:+
                  HyperShiftOperatorDeployment.OIDCStorageProviderS3SecretKey o ],
            [ {| VolumeMount.Name := "oidc-storage-provider-s3-creds";
                 VolumeMount.MountPath := "/etc/oidc-storage-provider-s3-creds" |} ],
            [ secretVolume "oidc-storage-provider-s3-creds" (Secret.Name s) ])
     else ret (args, oidcVolumeMount, oidcVolumeCred));;
  let '(args, oidcVolumeMount, oidcVolumeCred) := wiring in
  ns <- load asNamespace (HyperShiftOperatorDeployment.Namespace o);;
  sa <- load asServiceAccount (HyperShiftOperatorDeployment.ServiceAccount o);;
  let deployment :=
    {| Deployment.TypeMeta := typeMeta "Deployment" appsv1.SchemeGroupVersion;
       Deployment.ObjectMeta := objectMeta "operator" (Namespace.Name ns);
       Deployment.Spec :=
         {| DeploymentSpec.Replicas :=
              Some (HyperShiftOperatorDeployment.Replicas o);
            DeploymentSpec.Selector :=
              Some {| LabelSelector.MatchLabels := {[ "name" := "operator" ]} |};
            DeploymentSpec.Template :=
              {| PodTemplateSpec.ObjectMeta :=
                   {| ObjectMeta.Name := ""; ObjectMeta.Namespace := "";
                      ObjectMeta.Labels :=
                        {[ "name" := "operator";
                           OperatorComponent := "operator";
                           "app" := "operator" ]} |};
                 PodTemplateSpec.Spec :=
                   {| PodSpec.ServiceAccountName := ServiceAccount.Name sa;
                      PodSpec.Containers :=
                        [ {| Container.Name := "operator";
                             (* needed since hypershift operator runs with anyuuid scc *)
                             Container.SecurityContext :=
                               Some {| SecurityContext.RunAsUser := Some 1000 |};
                             Container.Image :=
                               HyperShiftOperatorDeployment.OperatorImage o;
                             Container.ImagePullPolicy := corev1.PullAlways;
                             Container.Env := envVars;
                             Container.Command := ["/usr/bin/hypershift-operator"];
                             Container.Args := args;
                             Container.LivenessProbe :=
                               httpProbe "/metrics" 9000 60 60 1 5 5;
                             Container.ReadinessProbe :=
                               httpProbe "/metrics" 9000 15 60 1 3 5;
                             Container.Ports :=
                               [ {| ContainerPort.Name := "metrics";
                                    ContainerPort.ContainerPort := 9000;
                                    ContainerPort.Protocol := corev1.ProtocolTCP |} ];
                             Container.Resources :=
                               {| ResourceRequirements.Requests :=
                                    {[ corev1.ResourceMemory :=
                                         resource.MustParse "150Mi";
                                       corev1.ResourceCPU :=
                                         resource.MustParse "10m" ]} |};
                             Container.VolumeMounts := oidcVolumeMount |} ];
                      PodSpec.Volumes := oidcVolumeCred |} |} |} |} in
  let privatePlatformType := HyperShiftOperatorDeployment.PrivatePlatform o in
  if String.eqb privatePlatformType NonePlatform then
    alloc (ODeployment deployment)
  else
    (* Add generic provider credentials secret volume *)
    let deployment :=
      append_Volumes [ secretVolume "credentials" awsCredsSecretName ]
        deployment in
    deployment <-
      update_Container0
        (fun c =>
           Container.set_VolumeMounts
             (append (Container.VolumeMounts c)
                [ {| VolumeMount.Name := "credentials";
                     VolumeMount.MountPath := "/etc/provider" |} ]) c)
        deployment;;
    (* Add platform specific settings *)
    deployment <-
      (if String.eqb privatePlatformType AWSPlatform then
         deployment <-
           update_Container0
             (fun c =>
                Container.set_Env
                  (append (Container.Env c)
                     [ {| EnvVar.Name := "AWS_SHARED_CREDENTIALS_FILE";
                          EnvVar.Value := "/etc/provider/credentials";
                          EnvVar.ValueFrom := None |};
                       {| EnvVar.Name := "AWS_REGION";
                          EnvVar.Value :=
                            HyperShiftOperatorDeployment.AWSPrivateRegion o;
                          EnvVar.ValueFrom := None |} ]) c)
             deployment;;
         deployment <-
           update_Container0
             (fun c =>
                Container.set_VolumeMounts
                  (append (Container.VolumeMounts c)
                     [ {| VolumeMount.Name := "token";
                          VolumeMount.MountPath :=
                            "/var/run/secrets/openshift/serviceaccount" |} ]) c)
             deployment;;
         ret (append_Volumes
                [ {| Volume.Name := "token";
                     Volume.VolumeSource :=
                       {| VolumeSource.Secret := None;
                          VolumeSource.Projected :=
                            Some {| ProjectedVolumeSource.Sources :=
                                      [ {| VolumeProjection.ServiceAccountToken :=
                                             Some {| ServiceAccountTokenProjection.Audience := "openshift";
                                                     ServiceAccountTokenProjection.Path := "token" |} |} ] |} |} |} ]
                deployment)
       else ret deployment);;
    alloc (ODeployment deployment).

Definition HyperShiftOperatorService_Build
    (o : HyperShiftOperatorService.t) : M loc :=
  ns <- load asNamespace (HyperShiftOperatorService.Namespace o);;
  alloc
    (OService
       {| Service.TypeMeta := typeMeta "Service" corev1.SchemeGroupVersion;
          Service.ObjectMeta :=
            {| ObjectMeta.Namespace := Namespace.Name ns;
               ObjectMeta.Name := "operator";
               ObjectMeta.Labels := {[ "name" := "operator" ]} |};
          Service.Spec :=
            {| ServiceSpec.Type_ := corev1.ServiceTypeClusterIP;
               ServiceSpec.Selector := {[ "name" := "operator" ]};
               ServiceSpec.Ports :=
                 [ {| ServicePort.Name := "metrics";
                      ServicePort.Protocol := corev1.ProtocolTCP;
                      ServicePort.Port := 9393;
                      ServicePort.TargetPort := intstr.FromString "metrics" |} ]
            |} |}).

Definition ExternalDNSServiceAccount_Build
    (o : ExternalDNSServiceAccount.t) : M loc :=
  ns <- load asNamespace (ExternalDNSServiceAccount.Namespace o);;
  let sa :=
    {| ServiceAccount.TypeMeta :=
         typeMeta "ServiceAccount" corev1.SchemeGroupVersion;
       ServiceAccount.ObjectMeta :=
         objectMeta "external-dns" (Namespace.Name ns) |} in
  alloc (OServiceAccount sa).

Definition ExternalDNSClusterRole_Build (o : ExternalDNSClusterRole.t) : M loc :=
  let role :=
    {| ClusterRole.TypeMeta := typeMeta "ClusterRole" rbacv1.SchemeGroupVersion;
       ClusterRole.ObjectMeta := objectMeta "external-dns" "";
       ClusterRole.Rules :=
         [ {| PolicyRule.APIGroups := ["route.openshift.io"];
              PolicyRule.Resources := ["*"];
              PolicyRule.Verbs := ["get"; "list"; "watch"] |};
           {| PolicyRule.APIGroups := [""];
              PolicyRule.Resources := ["endpoints"; "services"; "nodes"; "pods"];
              PolicyRule.Verbs := ["get"; "list"; "watch"] |} ] |} in
  alloc (OClusterRole role).

Definition ExternalDNSClusterRoleBinding_Build
    (o : ExternalDNSClusterRoleBinding.t) : M loc :=
  cr <- load asClusterRole (ExternalDNSClusterRoleBinding.ClusterRole o);;
  sa <- load asServiceAccount (ExternalDNSClusterRoleBinding.ServiceAccount o);;
  let binding :=
    {| ClusterRoleBinding.TypeMeta :=
         typeMeta "ClusterRoleBinding" rbacv1.SchemeGroupVersion;
       ClusterRoleBinding.ObjectMeta := objectMeta "external-dns" "";
       ClusterRoleBinding.RoleRef :=
         {| RoleRef.APIGroup := "rbac.authorization.k8s.io";
            RoleRef.Kind := "ClusterRole";
            RoleRef.Name := ClusterRole.Name cr |};
       ClusterRoleBinding.Subjects :=
         [ {| Subject.Kind := "ServiceAccount";
              Subject.APIGroup := "";
              Subject.Name := ServiceAccount.Name sa;
              Subject.Namespace := ServiceAccount.Namespace sa |} ] |} in
  alloc (OClusterRoleBinding binding).

Definition HyperShiftOperatorServiceAccount_Build
    (o : HyperShiftOperatorServiceAccount.t) : M loc :=
  ns <- load asNamespace (HyperShiftOperatorServiceAccount.Namespace o);;
  let sa :=
    {| ServiceAccount.TypeMeta :=
         typeMeta "ServiceAccount" corev1.SchemeGroupVersion;
       ServiceAccount.ObjectMeta := objectMeta "operator" (Namespace.Name ns) |} in
  alloc (OServiceAccount sa).

Definition HyperShiftOperatorClusterRole_Build
    (o : HyperShiftOperatorClusterRole.t) : M loc :=
  let rule g r v :=
    {| PolicyRule.APIGroups := g; PolicyRule.Resources := r;
       PolicyRule.Verbs := v |} in
  let role :=
    {| ClusterRole.TypeMeta := typeMeta "ClusterRole" rbacv1.SchemeGroupVersion;
       ClusterRole.ObjectMeta := objectMeta "hypershift-operator" "";
       ClusterRole.Rules :=
         [ rule ["hypershift.openshift.io"] ["*"] ["*"];
           rule ["config.openshift.io"] ["*"] ["get"; "list"; "watch"];
           rule ["apiextensions.k8s.io"] ["customresourcedefinitions"] ["*"];
           rule ["batch"] ["cronjobs"; "jobs"] ["*"];
           rule ["coordination.k8s.io"] ["leases"] ["*"];
           rule ["networking.k8s.io"] ["networkpolicies"] ["*"];
           rule [ "bootstrap.cluster.x-k8s.io";
                  "controlplane.cluster.x-k8s.io";
                  "infrastructure.cluster.x-k8s.io";
                  "machines.cluster.x-k8s.io";
                  "exp.infrastructure.cluster.x-k8s.io";
                  "addons.cluster.x-k8s.io";
                  "exp.cluster.x-k8s.io";
                  "cluster.x-k8s.io";
                  "monitoring.coreos.com" ] ["*"] ["*"];
           rule ["policy"] ["poddisruptionbudgets"] ["*"];
           rule ["operator.openshift.io"] ["*"] ["*"];
           rule ["route.openshift.io"] ["*"] ["*"];
           rule ["security.openshift.io"] ["securitycontextconstraints"] ["*"];
           rule ["rbac.authorization.k8s.io"] ["*"]
                [ "get"; "list"; "watch"; "create"; "update"; "patch"; "delete" ];
           rule [""]
                [ "events"; "configmaps"; "pods"; "pods/log"; "secrets"; "nodes";
                  "namespaces"; "serviceaccounts"; "services"; "endpoints" ]
                ["*"];
           rule ["apps"] ["deployments"; "statefulsets"] ["*"];
           rule ["etcd.database.coreos.com"] ["*"] ["*"];
           rule ["machine.openshift.io"] ["*"] ["*"];
           rule ["monitoring.coreos.com"] ["podmonitors"]
                ["get"; "list"; "watch"; "create"; "update"];
           rule ["capi-provider.agent-install.openshift.io"] ["*"] ["*"];
           rule ["operator.openshift.io"] ["ingresscontrollers"] ["*"];
           rule ["kubevirt.io"] ["virtualmachineinstances"; "virtualmachines"] ["*"];
           rule ["agent-install.openshift.io"] ["agents"] ["*"] ] |} in
  alloc (OClusterRole role).

Definition HyperShiftOperatorClusterRoleBinding_Build
    (o : HyperShiftOperatorClusterRoleBinding.t) : M loc :=
  cr <- load asClusterRole (HyperShiftOperatorClusterRoleBinding.ClusterRole o);;
  sa <- load asServiceAccount
          (HyperShiftOperatorClusterRoleBinding.ServiceAccount o);;
  let binding :=
    {| ClusterRoleBinding.TypeMeta :=
         typeMeta "ClusterRoleBinding" rbacv1.SchemeGroupVersion;
       ClusterRoleBinding.ObjectMeta := objectMeta "hypershift-operator" "";
       ClusterRoleBinding.RoleRef :=
         {| RoleRef.APIGroup := "rbac.authorization.k8s.io";
            RoleRef.Kind := "ClusterRole";
            RoleRef.Name := ClusterRole.Name cr |};
       ClusterRoleBinding.Subjects :=
         [ {| Subject.Kind := "ServiceAccount";
              Subject.APIGroup := "";
              Subject.Name := ServiceAccount.Name sa;
              Subject.Namespace := ServiceAccount.Namespace sa |} ] |} in
  alloc (OClusterRoleBinding binding).

Definition HyperShiftOperatorRole_Build (o : HyperShiftOperatorRole.t) : M loc :=
  ns <- load asNamespace (HyperShiftOperatorRole.Namespace o);;
  let role :=
    {| Role.TypeMeta := typeMeta "Role" rbacv1.SchemeGroupVersion;
       Role.ObjectMeta :=
         {| ObjectMeta.Namespace := Namespace.Name ns;
            ObjectMeta.Name := "hypershift-operator";
            ObjectMeta.Labels := ∅ |};
       Role.Rules :=
         [ {| PolicyRule.APIGroups := ["coordination.k8s.io"];
              PolicyRule.Resources := ["leases"];
              PolicyRule.Verbs := ["*"] |} ] |} in
  alloc (ORole role).

Definition HyperShiftOperatorRoleBinding_Build
    (o : HyperShiftOperatorRoleBinding.t) : M loc :=
  sa <- load asServiceAccount (HyperShiftOperatorRoleBinding.ServiceAccount o);;
  r <- load asRole (HyperShiftOperatorRoleBinding.Role o);;
  let binding :=
    {| RoleBinding.TypeMeta := typeMeta "RoleBinding" rbacv1.SchemeGroupVersion;
       RoleBinding.ObjectMeta :=
         {| ObjectMeta.Namespace := ServiceAccount.Namespace sa;
            ObjectMeta.Name := "hypershift-operator";
            ObjectMeta.Labels := ∅ |};
       RoleBinding.RoleRef :=
         {| RoleRef.APIGroup := "rbac.authorization.k8s.io";
            RoleRef.Kind := "Role";
            RoleRef.Name := Role.Name r |};
       RoleBinding.Subjects :=
         [ {| Subject.Kind := "ServiceAccount";
              Subject.APIGroup := "";
              Subject.Name := ServiceAccount.Name sa;
              Subject.Namespace := ServiceAccount.Namespace sa |} ] |} in
  alloc (ORoleBinding binding).

(** [&schedulingv1.PriorityClass{..., GlobalDefault: false, ...}]. *)
Definition priorityClass (name : string) (value : Z) (description : string)
    : PriorityClass.t :=
  {| PriorityClass.TypeMeta :=
       typeMeta "PriorityClass" schedulingv1.SchemeGroupVersion;
     PriorityClass.ObjectMeta := objectMeta name "";
     PriorityClass.Value := value;
     PriorityClass.GlobalDefault := false;
     PriorityClass.Description := description |}.

Definition HyperShiftControlPlanePriorityClass_Build
    (o : HyperShiftControlPlanePriorityClass.t) : M loc :=
  alloc (OPriorityClass
           (priorityClass DefaultPriorityClass 100000000
              "This priority class should be used for hypershift control plane pods not critical to serving the API.")).

Definition HyperShiftAPICriticalPriorityClass_Build
    (o : HyperShiftAPICriticalPriorityClass.t) : M loc :=
  alloc (OPriorityClass
           (priorityClass APICriticalPriorityClass 100001000
              "This priority class should be used for hypershift control plane pods critical to serving the API.")).

Definition HyperShiftEtcdPriorityClass_Build
    (o : HyperShiftEtcdPriorityClass.t) : M loc :=
  alloc (OPriorityClass
           (priorityClass EtcdPriorityClass 100002000
              "This priority class should be used for hypershift etcd pods.")).

Definition HyperShiftPrometheusRole_Build
    (o : HyperShiftPrometheusRole.t) : M loc :=
  ns <- load asNamespace (HyperShiftPrometheusRole.Namespace o);;
  let role :=
    {| Role.TypeMeta := typeMeta "Role" rbacv1.SchemeGroupVersion;
       Role.ObjectMeta :=
         {| ObjectMeta.Namespace := Namespace.Name ns;
            ObjectMeta.Name := "prometheus";
            ObjectMeta.Labels := ∅ |};
       Role.Rules :=
         [ {| PolicyRule.APIGroups := [""];
              PolicyRule.Resources := ["services"; "endpoints"; "pods"];
              PolicyRule.Verbs := ["get"; "list"; "watch"] |} ] |} in
  alloc (ORole role).

Definition HyperShiftOperatorPrometheusRoleBinding_Build
    (o : HyperShiftOperatorPrometheusRoleBinding.t) : M loc :=
  let subject :=
    {| Subject.Kind := "ServiceAccount";
       Subject.APIGroup := "";
       Subject.Name := "prometheus-user-workload";
       Subject.Namespace := "openshift-user-workload-monitoring" |} in
  let subject :=
    if HyperShiftOperatorPrometheusRoleBinding.EnableOCPClusterMonitoring o
    then Subject.set_Namespace "openshift-monitoring"
           (Subject.set_Name "prometheus-k8s" subject)
    else subject in
  ns <- load asNamespace (HyperShiftOperatorPrometheusRoleBinding.Namespace o);;
  r <- load asRole (HyperShiftOperatorPrometheusRoleBinding.Role o);;
  let binding :=
    {| RoleBinding.TypeMeta := typeMeta "RoleBinding" rbacv1.SchemeGroupVersion;
       RoleBinding.ObjectMeta :=
         {| ObjectMeta.Namespace := Namespace.Name ns;
            ObjectMeta.Name := "prometheus";
            ObjectMeta.Labels := ∅ |};
       RoleBinding.RoleRef :=
         {| RoleRef.APIGroup := "rbac.authorization.k8s.io";
            RoleRef.Kind := "Role";
            RoleRef.Name := Role.Name r |};
       RoleBinding.Subjects := [subject] |} in
  alloc (ORoleBinding binding).

Definition HyperShiftServiceMonitor_Build
    (o : HyperShiftServiceMonitor.t) : M loc :=
  ns <- load asNamespace (HyperShiftServiceMonitor.Namespace o);;
  alloc
    (OServiceMonitor
       {| ServiceMonitor.TypeMeta :=
            typeMeta "ServiceMonitor" prometheusoperatorv1.SchemeGroupVersion;
          ServiceMonitor.ObjectMeta :=
            {| ObjectMeta.Namespace := Namespace.Name ns;
               ObjectMeta.Name := "operator";
               ObjectMeta.Labels := ∅ |};
          ServiceMonitor.Spec :=
            {| ServiceMonitorSpec.JobLabel := "component";
               ServiceMonitorSpec.Selector :=
                 {| LabelSelector.MatchLabels := {[ "name" := "operator" ]} |};
               ServiceMonitorSpec.Endpoints :=
                 [ {| Endpoint.Interval := "30s";
                      Endpoint.Port := "metrics" |} ] |} |}).

Definition HypershiftRecordingRule_Build
    (r : HypershiftRecordingRule.t) : M loc :=
  ns <- load asNamespace (HypershiftRecordingRule.Namespace r);;
  let rule :=
    {| PrometheusRule.TypeMeta :=
         typeMeta "PrometheusRule" prometheusoperatorv1.SchemeGroupVersion;
       PrometheusRule.ObjectMeta :=
         {| ObjectMeta.Namespace := Namespace.Name ns;
            ObjectMeta.Name := "metrics";
            ObjectMeta.Labels := ∅ |};
       PrometheusRule.Spec := PrometheusRuleSpec.zero |} in
  let rule := PrometheusRule.set_Spec recordingRuleSpec rule in
  alloc (OPrometheusRule rule).

Definition HyperShiftClientClusterRole_Build
    (o : HyperShiftClientClusterRole.t) : M loc :=
  let role :=
    {| ClusterRole.TypeMeta := typeMeta "ClusterRole" rbacv1.SchemeGroupVersion;
       ClusterRole.ObjectMeta := objectMeta "hypershift-client" "";
       ClusterRole.Rules :=
         [ {| PolicyRule.APIGroups := ["hypershift.openshift.io"];
              PolicyRule.Resources := ["hostedclusters"; "nodepools"];
              PolicyRule.Verbs := ["*"] |} ] |} in
  alloc (OClusterRole role).

Definition HyperShiftClientServiceAccount_Build
    (o : HyperShiftClientServiceAccount.t) : M loc :=
  ns <- load asNamespace (HyperShiftClientServiceAccount.Namespace o);;
  let sa :=
    {| ServiceAccount.TypeMeta :=
         typeMeta "ServiceAccount" corev1.SchemeGroupVersion;
       ServiceAccount.ObjectMeta :=
         objectMeta "hypershift-client" (Namespace.Name ns) |} in
  alloc (OServiceAccount sa).

Definition HyperShiftClientClusterRoleBinding_Build
    (o : HyperShiftClientClusterRoleBinding.t) : M loc :=
  cr <- load asClusterRole (HyperShiftClientClusterRoleBinding.ClusterRole o);;
  sa <- load asServiceAccount
          (HyperShiftClientClusterRoleBinding.ServiceAccount o);;
  let binding :=
    {| ClusterRoleBinding.TypeMeta :=
         typeMeta "ClusterRoleBinding" rbacv1.SchemeGroupVersion;
       ClusterRoleBinding.ObjectMeta := objectMeta "hypershift-client" "";
       ClusterRoleBinding.RoleRef :=
         {| RoleRef.APIGroup := "rbac.authorization.k8s.io";
            RoleRef.Kind := "ClusterRole";
            RoleRef.Name := ClusterRole.Name cr |};
       ClusterRoleBinding.Subjects :=
         [ {| Subject.Kind := "ServiceAccount";
              Subject.APIGroup := "";
              Subject.Name := ServiceAccount.Name sa;
              Subject.Namespace := ServiceAccount.Namespace sa |};
           {| Subject.Kind := "Group";
              Subject.APIGroup := "rbac.authorization.k8s.io";
              Subject.Name := HyperShiftClientClusterRoleBinding.GroupName o;
              Subject.Namespace := "" |} ] |} in
  alloc (OClusterRoleBinding binding).

Definition HyperShiftReaderClusterRole_Build
    (o : HyperShiftReaderClusterRole.t) : M loc :=
  let rule g r :=
    {| PolicyRule.APIGroups := g; PolicyRule.Resources := r;
       PolicyRule.Verbs := ["get"; "list"; "watch"] |} in
  let role :=
    {| ClusterRole.TypeMeta := typeMeta "ClusterRole" rbacv1.SchemeGroupVersion;
       ClusterRole.ObjectMeta := objectMeta "hypershift-readers" "";
       ClusterRole.Rules :=
         [ rule ["hypershift.openshift.io"] ["*"];
           rule ["config.openshift.io"] ["*"];
           rule ["apiextensions.k8s.io"] ["customresourcedefinitions"];
           rule ["networking.k8s.io"] ["networkpolicies"];
           rule [ "bootstrap.cluster.x-k8s.io";
                  "controlplane.cluster.x-k8s.io";
                  "infrastructure.cluster.x-k8s.io";
                  "machines.cluster.x-k8s.io";
                  "exp.infrastructure.cluster.x-k8s.io";
                  "addons.cluster.x-k8s.io";
                  "exp.cluster.x-k8s.io";
                  "cluster.x-k8s.io" ] ["*"];
           rule ["operator.openshift.io"] ["*"];
           rule ["route.openshift.io"] ["*"];
           rule ["security.openshift.io"] ["securitycontextconstraints"];
           rule ["rbac.authorization.k8s.io"] ["*"];
           rule [""]
                [ "events"; "configmaps"; "pods"; "pods/log"; "nodes";
                  "namespaces"; "serviceaccounts"; "services" ];
           rule ["apps"] ["deployments"];
           rule ["etcd.database.coreos.com"] ["*"];
           rule ["machine.openshift.io"] ["*"];
           rule ["monitoring.coreos.com"] ["podmonitors"];
           rule ["capi-provider.agent-install.openshift.io"] ["*"] ] |} in
  alloc (OClusterRole role).

Definition HyperShiftReaderClusterRoleBinding_Build
    (o : HyperShiftReaderClusterRoleBinding.t) : M loc :=
  cr <- load asClusterRole (HyperShiftReaderClusterRoleBinding.ClusterRole o);;
  let binding :=
    {| ClusterRoleBinding.TypeMeta :=
         typeMeta "ClusterRoleBinding" rbacv1.SchemeGroupVersion;
       ClusterRoleBinding.ObjectMeta := objectMeta "hypershift-readers" "";
       ClusterRoleBinding.RoleRef :=
         {| RoleRef.APIGroup := "rbac.authorization.k8s.io";
            RoleRef.Kind := "ClusterRole";
            RoleRef.Name := ClusterRole.Name cr |};
       ClusterRoleBinding.Subjects :=
         [ {| Subject.Kind := "Group";
              Subject.APIGroup := "rbac.authorization.k8s.io";
              Subject.Name := HyperShiftReaderClusterRoleBinding.GroupName o;
              Subject.Namespace := "" |} ] |} in
  alloc (OClusterRoleBinding binding).

(** Every builder of the package, and its [Build] method. *)
Inductive Builder :=
| BHyperShiftNamespace (o : HyperShiftNamespace.t)
| BHyperShiftOperatorCredentialsSecret (o : HyperShiftOperatorCredentialsSecret.t)
| BHyperShiftOperatorOIDCProviderS3Secret (o : HyperShiftOperatorOIDCProviderS3Secret.t)
| BExternalDNSCredsSecret (o : ExternalDNSCredsSecret.t)
| BExternalDNSDeployment (o : ExternalDNSDeployment.t)
| BHyperShiftOperatorDeployment (o : HyperShiftOperatorDeployment.t)
| BHyperShiftOperatorService (o : HyperShiftOperatorService.t)
| BExternalDNSServiceAccount (o : ExternalDNSServiceAccount.t)
| BExternalDNSClusterRole (o : ExternalDNSClusterRole.t)
| BExternalDNSClusterRoleBinding (o : ExternalDNSClusterRoleBinding.t)
| BHyperShiftOperatorServiceAccount (o : HyperShiftOperatorServiceAccount.t)
| BHyperShiftOperatorClusterRole (o : HyperShiftOperatorClusterRole.t)
| BHyperShiftOperatorClusterRoleBinding (o : HyperShiftOperatorClusterRoleBinding.t)
| BHyperShiftOperatorRole (o : HyperShiftOperatorRole.t)
| BHyperShiftOperatorRoleBinding (o : HyperShiftOperatorRoleBinding.t)
| BHyperShiftControlPlanePriorityClass (o : HyperShiftControlPlanePriorityClass.t)
| BHyperShiftAPICriticalPriorityClass (o : HyperShiftAPICriticalPriorityClass.t)
| BHyperShiftEtcdPriorityClass (o : HyperShiftEtcdPriorityClass.t)
| BHyperShiftPrometheusRole (o : HyperShiftPrometheusRole.t)
| BHyperShiftOperatorPrometheusRoleBinding (o : HyperShiftOperatorPrometheusRoleBinding.t)
| BHyperShiftServiceMonitor (o : HyperShiftServiceMonitor.t)
| BHypershiftRecordingRule (o : HypershiftRecordingRule.t)
| BHyperShiftClientClusterRole (o : HyperShiftClientClusterRole.t)
| BHyperShiftClientServiceAccount (o : HyperShiftClientServiceAccount.t)
| BHyperShiftClientClusterRoleBinding (o : HyperShiftClientClusterRoleBinding.t)
| BHyperShiftReaderClusterRole (o : HyperShiftReaderClusterRole.t)
| BHyperShiftReaderClusterRoleBinding (o : HyperShiftReaderClusterRoleBinding.t).

Definition Build (b : Builder) : M loc :=
  match b with
  | BHyperShiftNamespace o => HyperShiftNamespace_Build o
  | BHyperShiftOperatorCredentialsSecret o =>
      HyperShiftOperatorCredentialsSecret_Build o
  | BHyperShiftOperatorOIDCProviderS3Secret o =>
      HyperShiftOperatorOIDCProviderS3Secret_Build o
  | BExternalDNSCredsSecret o => ExternalDNSCredsSecret_Build o
  | BExternalDNSDeployment o => ExternalDNSDeployment_Build o
  | BHyperShiftOperatorDeployment o => HyperShiftOperatorDeployment_Build o
  | BHyperShiftOperatorService o => HyperShiftOperatorService_Build o
  | BExternalDNSServiceAccount o => ExternalDNSServiceAccount_Build o
  | BExternalDNSClusterRole o => ExternalDNSClusterRole_Build o
  | BExternalDNSClusterRoleBinding o => ExternalDNSClusterRoleBinding_Build o
  | BHyperShiftOperatorServiceAccount o =>
      HyperShiftOperatorServiceAccount_Build o
  | BHyperShiftOperatorClusterRole o => HyperShiftOperatorClusterRole_Build o
  | BHyperShiftOperatorClusterRoleBinding o =>
      HyperShiftOperatorClusterRoleBinding_Build o
  | BHyperShiftOperatorRole o => HyperShiftOperatorRole_Build o
  | BHyperShiftOperatorRoleBinding o => HyperShiftOperatorRoleBinding_Build o
  | BHyperShiftControlPlanePriorityClass o =>
      HyperShiftControlPlanePriorityClass_Build o
  | BHyperShiftAPICriticalPriorityClass o =>
      HyperShiftAPICriticalPriorityClass_Build o
  | BHyperShiftEtcdPriorityClass o => HyperShiftEtcdPriorityClass_Build o
  | BHyperShiftPrometheusRole o => HyperShiftPrometheusRole_Build o
  | BHyperShiftOperatorPrometheusRoleBinding o =>
      HyperShiftOperatorPrometheusRoleBinding_Build o
  | BHyperShiftServiceMonitor o => HyperShiftServiceMonitor_Build o
  | BHypershiftRecordingRule o => HypershiftRecordingRule_Build o
  | BHyperShiftClientClusterRole o => HyperShiftClientClusterRole_Build o
  | BHyperShiftClientServiceAccount o => HyperShiftClientServiceAccount_Build o
  | BHyperShiftClientClusterRoleBinding o =>
      HyperShiftClientClusterRoleBinding_Build o
  | BHyperShiftReaderClusterRole o => HyperShiftReaderClusterRole_Build o
  | BHyperShiftReaderClusterRoleBinding o =>
      HyperShiftReaderClusterRoleBinding_Build o
  end.

(** The pointer fields of a builder: the caller's objects its
    configuration references. *)
Definition pointers (b : Builder) : list ptr :=
  match b with
  | BHyperShiftNamespace o => []
  | BHyperShiftOperatorCredentialsSecret o =>
      [HyperShiftOperatorCredentialsSecret.Namespace o]
  | BHyperShiftOperatorOIDCProviderS3Secret o =>
      [HyperShiftOperatorOIDCProviderS3Secret.Namespace o]
  | BExternalDNSCredsSecret o => [ExternalDNSCredsSecret.Namespace o]
  | BExternalDNSDeployment o =>
      [ ExternalDNSDeployment.Namespace o;
        ExternalDNSDeployment.ServiceAccount o;
        ExternalDNSDeployment.CredentialsSecret o ]
  | BHyperShiftOperatorDeployment o =>
      [ HyperShiftOperatorDeployment.Namespace o;
        HyperShiftOperatorDeployment.ServiceAccount o;
        HyperShiftOperatorDeployment.OIDCStorageProviderS3Secret o ]
  | BHyperShiftOperatorService o => [HyperShiftOperatorService.Namespace o]
  | BExternalDNSServiceAccount o => [ExternalDNSServiceAccount.Namespace o]
  | BExternalDNSClusterRole o => []
  | BExternalDNSClusterRoleBinding o =>
      [ ExternalDNSClusterRoleBinding.ClusterRole o;
        ExternalDNSClusterRoleBinding.ServiceAccount o ]
  | BHyperShiftOperatorServiceAccount o =>
      [HyperShiftOperatorServiceAccount.Namespace o]
  | BHyperShiftOperatorClusterRole o => []
  | BHyperShiftOperatorClusterRoleBinding o =>
      [ HyperShiftOperatorClusterRoleBinding.ClusterRole o;
        HyperShiftOperatorClusterRoleBinding.ServiceAccount o ]
  | BHyperShiftOperatorRole o => [HyperShiftOperatorRole.Namespace o]
  | BHyperShiftOperatorRoleBinding o =>
      [ HyperShiftOperatorRoleBinding.Role o;
        HyperShiftOperatorRoleBinding.ServiceAccount o ]
  | BHyperShiftControlPlanePriorityClass o => []
  | BHyperShiftAPICriticalPriorityClass o => []
  | BHyperShiftEtcdPriorityClass o => []
  | BHyperShiftPrometheusRole o => [HyperShiftPrometheusRole.Namespace o]
  | BHyperShiftOperatorPrometheusRoleBinding o =>
      [ HyperShiftOperatorPrometheusRoleBinding.Namespace o;
        HyperShiftOperatorPrometheusRoleBinding.Role o ]
  | BHyperShiftServiceMonitor o => [HyperShiftServiceMonitor.Namespace o]
  | BHypershiftRecordingRule o => [HypershiftRecordingRule.Namespace o]
  | BHyperShiftClientClusterRole o => []
  | BHyperShiftClientServiceAccount o =>
      [HyperShiftClientServiceAccount.Namespace o]
  | BHyperShiftClientClusterRoleBinding o =>
      [ HyperShiftClientClusterRoleBinding.ClusterRole o;
        HyperShiftClientClusterRoleBinding.ServiceAccount o ]
  | BHyperShiftReaderClusterRole o => []
  | BHyperShiftReaderClusterRoleBinding o =>
      [HyperShiftReaderClusterRoleBinding.ClusterRole o]
  end.

(** Two heaps hold the same cells behind the pointers [ps]. *)
Definition agree (ps : list ptr) (h1 h2 : Heap) : Prop :=
  forall l : loc, In (Some l) ps -> h1 !! l = h2 !! l.

(** ** Package infra *)

(** [aws.NewDestroyCommand()] and [azure.NewDestroyCommand()], of the
    packages [cmd/infra/aws] and [cmd/infra/azure]. *)
Variables aws_NewDestroyCommand azure_NewDestroyCommand : cobra.Command.

Definition NewDestroyCommand : cobra.Command :=
  let cmd :=
    {| cobra.Use := "infra";
       cobra.Short := "Commands for destroying HyperShift infra resources";
       cobra.SilenceUsage := true;
       cobra.flags := [];
       cobra.pflags := [];
       cobra.commands := [] |} in
  let cmd := cobra.AddCommand [aws_NewDestroyCommand] cmd in
  let cmd := cobra.AddCommand [azure_NewDestroyCommand] cmd in
  cmd.

(** ** Reading a Deployment *)

(** [d.Spec.Template.Spec.Containers[0]], when there is one. *)
Definition container0 (d : Deployment.t) : option Container.t :=
  head (PodSpec.Containers (Deployment.PodSpec d)).

Definition volumes (d : Deployment.t) : list Volume.t :=
  PodSpec.Volumes (Deployment.PodSpec d).

(** The condition under which the OIDC storage provider is configured:
    bucket name, bucket region and secret key are not empty, the secret
    pointer is not nil and the secret's name is not empty. *)
Definition oidc_configured (h : Heap) (o : HyperShiftOperatorDeployment.t)
    : Prop :=
  HyperShiftOperatorDeployment.OIDCBucketName o <> ""
  /\ HyperShiftOperatorDeployment.OIDCBucketRegion o <> ""
  /\ HyperShiftOperatorDeployment.OIDCStorageProviderS3SecretKey o <> ""
  /\ exists s,
       deref asSecret h
         (HyperShiftOperatorDeployment.OIDCStorageProviderS3Secret o) = Some s
       /\ Secret.Name s <> "".

(** The same condition, computed. *)
Definition oidc_configuredb (h : Heap) (o : HyperShiftOperatorDeployment.t)
    : bool :=
  nonempty (HyperShiftOperatorDeployment.OIDCBucketName o)
  && nonempty (HyperShiftOperatorDeployment.OIDCBucketRegion o)
  && nonempty (HyperShiftOperatorDeployment.OIDCStorageProviderS3SecretKey o)
  && match deref asSecret h
             (HyperShiftOperatorDeployment.OIDCStorageProviderS3Secret o) with
     | Some s => nonempty (Secret.Name s)
     | None => false
     end.

(** An argument of the OIDC storage provider. *)
Definition is_oidc_arg (a : string) : bool :=
  String.prefix "--oidc-storage-provider-s3-" a.

(** The slices [HyperShiftOperatorDeployment.Build] leaves in the operator
    container and in the pod, as a function of the branches taken. *)
Definition oidc_secret_name (h : Heap) (o : HyperShiftOperatorDeployment.t)
    : string :=
  match deref asSecret h
          (HyperShiftOperatorDeployment.OIDCStorageProviderS3Secret o) with
  | Some s => Secret.Name s
  | None => ""
  end.

Definition oidc_args (o : HyperShiftOperatorDeployment.t) : list string :=
  [ "--oidc-storage-provider-s3-bucket-name=" +:+
      HyperShiftOperatorDeployment.OIDCBucketName o;
    "--oidc-storage-provider-s3-region=" +:+
      HyperShiftOperatorDeployment.OIDCBucketRegion o;
    "--oidc-storage-provider-s3-credentials=/etc/oidc-storage-provider-s3-creds/" +:+
      HyperShiftOperatorDeployment.OIDCStorageProviderS3SecretKey o ].

Definition oidc_mount : VolumeMount.t :=
  {| VolumeMount.Name := "oidc-storage-provider-s3-creds";
     VolumeMount.MountPath := "/etc/oidc-storage-provider-s3-creds" |}.

Definition credentials_mount : VolumeMount.t :=
  {| VolumeMount.Name := "credentials"; VolumeMount.MountPath := "/etc/provider" |}.

Definition token_mount : VolumeMount.t :=
  {| VolumeMount.Name := "token";
     VolumeMount.MountPath := "/var/run/secrets/openshift/serviceaccount" |}.

Definition token_volume : Volume.t :=
  {| Volume.Name := "token";
     Volume.VolumeSource :=
       {| VolumeSource.Secret := None;
          VolumeSource.Projected :=
            Some {| ProjectedVolumeSource.Sources :=
                      [ {| VolumeProjection.ServiceAccountToken :=
                             Some {| ServiceAccountTokenProjection.Audience := "openshift";
                                     ServiceAccountTokenProjection.Path := "token" |} |} ] |} |} |}.

Definition env (name value : string) : EnvVar.t :=
  {| EnvVar.Name := name; EnvVar.Value := value; EnvVar.ValueFrom := None |}.

Definition operator_args (h : Heap) (o : HyperShiftOperatorDeployment.t)
    : list string :=
  ([ "run";
     "--namespace=$(MY_NAMESPACE)";
     "--deployment-name=operator";
     "--metrics-addr=:9000";
     "--enable-ocp-cluster-monitoring=" +:+
       fmt_t (HyperShiftOperatorDeployment.EnableOCPClusterMonitoring o);
     "--enable-ci-debug-output=" +:+
       fmt_t (HyperShiftOperatorDeployment.EnableCIDebugOutput o);
     "--private-platform=" +:+ HyperShiftOperatorDeployment.PrivatePlatform o ]
   ++ if oidc_configuredb h o then oidc_args o else [])%list.

Definition operator_env (o : HyperShiftOperatorDeployment.t) : list EnvVar.t :=
  ({| EnvVar.Name := "MY_NAMESPACE";
      EnvVar.Value := "";
      EnvVar.ValueFrom :=
        Some {| EnvVarSource.FieldRef :=
                  Some {| ObjectFieldSelector.FieldPath :=
                            "metadata.namespace" |} |} |}
   :: if String.eqb (HyperShiftOperatorDeployment.PrivatePlatform o) NonePlatform
      then []
      else if String.eqb (HyperShiftOperatorDeployment.PrivatePlatform o) AWSPlatform
      then [ env "AWS_SHARED_CREDENTIALS_FILE" "/etc/provider/credentials";
             env "AWS_REGION" (HyperShiftOperatorDeployment.AWSPrivateRegion o) ]
      else [])%list.

Definition operator_mounts (h : Heap) (o : HyperShiftOperatorDeployment.t)
    : list VolumeMount.t :=
  ((if oidc_configuredb h o then [oidc_mount] else [])
   ++ if String.eqb (HyperShiftOperatorDeployment.PrivatePlatform o) NonePlatform
      then []
      else credentials_mount
           :: if String.eqb (HyperShiftOperatorDeployment.PrivatePlatform o)
                   AWSPlatform
              then [token_mount] else [])%list.

Definition operator_volumes (h : Heap) (o : HyperShiftOperatorDeployment.t)
    : list Volume.t :=
  ((if oidc_configuredb h o
    then [secretVolume "oidc-storage-provider-s3-creds" (oidc_secret_name h o)]
    else [])
   ++ if String.eqb (HyperShiftOperatorDeployment.PrivatePlatform o) NonePlatform
      then []
      else secretVolume "credentials" awsCredsSecretName
           :: if String.eqb (HyperShiftOperatorDeployment.PrivatePlatform o)
                   AWSPlatform
              then [token_volume] else [])%list.

(** ** Computations that only read, computations that allocate *)

(** [m] leaves the heap as it is, and what it returns depends only on the
    cells behind [ps]. *)
Definition reader {A} (ps : list ptr) (m : M A) : Prop :=
  (forall h a h', m h = Some (a, h') -> h' = h)
  /\ (forall h1 h2, agree ps h1 h2 -> fst <$> m h1 = fst <$> m h2).

(** [m] adds one cell at the end of the heap and returns its location;
    the object in that cell depends only on the cells behind [ps]. *)
Definition allocator (ps : list ptr) (m : M loc) : Prop :=
  (forall h l h', m h = Some (l, h') ->
     l = length h /\ exists o, h' = (h ++ [o])%list)
  /\ (forall h1 h2, agree ps h1 h2 -> result m h1 = result m h2).

(** ** An installation

    The objects an installation creates before its Deployments and
    bindings, built in an empty heap in the order of their locations. *)
Definition install_namespace : loc := 0%nat.
Definition install_operator_sa : loc := 1%nat.
Definition install_operator_clusterrole : loc := 2%nat.
Definition install_operator_role : loc := 3%nat.
Definition install_oidc_secret : loc := 4%nat.
Definition install_externaldns_sa : loc := 5%nat.
Definition install_externaldns_clusterrole : loc := 6%nat.
Definition install_externaldns_creds : loc := 7%nat.
Definition install_prometheus_role : loc := 8%nat.

Definition install_objects : M loc :=
  ns <- HyperShiftNamespace_Build
          {| HyperShiftNamespace.Name := "hypershift";
             HyperShiftNamespace.EnableOCPClusterMonitoring := false |};;
  _ <- HyperShiftOperatorServiceAccount_Build
         {| HyperShiftOperatorServiceAccount.Namespace := Some ns |};;
  _ <- HyperShiftOperatorClusterRole_Build HyperShiftOperatorClusterRole.mk;;
  _ <- HyperShiftOperatorRole_Build
         {| HyperShiftOperatorRole.Namespace := Some ns |};;
  _ <- HyperShiftOperatorOIDCProviderS3Secret_Build
         {| HyperShiftOperatorOIDCProviderS3Secret.Namespace := Some ns;
            HyperShiftOperatorOIDCProviderS3Secret.OIDCStorageProviderS3CredBytes :=
              [Byte.x41; Byte.x4b];
            HyperShiftOperatorOIDCProviderS3Secret.CredsKey := "credentials" |};;
  _ <- ExternalDNSServiceAccount_Build
         {| ExternalDNSServiceAccount.Namespace := Some ns |};;
  _ <- ExternalDNSClusterRole_Build ExternalDNSClusterRole.mk;;
  _ <- ExternalDNSCredsSecret_Build
         {| ExternalDNSCredsSecret.Namespace := Some ns;
            ExternalDNSCredsSecret.CredsBytes := [Byte.x41; Byte.x4b] |};;
  HyperShiftPrometheusRole_Build
    {| HyperShiftPrometheusRole.Namespace := Some ns |}.

Definition install_heap : Heap :=
  match install_objects [] with
  | Some (_, h) => h
  | None => []
  end.

Definition install_externaldns : ExternalDNSDeployment.t :=
  {| ExternalDNSDeployment.Namespace := Some install_namespace;
     ExternalDNSDeployment.Image := "quay.io/external-dns:latest";
     ExternalDNSDeployment.ServiceAccount := Some install_externaldns_sa;
     ExternalDNSDeployment.Provider := "aws";
     ExternalDNSDeployment.DomainFilter := "example.com";
     ExternalDNSDeployment.CredentialsSecret := Some install_externaldns_creds |}.

Definition install_operator : HyperShiftOperatorDeployment.t :=
  {| HyperShiftOperatorDeployment.Namespace := Some install_namespace;
     HyperShiftOperatorDeployment.OperatorImage := "quay.io/hypershift:latest";
     HyperShiftOperatorDeployment.ServiceAccount := Some install_operator_sa;
     HyperShiftOperatorDeployment.Replicas := 1;
     HyperShiftOperatorDeployment.EnableOCPClusterMonitoring := false;
     HyperShiftOperatorDeployment.EnableCIDebugOutput := false;
     HyperShiftOperatorDeployment.PrivatePlatform := "AWS";
     HyperShiftOperatorDeployment.AWSPrivateCreds := "/creds";
     HyperShiftOperatorDeployment.AWSPrivateRegion := "eu-west-1";
     HyperShiftOperatorDeployment.OIDCBucketName := "bucket";
     HyperShiftOperatorDeployment.OIDCBucketRegion := "eu-west-1";
     HyperShiftOperatorDeployment.OIDCStorageProviderS3Secret :=
       Some install_oidc_secret;
     HyperShiftOperatorDeployment.OIDCStorageProviderS3SecretKey := "credentials" |}.

Definition install_prometheus_binding
    : HyperShiftOperatorPrometheusRoleBinding.t :=
  {| HyperShiftOperatorPrometheusRoleBinding.Namespace := Some install_namespace;
     HyperShiftOperatorPrometheusRoleBinding.Role := Some install_prometheus_role;
     HyperShiftOperatorPrometheusRoleBinding.EnableOCPClusterMonitoring := true |}.

(** ** Reading an object *)

Definition type_meta (o : Object) : TypeMeta.t :=
  match o with
  | ONamespace v => Namespace.TypeMeta v
  | OSecret v => Secret.TypeMeta v
  | OServiceAccount v => ServiceAccount.TypeMeta v
  | ODeployment v => Deployment.TypeMeta v
  | OService v => Service.TypeMeta v
  | OClusterRole v => ClusterRole.TypeMeta v
  | ORole v => Role.TypeMeta v
  | OClusterRoleBinding v => ClusterRoleBinding.TypeMeta v
  | ORoleBinding v => RoleBinding.TypeMeta v
  | OPriorityClass v => PriorityClass.TypeMeta v
  | OServiceMonitor v => ServiceMonitor.TypeMeta v
  | OPrometheusRule v => PrometheusRule.TypeMeta v
  end.

Definition object_meta (o : Object) : ObjectMeta.t :=
  match o with
  | ONamespace v => Namespace.ObjectMeta v
  | OSecret v => Secret.ObjectMeta v
  | OServiceAccount v => ServiceAccount.ObjectMeta v
  | ODeployment v => Deployment.ObjectMeta v
  | OService v => Service.ObjectMeta v
  | OClusterRole v => ClusterRole.ObjectMeta v
  | ORole v => Role.ObjectMeta v
  | OClusterRoleBinding v => ClusterRoleBinding.ObjectMeta v
  | ORoleBinding v => RoleBinding.ObjectMeta v
  | OPriorityClass v => PriorityClass.ObjectMeta v
  | OServiceMonitor v => ServiceMonitor.ObjectMeta v
  | OPrometheusRule v => PrometheusRule.ObjectMeta v
  end.

(** The kind and apiVersion under which the API serves each Go type. *)
Definition registered (o : Object) : TypeMeta.t :=
  match o with
  | ONamespace _ =>
      {| TypeMeta.Kind := "Namespace"; TypeMeta.APIVersion := "v1" |}
  | OSecret _ => {| TypeMeta.Kind := "Secret"; TypeMeta.APIVersion := "v1" |}
  | OServiceAccount _ =>
      {| TypeMeta.Kind := "ServiceAccount"; TypeMeta.APIVersion := "v1" |}
  | ODeployment _ =>
      {| TypeMeta.Kind := "Deployment"; TypeMeta.APIVersion := "apps/v1" |}
  | OService _ => {| TypeMeta.Kind := "Service"; TypeMeta.APIVersion := "v1" |}
  | OClusterRole _ =>
      {| TypeMeta.Kind := "ClusterRole";
         TypeMeta.APIVersion := "rbac.authorization.k8s.io/v1" |}
  | ORole _ =>
      {| TypeMeta.Kind := "Role";
         TypeMeta.APIVersion := "rbac.authorization.k8s.io/v1" |}
  | OClusterRoleBinding _ =>
      {| TypeMeta.Kind := "ClusterRoleBinding";
         TypeMeta.APIVersion := "rbac.authorization.k8s.io/v1" |}
  | ORoleBinding _ =>
      {| TypeMeta.Kind := "RoleBinding";
         TypeMeta.APIVersion := "rbac.authorization.k8s.io/v1" |}
  | OPriorityClass _ =>
      {| TypeMeta.Kind := "PriorityClass";
         TypeMeta.APIVersion := "scheduling.k8s.io/v1" |}
  | OServiceMonitor _ =>
      {| TypeMeta.Kind := "ServiceMonitor";
         TypeMeta.APIVersion := "monitoring.coreos.com/v1" |}
  | OPrometheusRule _ =>
      {| TypeMeta.Kind := "PrometheusRule";
         TypeMeta.APIVersion := "monitoring.coreos.com/v1" |}
  end.

(** The types whose objects live outside any namespace. *)
Definition cluster_scoped (o : Object) : bool :=
  match o with
  | ONamespace _ | OClusterRole _ | OClusterRoleBinding _ | OPriorityClass _ =>
      true
  | _ => false
  end.

(** ** The pointer fields of the builders *)

(** The static types of the pointer fields. *)
Inductive PointerType :=
| PNamespace | PSecret | PServiceAccount | PClusterRole | PRole.

Definition fields (b : Builder) : list (PointerType * ptr) :=
  match b with
  | BHyperShiftOperatorCredentialsSecret o =>
      [(PNamespace, HyperShiftOperatorCredentialsSecret.Namespace o)]
  | BHyperShiftOperatorOIDCProviderS3Secret o =>
      [(PNamespace, HyperShiftOperatorOIDCProviderS3Secret.Namespace o)]
  | BExternalDNSCredsSecret o =>
      [(PNamespace, ExternalDNSCredsSecret.Namespace o)]
  | BExternalDNSDeployment o =>
      [ (PNamespace, ExternalDNSDeployment.Namespace o);
        (PServiceAccount, ExternalDNSDeployment.ServiceAccount o);
        (PSecret, ExternalDNSDeployment.CredentialsSecret o) ]
  | BHyperShiftOperatorDeployment o =>
      [ (PNamespace, HyperShiftOperatorDeployment.Namespace o);
        (PServiceAccount, HyperShiftOperatorDeployment.ServiceAccount o);
        (PSecret, HyperShiftOperatorDeployment.OIDCStorageProviderS3Secret o) ]
  | BHyperShiftOperatorService o =>
      [(PNamespace, HyperShiftOperatorService.Namespace o)]
  | BExternalDNSServiceAccount o =>
      [(PNamespace, ExternalDNSServiceAccount.Namespace o)]
  | BExternalDNSClusterRoleBinding o =>
      [ (PClusterRole, ExternalDNSClusterRoleBinding.ClusterRole o);
        (PServiceAccount, ExternalDNSClusterRoleBinding.ServiceAccount o) ]
  | BHyperShiftOperatorServiceAccount o =>
      [(PNamespace, HyperShiftOperatorServiceAccount.Namespace o)]
  | BHyperShiftOperatorClusterRoleBinding o =>
      [ (PClusterRole, HyperShiftOperatorClusterRoleBinding.ClusterRole o);
        (PServiceAccount, HyperShiftOperatorClusterRoleBinding.ServiceAccount o) ]
  | BHyperShiftOperatorRole o =>
      [(PNamespace, HyperShiftOperatorRole.Namespace o)]
  | BHyperShiftOperatorRoleBinding o =>
      [ (PRole, HyperShiftOperatorRoleBinding.Role o);
        (PServiceAccount, HyperShiftOperatorRoleBinding.ServiceAccount o) ]
  | BHyperShiftPrometheusRole o =>
      [(PNamespace, HyperShiftPrometheusRole.Namespace o)]
  | BHyperShiftOperatorPrometheusRoleBinding o =>
      [ (PNamespace, HyperShiftOperatorPrometheusRoleBinding.Namespace o);
        (PRole, HyperShiftOperatorPrometheusRoleBinding.Role o) ]
  | BHyperShiftServiceMonitor o =>
      [(PNamespace, HyperShiftServiceMonitor.Namespace o)]
  | BHypershiftRecordingRule o =>
      [(PNamespace, HypershiftRecordingRule.Namespace o)]
  | BHyperShiftClientServiceAccount o =>
      [(PNamespace, HyperShiftClientServiceAccount.Namespace o)]
  | BHyperShiftClientClusterRoleBinding o =>
      [ (PClusterRole, HyperShiftClientClusterRoleBinding.ClusterRole o);
        (PServiceAccount, HyperShiftClientClusterRoleBinding.ServiceAccount o) ]
  | BHyperShiftReaderClusterRoleBinding o =>
      [(PClusterRole, HyperShiftReaderClusterRoleBinding.ClusterRole o)]
  | _ => []
  end.

(** A field as Go's typing keeps it: nil, or a cell of the field's type. *)
Definition well_typed_field (h : Heap) (f : PointerType * ptr) : Prop :=
  match fst f with
  | PNamespace => well_typed asNamespace h (snd f)
  | PSecret => well_typed asSecret h (snd f)
  | PServiceAccount => well_typed asServiceAccount h (snd f)
  | PClusterRole => well_typed asClusterRole h (snd f)
  | PRole => well_typed asRole h (snd f)
  end.

(** The pointer fields [Build] reads through without a nil check: all of
    them but the OIDC secret of the operator Deployment. *)
Definition required (b : Builder) : list ptr :=
  match b with
  | BHyperShiftOperatorDeployment o =>
      [ HyperShiftOperatorDeployment.Namespace o;
        HyperShiftOperatorDeployment.ServiceAccount o ]
  | _ => map snd (fields b)
  end.

(** The [Namespace] field of the builders that have one. *)
Definition namespace_field (b : Builder) : option ptr :=
  match fields b with
  | (PNamespace, p) :: _ => Some p
  | _ => None
  end.

(** ** Reading a container and a role *)

(** The ports the HTTP probes of a container connect to. *)
Definition probe_ports (c : Container.t) : list intstr.IntOrString :=
  omap (fun p : option Probe.t =>
          match p with
          | Some pr =>
              match ProbeHandler.HTTPGet (Probe.ProbeHandler pr) with
              | Some g => Some (HTTPGetAction.Port g)
              | None => None
              end
          | None => None
          end)
       [Container.LivenessProbe c; Container.ReadinessProbe c].

(** The verbs that only read. *)
Definition read_verb (v : string) : bool :=
  String.eqb v "get" || String.eqb v "list" || String.eqb v "watch".

(** [o] with the field [AWSPrivateCreds], or [AWSPrivateRegion], set to
    [v]. *)
Definition with_AWSPrivateCreds (v : string)
    (o : HyperShiftOperatorDeployment.t) : HyperShiftOperatorDeployment.t :=
  {| HyperShiftOperatorDeployment.Namespace :=
       HyperShiftOperatorDeployment.Namespace o;
     HyperShiftOperatorDeployment.OperatorImage :=
       HyperShiftOperatorDeployment.OperatorImage o;
     HyperShiftOperatorDeployment.ServiceAccount :=
       HyperShiftOperatorDeployment.ServiceAccount o;
     HyperShiftOperatorDeployment.Replicas :=
       HyperShiftOperatorDeployment.Replicas o;
     HyperShiftOperatorDeployment.EnableOCPClusterMonitoring :=
       HyperShiftOperatorDeployment.EnableOCPClusterMonitoring o;
     HyperShiftOperatorDeployment.EnableCIDebugOutput :=
       HyperShiftOperatorDeployment.EnableCIDebugOutput o;
     HyperShiftOperatorDeployment.PrivatePlatform :=
       HyperShiftOperatorDeployment.PrivatePlatform o;
     HyperShiftOperatorDeployment.AWSPrivateCreds := v;
     HyperShiftOperatorDeployment.AWSPrivateRegion :=
       HyperShiftOperatorDeployment.AWSPrivateRegion o;
     HyperShiftOperatorDeployment.OIDCBucketName :=
       HyperShiftOperatorDeployment.OIDCBucketName o;
     HyperShiftOperatorDeployment.OIDCBucketRegion :=
       HyperShiftOperatorDeployment.OIDCBucketRegion o;
     HyperShiftOperatorDeployment.OIDCStorageProviderS3Secret :=
       HyperShiftOperatorDeployment.OIDCStorageProviderS3Secret o;
     HyperShiftOperatorDeployment.OIDCStorageProviderS3SecretKey :=
       HyperShiftOperatorDeployment.OIDCStorageProviderS3SecretKey o |}.

Definition with_AWSPrivateRegion (v : string)
    (o : HyperShiftOperatorDeployment.t) : HyperShiftOperatorDeployment.t :=
  {| HyperShiftOperatorDeployment.Namespace :=
       HyperShiftOperatorDeployment.Namespace o;
     HyperShiftOperatorDeployment.OperatorImage :=
       HyperShiftOperatorDeployment.OperatorImage o;
     HyperShiftOperatorDeployment.ServiceAccount :=
       HyperShiftOperatorDeployment.ServiceAccount o;
     HyperShiftOperatorDeployment.Replicas :=
       HyperShiftOperatorDeployment.Replicas o;
     HyperShiftOperatorDeployment.EnableOCPClusterMonitoring :=
       HyperShiftOperatorDeployment.EnableOCPClusterMonitoring o;
     HyperShiftOperatorDeployment.EnableCIDebugOutput :=
       HyperShiftOperatorDeployment.EnableCIDebugOutput o;
     HyperShiftOperatorDeployment.PrivatePlatform :=
       HyperShiftOperatorDeployment.PrivatePlatform o;
     HyperShiftOperatorDeployment.AWSPrivateCreds :=
       HyperShiftOperatorDeployment.AWSPrivateCreds o;
     HyperShiftOperatorDeployment.AWSPrivateRegion := v;
     HyperShiftOperatorDeployment.OIDCBucketName :=
       HyperShiftOperatorDeployment.OIDCBucketName o;
     HyperShiftOperatorDeployment.OIDCBucketRegion :=
       HyperShiftOperatorDeployment.OIDCBucketRegion o;
     HyperShiftOperatorDeployment.OIDCStorageProviderS3Secret :=
       HyperShiftOperatorDeployment.OIDCStorageProviderS3Secret o;
     HyperShiftOperatorDeployment.OIDCStorageProviderS3SecretKey :=
       HyperShiftOperatorDeployment.OIDCStorageProviderS3SecretKey o |}.

(** ** More of the installation *)

(** An operator Deployment on the none platform, without OIDC storage. *)
Definition install_operator_public : HyperShiftOperatorDeployment.t :=
  {| HyperShiftOperatorDeployment.Namespace := Some install_namespace;
     HyperShiftOperatorDeployment.OperatorImage := "quay.io/hypershift:latest";
     HyperShiftOperatorDeployment.ServiceAccount := Some install_operator_sa;
     HyperShiftOperatorDeployment.Replicas := 1;
     HyperShiftOperatorDeployment.EnableOCPClusterMonitoring := false;
     HyperShiftOperatorDeployment.EnableCIDebugOutput := false;
     HyperShiftOperatorDeployment.PrivatePlatform := "None";
     HyperShiftOperatorDeployment.AWSPrivateCreds := "";
     HyperShiftOperatorDeployment.AWSPrivateRegion := "";
     HyperShiftOperatorDeployment.OIDCBucketName := "";
     HyperShiftOperatorDeployment.OIDCBucketRegion := "";
     HyperShiftOperatorDeployment.OIDCStorageProviderS3Secret := nil;
     HyperShiftOperatorDeployment.OIDCStorageProviderS3SecretKey := "" |}.

Definition install_externaldns_creds_secret : ExternalDNSCredsSecret.t :=
  {| ExternalDNSCredsSecret.Namespace := Some install_namespace;
     ExternalDNSCredsSecret.CredsBytes := [Byte.x41; Byte.x4b] |}.

Definition install_oidc_creds_secret : HyperShiftOperatorOIDCProviderS3Secret.t :=
  {| HyperShiftOperatorOIDCProviderS3Secret.Namespace := Some install_namespace;
     HyperShiftOperatorOIDCProviderS3Secret.OIDCStorageProviderS3CredBytes :=
       [Byte.x41; Byte.x4b];
     HyperShiftOperatorOIDCProviderS3Secret.CredsKey := "credentials" |}.

Definition install_operator_creds_secret : HyperShiftOperatorCredentialsSecret.t :=
  {| HyperShiftOperatorCredentialsSecret.Namespace := Some install_namespace;
     HyperShiftOperatorCredentialsSecret.CredsBytes := [Byte.x41; Byte.x4b] |}.

Definition install_client_binding : HyperShiftClientClusterRoleBinding.t :=
  {| HyperShiftClientClusterRoleBinding.ClusterRole :=
       Some install_operator_clusterrole;
     HyperShiftClientClusterRoleBinding.ServiceAccount := Some install_operator_sa;
     HyperShiftClientClusterRoleBinding.GroupName := "hypershift-admins" |}.

(** ** The monad *)

Lemma lookup_fresh (h : Heap) (o : Object) :
  ((h ++ [o])%list : Heap) !! (length h : loc) = Some o.
Proof.
  induction h as [|x h IH]; simpl.
  - reflexivity.
  - exact IH.
Qed.

Lemma result_alloc o h : result (alloc o) h = Some o.
Proof. unfold result, alloc. apply lookup_fresh. Qed.

Lemma deref_agree {A} (as_T : Object -> option A) ps p h1 h2 :
  In p ps -> agree ps h1 h2 -> deref as_T h1 p = deref as_T h2 p.
Proof.
  intros Hin Hag. destruct p as [l|]; simpl.
  - now rewrite (Hag l Hin).
  - reflexivity.
Qed.

Lemma reader_ret {A} ps (a : A) : reader ps (ret a).
Proof.
  split.
  - intros h a' h' H. unfold ret in H. congruence.
  - reflexivity.
Qed.

Lemma reader_panic {A} ps : reader ps (@panic A).
Proof. split; [discriminate | reflexivity]. Qed.

Lemma reader_load {A} (as_T : Object -> option A) ps p :
  In p ps -> reader ps (load as_T p).
Proof.
  intros Hin. split.
  - intros h a h'. unfold load. destruct (deref as_T h p); congruence.
  - intros h1 h2 Hag. unfold load.
    rewrite (deref_agree as_T ps p h1 h2 Hin Hag).
    now destruct (deref as_T h2 p).
Qed.

Lemma reader_bind {A B} ps (m : M A) (k : A -> M B) :
  reader ps m -> (forall a, reader ps (k a)) -> reader ps (bind m k).
Proof.
  intros [Hm1 Hm2] Hk. split.
  - intros h b h'. unfold bind. destruct (m h) as [[a h0]|] eqn:E; [|discriminate].
    intros Hb. apply Hm1 in E. subst h0. now apply (Hk a) in Hb.
  - intros h1 h2 Hag. unfold bind. specialize (Hm2 h1 h2 Hag).
    destruct (m h1) as [[a1 h1']|] eqn:E1; destruct (m h2) as [[a2 h2']|] eqn:E2;
      simpl in Hm2; try discriminate; [|reflexivity].
    apply Hm1 in E1, E2. subst. injection Hm2 as ->.
    now apply (Hk a2).
Qed.

Lemma reader_if {A} ps (c : bool) (m1 m2 : M A) :
  reader ps m1 -> reader ps m2 -> reader ps (if c then m1 else m2).
Proof. now destruct c. Qed.

Lemma reader_update_Container0 ps f d : reader ps (update_Container0 f d).
Proof.
  unfold update_Container0.
  destruct (PodSpec.Containers (Deployment.PodSpec d));
    [apply reader_panic | apply reader_ret].
Qed.

Lemma allocator_alloc ps o : allocator ps (alloc o).
Proof.
  split.
  - intros h l h' H. unfold alloc in H. injection H as <- <-. eauto.
  - intros h1 h2 _. now rewrite !result_alloc.
Qed.

Lemma allocator_bind {A} ps (m : M A) (k : A -> M loc) :
  reader ps m -> (forall a, allocator ps (k a)) -> allocator ps (bind m k).
Proof.
  intros [Hm1 Hm2] Hk. split.
  - intros h l h'. unfold bind. destruct (m h) as [[a h0]|] eqn:E; [|discriminate].
    intros Hb. apply Hm1 in E. subst h0. now apply (Hk a) in Hb.
  - intros h1 h2 Hag. unfold result, bind. specialize (Hm2 h1 h2 Hag).
    destruct (m h1) as [[a1 h1']|] eqn:E1; destruct (m h2) as [[a2 h2']|] eqn:E2;
      simpl in Hm2; try discriminate; [|reflexivity].
    apply Hm1 in E1, E2. subst. injection Hm2 as ->.
    now apply (Hk a2).
Qed.

Lemma allocator_if ps (c : bool) (m1 m2 : M loc) :
  allocator ps m1 -> allocator ps m2 -> allocator ps (if c then m1 else m2).
Proof. now destruct c. Qed.

Lemma reader_oidcConfigured ps o :
  In (HyperShiftOperatorDeployment.OIDCStorageProviderS3Secret o) ps ->
  reader ps (oidcConfigured o).
Proof.
  intros Hin. unfold oidcConfigured. apply reader_if.
  - apply reader_bind; [now apply reader_load | intros s; apply reader_ret].
  - apply reader_ret.
Qed.

(** The steps of a [Build]: reads of the pointer fields, local
    computation, one allocation. *)
Ltac reads :=
  repeat first
    [ apply reader_ret
    | apply reader_update_Container0
    | apply reader_oidcConfigured; simpl; tauto
    | apply reader_load; simpl; tauto
    | apply reader_if
    | apply reader_bind; [|intros ?] ].

Ltac allocates :=
  repeat first
    [ apply allocator_alloc
    | apply allocator_if
    | apply allocator_bind; [solve [reads]|intros ?]
    | match goal with
      | w : (_ * _ * _)%type |- _ => destruct w as [[? ?] ?]
      end ].

(** Running a [Build] whose pointer fields are known. *)
Ltac run_build :=
  unfold result, bind, load, ret, alloc;
  repeat match goal with
         | H : deref _ _ _ = Some _ |- _ => rewrite H
         end;
  cbv beta iota; rewrite ?lookup_fresh.

Lemma Build_allocator (b : Builder) : allocator (pointers b) (Build b).
Proof. destruct b; simpl; unfold Build; allocates. Qed.

(** ** Strings *)

Lemma nonempty_true s : nonempty s = true <-> s <> "".
Proof.
  unfold nonempty. rewrite negb_true_iff. apply String.eqb_neq.
Qed.

(** ** The operator Deployment *)

Lemma oidc_configuredb_spec h o :
  oidc_configuredb h o = true <-> oidc_configured h o.
Proof.
  unfold oidc_configuredb, oidc_configured.
  rewrite !andb_true_iff, !nonempty_true. split.
  - intros [[[H1 H2] H3] H4].
    destruct (deref asSecret h _) as [s|]; [|discriminate].
    apply nonempty_true in H4. eauto 10.
  - intros (H1 & H2 & H3 & s & Hs & H4). rewrite Hs.
    apply nonempty_true in H4. auto.
Qed.

Lemma oidcConfigured_run h o :
  well_typed asSecret h (HyperShiftOperatorDeployment.OIDCStorageProviderS3Secret o) ->
  oidcConfigured o h = Some (oidc_configuredb h o, h).
Proof.
  intros Hwt. unfold oidcConfigured, oidc_configuredb.
  destruct (nonempty (HyperShiftOperatorDeployment.OIDCBucketName o)); simpl;
    [|reflexivity].
  destruct (nonempty (HyperShiftOperatorDeployment.OIDCBucketRegion o)); simpl;
    [|reflexivity].
  destruct (nonempty (HyperShiftOperatorDeployment.OIDCStorageProviderS3SecretKey o));
    simpl; [|reflexivity].
  case_bool_decide as Hnil.
  - destruct (Hwt Hnil) as [s Hs]. unfold bind, load. now rewrite Hs.
  - rewrite Hnil. reflexivity.
Qed.

Lemma operator_Build_shape h o ns sa :
  deref asNamespace h (HyperShiftOperatorDeployment.Namespace o) = Some ns ->
  deref asServiceAccount h (HyperShiftOperatorDeployment.ServiceAccount o) = Some sa ->
  well_typed asSecret h (HyperShiftOperatorDeployment.OIDCStorageProviderS3Secret o) ->
  exists d c,
    result (HyperShiftOperatorDeployment_Build o) h = Some (ODeployment d)
    /\ PodSpec.Containers (Deployment.PodSpec d) = [c]
    /\ Container.Name c = "operator"
    /\ Container.Args c = operator_args h o
    /\ Container.Env c = operator_env o
    /\ Container.VolumeMounts c = operator_mounts h o
    /\ volumes d = operator_volumes h o.
Proof.
  intros Hns Hsa Hwt.
  unfold HyperShiftOperatorDeployment_Build, result.
  unfold bind at 1. rewrite (oidcConfigured_run h o Hwt).
  unfold operator_args, operator_env, operator_mounts, operator_volumes,
    oidc_secret_name.
  destruct (oidc_configuredb h o) eqn:Hc.
  - assert (exists s, deref asSecret h
              (HyperShiftOperatorDeployment.OIDCStorageProviderS3Secret o) = Some s)
      as [s Hs].
    { apply oidc_configuredb_spec in Hc. destruct Hc as (_ & _ & _ & s & Hs & _).
      eauto. }
    unfold bind, load, ret, update_Container0. rewrite Hs, Hns, Hsa.
    destruct (String.eqb (HyperShiftOperatorDeployment.PrivatePlatform o) NonePlatform).
    + cbn. rewrite lookup_fresh. eexists _, _. repeat split.
    + destruct (String.eqb (HyperShiftOperatorDeployment.PrivatePlatform o) AWSPlatform);
        cbn; rewrite lookup_fresh; eexists _, _; repeat split.
  - unfold bind, load, ret, update_Container0. rewrite Hns, Hsa.
    destruct (String.eqb (HyperShiftOperatorDeployment.PrivatePlatform o) NonePlatform).
    + cbn. rewrite lookup_fresh. eexists _, _. repeat split.
    + destruct (String.eqb (HyperShiftOperatorDeployment.PrivatePlatform o) AWSPlatform);
        cbn; rewrite lookup_fresh; eexists _, _; repeat split.
Qed.

(** C1.  When [PrivatePlatform] is the AWS platform, [Build] returns a
    Deployment whose operator container has an environment variable named
    AWS_REGION, and every variable of that name has the configured
    [AWSPrivateRegion] as its value.  ([Build] returns when the namespace
    and service account pointers are set; the two platform constants are
    distinct.) *)
Theorem operator_deployment_aws_region h o ns sa :
  AWSPlatform <> NonePlatform ->
  HyperShiftOperatorDeployment.PrivatePlatform o = AWSPlatform ->
  deref asNamespace h (HyperShiftOperatorDeployment.Namespace o) = Some ns ->
  deref asServiceAccount h (HyperShiftOperatorDeployment.ServiceAccount o) = Some sa ->
  well_typed asSecret h (HyperShiftOperatorDeployment.OIDCStorageProviderS3Secret o) ->
  exists d c,
    result (HyperShiftOperatorDeployment_Build o) h = Some (ODeployment d)
    /\ container0 d = Some c
    /\ Container.Name c = "operator"
    /\ (exists e, In e (Container.Env c) /\ EnvVar.Name e = "AWS_REGION")
    /\ (forall e, In e (Container.Env c) -> EnvVar.Name e = "AWS_REGION" ->
          EnvVar.Value e = HyperShiftOperatorDeployment.AWSPrivateRegion o).
Proof.
  intros Hne Haws Hns Hsa Hwt.
  destruct (operator_Build_shape h o ns sa Hns Hsa Hwt)
    as (d & c & Hres & Hcs & Hname & _ & Henv & _ & _).
  exists d, c. unfold container0. rewrite Hcs, Henv. unfold operator_env.
  rewrite Haws. apply String.eqb_neq in Hne. rewrite Hne, String.eqb_refl.
  repeat split; try assumption.
  - exists (env "AWS_REGION" (HyperShiftOperatorDeployment.AWSPrivateRegion o)).
    simpl. auto.
  - intros e [<-|[<-|[<-|[]]]]; simpl; intros Hn; solve [discriminate | reflexivity].
Qed.

(** C3.  When [PrivatePlatform] is the none platform, the returned
    Deployment has no volume named "credentials" and its container no volume
    mount named "credentials"; otherwise the pod has the volume
    "credentials" whose source is the secret
    "hypershift-operator-aws-credentials" and the operator container has the
    mount of "credentials" at /etc/provider. *)
Theorem operator_deployment_credentials_volume h o ns sa :
  deref asNamespace h (HyperShiftOperatorDeployment.Namespace o) = Some ns ->
  deref asServiceAccount h (HyperShiftOperatorDeployment.ServiceAccount o) = Some sa ->
  well_typed asSecret h (HyperShiftOperatorDeployment.OIDCStorageProviderS3Secret o) ->
  exists d c,
    result (HyperShiftOperatorDeployment_Build o) h = Some (ODeployment d)
    /\ container0 d = Some c
    /\ Container.Name c = "operator"
    /\ (HyperShiftOperatorDeployment.PrivatePlatform o = NonePlatform ->
          (forall v, In v (volumes d) -> Volume.Name v <> "credentials")
          /\ (forall m, In m (Container.VolumeMounts c) ->
                VolumeMount.Name m <> "credentials"))
    /\ (HyperShiftOperatorDeployment.PrivatePlatform o <> NonePlatform ->
          In {| Volume.Name := "credentials";
                Volume.VolumeSource :=
                  {| VolumeSource.Secret :=
                       Some {| SecretVolumeSource.SecretName :=
                                 "hypershift-operator-aws-credentials" |};
                     VolumeSource.Projected := None |} |} (volumes d)
          /\ In {| VolumeMount.Name := "credentials";
                   VolumeMount.MountPath := "/etc/provider" |}
                (Container.VolumeMounts c)).
Proof.
  intros Hns Hsa Hwt.
  destruct (operator_Build_shape h o ns sa Hns Hsa Hwt)
    as (d & c & Hres & Hcs & Hname & _ & _ & Hm & Hv).
  exists d, c. unfold container0. rewrite Hcs, Hm, Hv.
  unfold operator_mounts, operator_volumes.
  split; [assumption|]. split; [reflexivity|]. split; [assumption|]. split.
  - intros Hnone. apply String.eqb_eq in Hnone. rewrite Hnone.
    rewrite !app_nil_r.
    destruct (oidc_configuredb h o); split; simpl;
      intros x Hin; try contradiction; destruct Hin as [<-|[]]; discriminate.
  - intros Hnone. apply String.eqb_neq in Hnone. rewrite Hnone.
    split; apply in_or_app; right; left; reflexivity.
Qed.

(** C4.  The returned Deployment has the three
    --oidc-storage-provider-s3-* arguments (bucket name, region and
    credentials path), the volume oidc-storage-provider-s3-creds whose source
    is the configured secret, and the mount of that volume, when the OIDC
    storage provider is configured; when it is not, the container has no
    argument starting with --oidc-storage-provider-s3-, the pod no volume
    and the container no mount named oidc-storage-provider-s3-creds. *)
Theorem operator_deployment_oidc_wiring h o ns sa :
  deref asNamespace h (HyperShiftOperatorDeployment.Namespace o) = Some ns ->
  deref asServiceAccount h (HyperShiftOperatorDeployment.ServiceAccount o) = Some sa ->
  well_typed asSecret h (HyperShiftOperatorDeployment.OIDCStorageProviderS3Secret o) ->
  exists d c,
    result (HyperShiftOperatorDeployment_Build o) h = Some (ODeployment d)
    /\ container0 d = Some c
    /\ (oidc_configured h o ->
          (In ("--oidc-storage-provider-s3-bucket-name=" +:+
                 HyperShiftOperatorDeployment.OIDCBucketName o)
              (Container.Args c)
           /\ In ("--oidc-storage-provider-s3-region=" +:+
                    HyperShiftOperatorDeployment.OIDCBucketRegion o)
                 (Container.Args c)
           /\ In ("--oidc-storage-provider-s3-credentials=/etc/oidc-storage-provider-s3-creds/" +:+
                    HyperShiftOperatorDeployment.OIDCStorageProviderS3SecretKey o)
                 (Container.Args c))
          /\ (exists s,
                deref asSecret h
                  (HyperShiftOperatorDeployment.OIDCStorageProviderS3Secret o)
                  = Some s
                /\ In {| Volume.Name := "oidc-storage-provider-s3-creds";
                         Volume.VolumeSource :=
                           {| VolumeSource.Secret :=
                                Some {| SecretVolumeSource.SecretName :=
                                          Secret.Name s |};
                              VolumeSource.Projected := None |} |} (volumes d))
          /\ In {| VolumeMount.Name := "oidc-storage-provider-s3-creds";
                   VolumeMount.MountPath := "/etc/oidc-storage-provider-s3-creds" |}
                (Container.VolumeMounts c))
    /\ (~ oidc_configured h o ->
          (forall a, In a (Container.Args c) -> is_oidc_arg a = false)
          /\ (forall v, In v (volumes d) ->
                Volume.Name v <> "oidc-storage-provider-s3-creds")
          /\ (forall m, In m (Container.VolumeMounts c) ->
                VolumeMount.Name m <> "oidc-storage-provider-s3-creds")).
Proof.
  intros Hns Hsa Hwt.
  destruct (operator_Build_shape h o ns sa Hns Hsa Hwt)
    as (d & c & Hres & Hcs & Hname & Ha & _ & Hm & Hv).
  exists d, c. unfold container0. rewrite Hcs, Ha, Hm, Hv.
  unfold operator_args, operator_mounts, operator_volumes, oidc_secret_name.
  split; [assumption|]. split; [reflexivity|]. split.
  - intros Hc. pose proof Hc as (_ & _ & _ & s & Hs & _).
    apply oidc_configuredb_spec in Hc. rewrite Hc, Hs.
    split; [|split].
    + repeat split; apply in_or_app; right; simpl; auto.
    + exists s. split; [reflexivity|]. apply in_or_app. left. left. reflexivity.
    + apply in_or_app. left. left. reflexivity.
  - intros Hc. rewrite <- oidc_configuredb_spec in Hc.
    apply not_true_is_false in Hc. rewrite Hc.
    split; [|split].
    + intros a Hin. rewrite app_nil_r in Hin.
      destruct Hin as [<-|[<-|[<-|[<-|[<-|[<-|[<-|[]]]]]]]]; reflexivity.
    + intros v Hin. simpl in Hin.
      destruct (String.eqb _ NonePlatform); [contradiction|].
      destruct Hin as [<-|Hin]; [discriminate|].
      destruct (String.eqb _ AWSPlatform); [|contradiction].
      destruct Hin as [<-|[]]. discriminate.
    + intros m Hin. simpl in Hin.
      destruct (String.eqb _ NonePlatform); [contradiction|].
      destruct Hin as [<-|Hin]; [discriminate|].
      destruct (String.eqb _ AWSPlatform); [|contradiction].
      destruct Hin as [<-|[]]. discriminate.
Qed.

(** ** The external-dns Deployment *)

Lemma externaldns_Build_shape h o ns sa cs :
  deref asNamespace h (ExternalDNSDeployment.Namespace o) = Some ns ->
  deref asServiceAccount h (ExternalDNSDeployment.ServiceAccount o) = Some sa ->
  deref asSecret h (ExternalDNSDeployment.CredentialsSecret o) = Some cs ->
  exists d c,
    result (ExternalDNSDeployment_Build o) h = Some (ODeployment d)
    /\ PodSpec.Containers (Deployment.PodSpec d) = [c]
    /\ Container.Name c = "external-dns"
    /\ Container.Args c =
         ([ "--source=service";
            "--source=openshift-route";
            "--domain-filter=" +:+ ExternalDNSDeployment.DomainFilter o;
            "--provider=" +:+ ExternalDNSDeployment.Provider o;
            "--registry=noop";
            "--txt-owner-id=hypershift" ]
          ++ if String.eqb (ExternalDNSDeployment.Provider o) "aws"
             then ["--aws-zone-type=public"] else [])%list
    /\ Container.Env c =
         (if String.eqb (ExternalDNSDeployment.Provider o) "aws"
          then [ env "AWS_SHARED_CREDENTIALS_FILE" "/etc/provider/credentials";
                 env "AWS_REGION" "us-east-1" ]
          else [])
    /\ Container.VolumeMounts c = [credentials_mount]
    /\ volumes d = [secretVolume "credentials" (Secret.Name cs)].
Proof.
  intros Hns Hsa Hcs.
  unfold ExternalDNSDeployment_Build, result.
  unfold bind, load, ret, update_Container0. rewrite Hns, Hsa, Hcs.
  destruct (String.eqb (ExternalDNSDeployment.Provider o) "aws");
    cbn; rewrite lookup_fresh; eexists _, _; repeat split.
Qed.

(** C2, as the code has it.  The container of the external-dns Deployment
    has one volume mount; its name is "credentials", the name of the one
    volume of the pod, and the source of that volume is the secret whose
    name is the [Name] of the credentials Secret. *)
Theorem externaldns_mount_names_volume_of_secret h o ns sa cs :
  deref asNamespace h (ExternalDNSDeployment.Namespace o) = Some ns ->
  deref asServiceAccount h (ExternalDNSDeployment.ServiceAccount o) = Some sa ->
  deref asSecret h (ExternalDNSDeployment.CredentialsSecret o) = Some cs ->
  exists d c m v,
    result (ExternalDNSDeployment_Build o) h = Some (ODeployment d)
    /\ container0 d = Some c
    /\ Container.VolumeMounts c = [m]
    /\ volumes d = [v]
    /\ VolumeMount.Name m = "credentials"
    /\ VolumeMount.Name m = Volume.Name v
    /\ VolumeSource.Secret (Volume.VolumeSource v)
       = Some {| SecretVolumeSource.SecretName := Secret.Name cs |}.
Proof.
  intros Hns Hsa Hcs.
  destruct (externaldns_Build_shape h o ns sa cs Hns Hsa Hcs)
    as (d & c & Hres & Hc & _ & _ & _ & Hm & Hv).
  exists d, c, credentials_mount, (secretVolume "credentials" (Secret.Name cs)).
  unfold container0. rewrite Hc. repeat split; assumption.
Qed.

(** C9.  When [Provider] is "aws", the container of the external-dns
    Deployment has an environment variable AWS_REGION, every variable of
    that name has the value "us-east-1", and "--aws-zone-type=public" is the
    last argument; for any other [Provider] the container has no
    environment variable. *)
Theorem externaldns_deployment_provider h o ns sa cs :
  deref asNamespace h (ExternalDNSDeployment.Namespace o) = Some ns ->
  deref asServiceAccount h (ExternalDNSDeployment.ServiceAccount o) = Some sa ->
  deref asSecret h (ExternalDNSDeployment.CredentialsSecret o) = Some cs ->
  exists d c,
    result (ExternalDNSDeployment_Build o) h = Some (ODeployment d)
    /\ container0 d = Some c
    /\ (ExternalDNSDeployment.Provider o = "aws" ->
          (exists e, In e (Container.Env c) /\ EnvVar.Name e = "AWS_REGION")
          /\ (forall e, In e (Container.Env c) ->
                EnvVar.Name e = "AWS_REGION" -> EnvVar.Value e = "us-east-1")
          /\ last (Container.Args c) = Some "--aws-zone-type=public")
    /\ (ExternalDNSDeployment.Provider o <> "aws" -> Container.Env c = []).
Proof.
  intros Hns Hsa Hcs.
  destruct (externaldns_Build_shape h o ns sa cs Hns Hsa Hcs)
    as (d & c & Hres & Hc & _ & Ha & He & _ & _).
  exists d, c. unfold container0. rewrite Hc, Ha, He.
  split; [assumption|]. split; [reflexivity|]. split.
  - intros ->. simpl. split; [|split].
    + exists (env "AWS_REGION" "us-east-1"). simpl. auto.
    + intros e [<-|[<-|[]]]; simpl; intros Hn;
        solve [discriminate | reflexivity].
    + reflexivity.
  - intros Hp. apply String.eqb_neq in Hp. now rewrite Hp.
Qed.

(** C10.  In the Deployment either Deployment builder returns, every
    volume mount of every container names a volume of the pod. *)
Theorem deployment_mounts_name_volumes :
  (forall h o ns sa cs,
     deref asNamespace h (ExternalDNSDeployment.Namespace o) = Some ns ->
     deref asServiceAccount h (ExternalDNSDeployment.ServiceAccount o) = Some sa ->
     deref asSecret h (ExternalDNSDeployment.CredentialsSecret o) = Some cs ->
     exists d,
       result (ExternalDNSDeployment_Build o) h = Some (ODeployment d)
       /\ forall c m,
            In c (PodSpec.Containers (Deployment.PodSpec d)) ->
            In m (Container.VolumeMounts c) ->
            exists v, In v (volumes d) /\ Volume.Name v = VolumeMount.Name m)
  /\ (forall h o ns sa,
        deref asNamespace h (HyperShiftOperatorDeployment.Namespace o) = Some ns ->
        deref asServiceAccount h (HyperShiftOperatorDeployment.ServiceAccount o)
          = Some sa ->
        well_typed asSecret h
          (HyperShiftOperatorDeployment.OIDCStorageProviderS3Secret o) ->
        exists d,
          result (HyperShiftOperatorDeployment_Build o) h = Some (ODeployment d)
          /\ forall c m,
               In c (PodSpec.Containers (Deployment.PodSpec d)) ->
               In m (Container.VolumeMounts c) ->
               exists v, In v (volumes d) /\ Volume.Name v = VolumeMount.Name m).
Proof.
  split.
  - intros h o ns sa cs Hns Hsa Hcs.
    destruct (externaldns_Build_shape h o ns sa cs Hns Hsa Hcs)
      as (d & c & Hres & Hc & _ & _ & _ & Hm & Hv).
    exists d. split; [assumption|]. rewrite Hc, Hv.
    intros c' m [<-|[]]. rewrite Hm. intros [<-|[]].
    eexists. split; [left; reflexivity | reflexivity].
  - intros h o ns sa Hns Hsa Hwt.
    destruct (operator_Build_shape h o ns sa Hns Hsa Hwt)
      as (d & c & Hres & Hc & _ & _ & _ & Hm & Hv).
    exists d. split; [assumption|]. rewrite Hc, Hv.
    intros c' m [<-|[]]. rewrite Hm.
    unfold operator_mounts, operator_volumes.
    intros Hin. apply in_app_or in Hin. destruct Hin as [Hin|Hin].
    + destruct (oidc_configuredb h o); [|contradiction].
      destruct Hin as [<-|[]].
      eexists. split; [apply in_or_app; left; left; reflexivity | reflexivity].
    + destruct (String.eqb _ NonePlatform); [contradiction|].
      destruct Hin as [<-|Hin].
      * eexists. split; [apply in_or_app; right; left; reflexivity | reflexivity].
      * destruct (String.eqb _ AWSPlatform); [|contradiction].
        destruct Hin as [<-|[]].
        eexists. split;
          [apply in_or_app; right; right; left; reflexivity | reflexivity].
Qed.

(** ** Role bindings *)

(** C5.  The RoleBinding [HyperShiftOperatorPrometheusRoleBinding.Build]
    returns has exactly one subject, of kind ServiceAccount: prometheus-k8s
    in openshift-monitoring when [EnableOCPClusterMonitoring] is set,
    prometheus-user-workload in openshift-user-workload-monitoring when it
    is not. *)
Theorem prometheus_rolebinding_subject h o ns r :
  deref asNamespace h (HyperShiftOperatorPrometheusRoleBinding.Namespace o) = Some ns ->
  deref asRole h (HyperShiftOperatorPrometheusRoleBinding.Role o) = Some r ->
  exists rb s,
    result (HyperShiftOperatorPrometheusRoleBinding_Build o) h
      = Some (ORoleBinding rb)
    /\ RoleBinding.Subjects rb = [s]
    /\ Subject.Kind s = "ServiceAccount"
    /\ (HyperShiftOperatorPrometheusRoleBinding.EnableOCPClusterMonitoring o = true ->
          Subject.Name s = "prometheus-k8s"
          /\ Subject.Namespace s = "openshift-monitoring")
    /\ (HyperShiftOperatorPrometheusRoleBinding.EnableOCPClusterMonitoring o = false ->
          Subject.Name s = "prometheus-user-workload"
          /\ Subject.Namespace s = "openshift-user-workload-monitoring").
Proof.
  intros Hns Hr.
  unfold HyperShiftOperatorPrometheusRoleBinding_Build. run_build.
  eexists _, _. split; [reflexivity|].
  split; [reflexivity|].
  destruct (HyperShiftOperatorPrometheusRoleBinding.EnableOCPClusterMonitoring o);
    simpl; repeat split; discriminate.
Qed.

(** C6.  The bindings [ExternalDNSClusterRoleBinding.Build],
    [HyperShiftOperatorClusterRoleBinding.Build] and
    [HyperShiftOperatorRoleBinding.Build] return have one subject, of kind
    ServiceAccount, with the name and namespace of the configured service
    account, and a role reference with the name of the configured role. *)
Theorem bindings_reference_account_and_role :
  (forall h o cr sa,
     deref asClusterRole h (ExternalDNSClusterRoleBinding.ClusterRole o) = Some cr ->
     deref asServiceAccount h (ExternalDNSClusterRoleBinding.ServiceAccount o)
       = Some sa ->
     exists b s,
       result (ExternalDNSClusterRoleBinding_Build o) h
         = Some (OClusterRoleBinding b)
       /\ ClusterRoleBinding.Subjects b = [s]
       /\ Subject.Kind s = "ServiceAccount"
       /\ Subject.Name s = ServiceAccount.Name sa
       /\ Subject.Namespace s = ServiceAccount.Namespace sa
       /\ RoleRef.Name (ClusterRoleBinding.RoleRef b) = ClusterRole.Name cr)
  /\ (forall h o cr sa,
        deref asClusterRole h (HyperShiftOperatorClusterRoleBinding.ClusterRole o)
          = Some cr ->
        deref asServiceAccount h
          (HyperShiftOperatorClusterRoleBinding.ServiceAccount o) = Some sa ->
        exists b s,
          result (HyperShiftOperatorClusterRoleBinding_Build o) h
            = Some (OClusterRoleBinding b)
          /\ ClusterRoleBinding.Subjects b = [s]
          /\ Subject.Kind s = "ServiceAccount"
          /\ Subject.Name s = ServiceAccount.Name sa
          /\ Subject.Namespace s = ServiceAccount.Namespace sa
          /\ RoleRef.Name (ClusterRoleBinding.RoleRef b) = ClusterRole.Name cr)
  /\ (forall h o r sa,
        deref asRole h (HyperShiftOperatorRoleBinding.Role o) = Some r ->
        deref asServiceAccount h (HyperShiftOperatorRoleBinding.ServiceAccount o)
          = Some sa ->
        exists b s,
          result (HyperShiftOperatorRoleBinding_Build o) h = Some (ORoleBinding b)
          /\ RoleBinding.Subjects b = [s]
          /\ Subject.Kind s = "ServiceAccount"
          /\ Subject.Name s = ServiceAccount.Name sa
          /\ Subject.Namespace s = ServiceAccount.Namespace sa
          /\ RoleRef.Name (RoleBinding.RoleRef b) = Role.Name r).
Proof.
  split; [|split]; intros h o r sa Hr Hsa.
  - unfold ExternalDNSClusterRoleBinding_Build. run_build.
    eexists _, _. repeat split.
  - unfold HyperShiftOperatorClusterRoleBinding_Build. run_build.
    eexists _, _. repeat split.
  - unfold HyperShiftOperatorRoleBinding_Build. run_build.
    eexists _, _. repeat split.
Qed.

(** ** Every builder *)

Lemma agree_sym ps h1 h2 : agree ps h1 h2 -> agree ps h2 h1.
Proof. intros H l Hl. symmetry. now apply H. Qed.

Lemma allocator_frame ps m h l h' :
  allocator ps m -> m h = Some (l, h') ->
  h !! l = None
  /\ is_Some (h' !! l)
  /\ forall (l0 : loc) o0, h !! l0 = Some o0 -> h' !! l0 = Some o0.
Proof.
  intros [Ha _] Hm. destruct (Ha h l h' Hm) as [-> [o ->]].
  split; [|split].
  - apply lookup_ge_None. reflexivity.
  - rewrite lookup_fresh. eauto.
  - intros l0 o0 H0. now apply lookup_app_l_Some.
Qed.

(** Whether [Build] panics depends only on what its configuration points
    to. *)
Lemma Build_panics_alike b h1 h2 :
  agree (pointers b) h1 h2 -> Build b h1 = None -> Build b h2 = None.
Proof.
  intros Hag H1.
  pose proof (Build_allocator b) as Hb.
  pose proof (proj2 Hb h1 h2 Hag) as Hres.
  destruct (Build b h2) as [[l2 h2']|] eqn:E2; [|reflexivity].
  destruct (allocator_frame _ _ _ _ _ Hb E2) as (_ & [o2 Ho2] & _).
  unfold result in Hres. rewrite H1, E2, Ho2 in Hres. discriminate.
Qed.

(** A second call, made after the first returned, returns an equal object
    and leaves the first one as it is. *)
Lemma Build_again b h l1 h1 :
  (forall l, In (Some l) (pointers b) -> (l < length h)%nat) ->
  Build b h = Some (l1, h1) ->
  exists l2 h2,
    Build b h1 = Some (l2, h2)
    /\ l2 <> l1
    /\ h2 !! l2 = h1 !! l1
    /\ h2 !! l1 = h1 !! l1.
Proof.
  intros Hps H1.
  pose proof (Build_allocator b) as Hb.
  destruct (proj1 Hb h l1 h1 H1) as [-> [o ->]].
  assert (agree (pointers b) h (h ++ [o])%list) as Hag.
  { intros l Hl. symmetry. apply lookup_app_l. now apply Hps. }
  pose proof (proj2 Hb _ _ Hag) as Hres.
  destruct (Build b (h ++ [o])%list) as [[l2 h2]|] eqn:E2.
  - destruct (allocator_frame _ _ _ _ _ Hb E2) as (Hnew & _ & Hold).
    exists l2, h2. split; [reflexivity|].
    unfold result in Hres. rewrite H1, E2 in Hres.
    split; [|split].
    + intros ->. rewrite lookup_fresh in Hnew. discriminate.
    + now symmetry.
    + rewrite lookup_fresh. apply Hold. apply lookup_fresh.
  - apply (Build_panics_alike b _ h (agree_sym _ _ _ Hag)) in E2. congruence.
Qed.

(** C7.  Two calls of one builder's [Build], in heaps that hold the same
    objects behind the pointers of its configuration, return pointers to
    equal objects; each call leaves every cell of the heap it ran in as it
    was, the returned object being a cell that was not there before.  (The
    configuration itself is the value receiver of [Build], a copy.) *)
Theorem Build_deterministic_side_effect_free b h1 l1 h1' h2 l2 h2' :
  agree (pointers b) h1 h2 ->
  Build b h1 = Some (l1, h1') ->
  Build b h2 = Some (l2, h2') ->
  (exists o, h1' !! l1 = Some o /\ h2' !! l2 = Some o)
  /\ h1 !! l1 = None
  /\ h2 !! l2 = None
  /\ (forall (l : loc) o, h1 !! l = Some o -> h1' !! l = Some o)
  /\ (forall (l : loc) o, h2 !! l = Some o -> h2' !! l = Some o).
Proof.
  intros Hag H1 H2.
  pose proof (Build_allocator b) as Hb.
  destruct (allocator_frame _ _ _ _ _ Hb H1) as (Hn1 & [o1 Ho1] & Hf1).
  destruct (allocator_frame _ _ _ _ _ Hb H2) as (Hn2 & [o2 Ho2] & Hf2).
  pose proof (proj2 Hb h1 h2 Hag) as Hres.
  unfold result in Hres. rewrite H1, H2, Ho1, Ho2 in Hres.
  repeat split; try assumption.
  exists o1. split; [assumption | congruence].
Qed.

(** ** The destroy command *)

(** C8.  The command [NewDestroyCommand] returns is named "infra", has no
    flag set of its own, and has two children, the AWS and the Azure
    destroy commands in that order. *)
Theorem NewDestroyCommand_infra :
  cobra.Use NewDestroyCommand = "infra"
  /\ cobra.flags NewDestroyCommand = []
  /\ cobra.pflags NewDestroyCommand = []
  /\ cobra.commands NewDestroyCommand
     = [aws_NewDestroyCommand; azure_NewDestroyCommand]
  /\ length (cobra.commands NewDestroyCommand) = 2%nat.
Proof. repeat split. Qed.

(** ** Panics *)

Lemma well_typed_Some {A} (as_T : Object -> option A) h (l : loc) :
  well_typed as_T h (Some l) -> exists v, deref as_T h (Some l) = Some v.
Proof. intros H. apply H. discriminate. Qed.

(** Case analysis on the pointer fields of a builder whose fields are
    well typed: each is nil or points to a cell of its type. *)
Ltac field_cases :=
  repeat match goal with
         | H : Forall _ (_ :: _) |- _ =>
             apply Forall_cons in H; destruct H as [? H]
         | H : Forall _ [] |- _ => clear H
         | H : well_typed_field _ (_, ?p) |- _ =>
             unfold well_typed_field in H; simpl in H;
             destruct p as [?|];
             [apply well_typed_Some in H; destruct H as [? ?] | clear H]
         end.

(** Unfolding the [Build] method at hand. *)
Ltac unfold_Build :=
  unfold HyperShiftNamespace_Build,
    HyperShiftOperatorCredentialsSecret_Build,
    HyperShiftOperatorOIDCProviderS3Secret_Build,
    ExternalDNSCredsSecret_Build,
    ExternalDNSDeployment_Build,
    HyperShiftOperatorDeployment_Build,
    HyperShiftOperatorService_Build,
    ExternalDNSServiceAccount_Build,
    ExternalDNSClusterRole_Build,
    ExternalDNSClusterRoleBinding_Build,
    HyperShiftOperatorServiceAccount_Build,
    HyperShiftOperatorClusterRole_Build,
    HyperShiftOperatorClusterRoleBinding_Build,
    HyperShiftOperatorRole_Build,
    HyperShiftOperatorRoleBinding_Build,
    HyperShiftControlPlanePriorityClass_Build,
    HyperShiftAPICriticalPriorityClass_Build,
    HyperShiftEtcdPriorityClass_Build,
    HyperShiftPrometheusRole_Build,
    HyperShiftOperatorPrometheusRoleBinding_Build,
    HyperShiftServiceMonitor_Build,
    HypershiftRecordingRule_Build,
    HyperShiftClientClusterRole_Build,
    HyperShiftClientServiceAccount_Build,
    HyperShiftClientClusterRoleBinding_Build,
    HyperShiftReaderClusterRole_Build,
    HyperShiftReaderClusterRoleBinding_Build.

Lemma deref_nil {A} (as_T : Object -> option A) h : deref as_T h None = None.
Proof. reflexivity. Qed.

Ltac run_known :=
  unfold bind, load, ret;
  repeat match goal with
         | H : deref _ _ _ = Some _ |- _ => rewrite H
         end;
  rewrite ?deref_nil; cbv beta iota.

Lemma operator_Build_panics h o :
  well_typed asSecret h (HyperShiftOperatorDeployment.OIDCStorageProviderS3Secret o) ->
  (HyperShiftOperatorDeployment_Build o h = None <->
   deref asNamespace h (HyperShiftOperatorDeployment.Namespace o) = None
   \/ deref asServiceAccount h (HyperShiftOperatorDeployment.ServiceAccount o) = None).
Proof.
  intros Hwt.
  destruct (deref asNamespace h (HyperShiftOperatorDeployment.Namespace o))
    as [ns|] eqn:Hns;
  destruct (deref asServiceAccount h (HyperShiftOperatorDeployment.ServiceAccount o))
    as [sa|] eqn:Hsa.
  - destruct (operator_Build_shape h o ns sa Hns Hsa Hwt) as (d & c & Hres & _).
    unfold result in Hres. split.
    + intros Hp. rewrite Hp in Hres. discriminate.
    + intros [?|?]; discriminate.
  - split; [auto|intros _].
    unfold HyperShiftOperatorDeployment_Build.
    unfold bind at 1. rewrite (oidcConfigured_run h o Hwt).
    destruct (oidc_configuredb h o) eqn:Hc.
    + apply oidc_configuredb_spec in Hc. destruct Hc as (_ & _ & _ & s & Hs & _).
      unfold bind, load, ret. rewrite Hs, Hns, Hsa. reflexivity.
    + unfold bind, load, ret. rewrite Hns, Hsa. reflexivity.
  - split; [auto|intros _].
    unfold HyperShiftOperatorDeployment_Build.
    unfold bind at 1. rewrite (oidcConfigured_run h o Hwt).
    destruct (oidc_configuredb h o) eqn:Hc.
    + apply oidc_configuredb_spec in Hc. destruct Hc as (_ & _ & _ & s & Hs & _).
      unfold bind, load, ret. rewrite Hs, Hns. reflexivity.
    + unfold bind, load, ret. rewrite Hns. reflexivity.
  - split; [auto|intros _].
    unfold HyperShiftOperatorDeployment_Build.
    unfold bind at 1. rewrite (oidcConfigured_run h o Hwt).
    destruct (oidc_configuredb h o) eqn:Hc.
    + apply oidc_configuredb_spec in Hc. destruct Hc as (_ & _ & _ & s & Hs & _).
      unfold bind, load, ret. rewrite Hs, Hns. reflexivity.
    + unfold bind, load, ret. rewrite Hns. reflexivity.
Qed.

#[local] Opaque deref.

(** X1.  With pointer fields as Go types them, [Build] panics exactly when
    one of the pointer fields it reads through unguarded is nil.  A nil
    OIDC secret never makes the operator Deployment builder panic. *)
Theorem Build_panics_iff_nil b h :
  Forall (well_typed_field h) (fields b) ->
  (Build b h = None <-> In nil (required b)).
Proof.
  intros Hwt.
  destruct b as
    [o|o|o|o|o|o|o|o|o|o|o|o|o|o|o|o|o|o|o|o|o|o|o|o|o|o|o];
    try (destruct o; simpl in *; field_cases; unfold nil; simpl;
         (split; [ intros Hb;
                   first [ discriminate Hb
                         | tauto
                         | exfalso; revert Hb; unfold_Build; simpl; run_known;
                           discriminate ]
                 | intros Hin;
                   first [ reflexivity
                         | unfold_Build; simpl; run_known; reflexivity
                         | exfalso; intuition discriminate ] ])).
  - destruct o; simpl in *; field_cases; unfold nil; simpl;
      try (split; [tauto | intros _; unfold_Build; simpl; run_known; reflexivity]).
    split; [|intuition discriminate].
    match goal with
    | Hn : deref asNamespace _ _ = Some ?ns,
      Ha : deref asServiceAccount _ _ = Some ?sa,
      Hs : deref asSecret _ _ = Some ?cs
      |- ExternalDNSDeployment_Build ?o _ = None -> _ =>
        destruct (externaldns_Build_shape h o ns sa cs Hn Ha Hs)
          as (d & c & Hres & _)
    end.
    intros Hb. unfold result in Hres. rewrite Hb in Hres. discriminate.
  - assert (well_typed asSecret h
              (HyperShiftOperatorDeployment.OIDCStorageProviderS3Secret o)) as Hs.
    { simpl in Hwt. apply Forall_cons in Hwt. destruct Hwt as [_ Hwt].
      apply Forall_cons in Hwt. destruct Hwt as [_ Hwt].
      apply Forall_cons in Hwt. destruct Hwt as [Hwt _]. exact Hwt. }
    simpl. rewrite (operator_Build_panics h o Hs).
    destruct o; simpl in *; field_cases; unfold nil;
      rewrite ?deref_nil;
      repeat match goal with
             | H : deref _ _ _ = Some _ |- _ => rewrite H
             end;
      intuition discriminate.
Qed.

#[local] Transparent deref.

(** ** What a returned Deployment is *)

Lemma oidcConfigured_inv h o c h0 :
  oidcConfigured o h = Some (c, h0) -> h0 = h /\ c = oidc_configuredb h o.
Proof.
  unfold oidcConfigured, oidc_configuredb.
  destruct (nonempty (HyperShiftOperatorDeployment.OIDCBucketName o)); simpl;
    [|unfold ret; intros [= <- <-]; auto].
  destruct (nonempty (HyperShiftOperatorDeployment.OIDCBucketRegion o)); simpl;
    [|unfold ret; intros [= <- <-]; auto].
  destruct (nonempty (HyperShiftOperatorDeployment.OIDCStorageProviderS3SecretKey o));
    simpl; [|unfold ret; intros [= <- <-]; auto].
  case_bool_decide as Hnil.
  - unfold bind, load, ret.
    destruct (deref asSecret h _); [|discriminate]. intros [= <- <-]. auto.
  - rewrite Hnil. unfold ret. intros [= <- <-]. auto.
Qed.

Lemma operator_Build_inv h o l h' :
  HyperShiftOperatorDeployment_Build o h = Some (l, h') ->
  exists ns sa d c,
    deref asNamespace h (HyperShiftOperatorDeployment.Namespace o) = Some ns
    /\ deref asServiceAccount h (HyperShiftOperatorDeployment.ServiceAccount o)
       = Some sa
    /\ h' !! l = Some (ODeployment d)
    /\ Deployment.TypeMeta d = typeMeta "Deployment" appsv1.SchemeGroupVersion
    /\ Deployment.ObjectMeta d = objectMeta "operator" (Namespace.Name ns)
    /\ DeploymentSpec.Replicas (Deployment.Spec d)
       = Some (HyperShiftOperatorDeployment.Replicas o)
    /\ DeploymentSpec.Selector (Deployment.Spec d)
       = Some {| LabelSelector.MatchLabels := {[ "name" := "operator" ]} |}
    /\ ObjectMeta.Labels
         (PodTemplateSpec.ObjectMeta (DeploymentSpec.Template (Deployment.Spec d)))
       = {[ "name" := "operator";
            OperatorComponent := "operator";
            "app" := "operator" ]}
    /\ PodSpec.ServiceAccountName (Deployment.PodSpec d) = ServiceAccount.Name sa
    /\ PodSpec.Containers (Deployment.PodSpec d) = [c]
    /\ volumes d = operator_volumes h o
    /\ c = {| Container.Name := "operator";
              Container.SecurityContext :=
                Some {| SecurityContext.RunAsUser := Some 1000 |};
              Container.Image := HyperShiftOperatorDeployment.OperatorImage o;
              Container.ImagePullPolicy := corev1.PullAlways;
              Container.Env := operator_env o;
              Container.Command := ["/usr/bin/hypershift-operator"];
              Container.Args := operator_args h o;
              Container.Ports :=
                [ {| ContainerPort.Name := "metrics";
                     ContainerPort.ContainerPort := 9000;
                     ContainerPort.Protocol := corev1.ProtocolTCP |} ];
              Container.LivenessProbe := httpProbe "/metrics" 9000 60 60 1 5 5;
              Container.ReadinessProbe := httpProbe "/metrics" 9000 15 60 1 3 5;
              Container.Resources :=
                {| ResourceRequirements.Requests :=
                     {[ corev1.ResourceMemory := resource.MustParse "150Mi";
                        corev1.ResourceCPU := resource.MustParse "10m" ]} |};
              Container.VolumeMounts := operator_mounts h o |}.
Proof.
  unfold HyperShiftOperatorDeployment_Build.
  unfold bind at 1.
  destruct (oidcConfigured o h) as [[cond h0]|] eqn:Hcond; [|discriminate].
  apply oidcConfigured_inv in Hcond. destruct Hcond as [-> ->].
  unfold operator_args, operator_env, operator_mounts, operator_volumes,
    oidc_secret_name.
  destruct (oidc_configuredb h o) eqn:Hc.
  - assert (exists s, deref asSecret h
              (HyperShiftOperatorDeployment.OIDCStorageProviderS3Secret o) = Some s)
      as [s Hs].
    { apply oidc_configuredb_spec in Hc. destruct Hc as (_ & _ & _ & s & Hs & _).
      eauto. }
    unfold bind, load, ret, update_Container0. rewrite Hs.
    destruct (deref asNamespace h _) as [ns|]; [|discriminate].
    destruct (deref asServiceAccount h _) as [sa|]; [|discriminate].
    destruct (String.eqb (HyperShiftOperatorDeployment.PrivatePlatform o) NonePlatform);
      [|destruct (String.eqb (HyperShiftOperatorDeployment.PrivatePlatform o) AWSPlatform)];
      cbn; intros [= <- <-]; rewrite lookup_fresh;
      eexists ns, sa, _, _; repeat split.
  - unfold bind, load, ret, update_Container0.
    destruct (deref asNamespace h _) as [ns|]; [|discriminate].
    destruct (deref asServiceAccount h _) as [sa|]; [|discriminate].
    destruct (String.eqb (HyperShiftOperatorDeployment.PrivatePlatform o) NonePlatform);
      [|destruct (String.eqb (HyperShiftOperatorDeployment.PrivatePlatform o) AWSPlatform)];
      cbn; intros [= <- <-]; rewrite lookup_fresh;
      eexists ns, sa, _, _; repeat split.
Qed.

Lemma externaldns_Build_inv h o l h' :
  ExternalDNSDeployment_Build o h = Some (l, h') ->
  exists ns sa cs d c,
    deref asNamespace h (ExternalDNSDeployment.Namespace o) = Some ns
    /\ deref asServiceAccount h (ExternalDNSDeployment.ServiceAccount o) = Some sa
    /\ deref asSecret h (ExternalDNSDeployment.CredentialsSecret o) = Some cs
    /\ h' !! l = Some (ODeployment d)
    /\ Deployment.TypeMeta d = typeMeta "Deployment" appsv1.SchemeGroupVersion
    /\ Deployment.ObjectMeta d = objectMeta "external-dns" (Namespace.Name ns)
    /\ DeploymentSpec.Replicas (Deployment.Spec d) = Some 1
    /\ DeploymentSpec.Selector (Deployment.Spec d)
       = Some {| LabelSelector.MatchLabels := {[ "name" := "external-dns" ]} |}
    /\ ObjectMeta.Labels
         (PodTemplateSpec.ObjectMeta (DeploymentSpec.Template (Deployment.Spec d)))
       = {[ "name" := "external-dns";
            "app" := "external-dns";
            OperatorComponent := "external-dns" ]}
    /\ PodSpec.ServiceAccountName (Deployment.PodSpec d) = ServiceAccount.Name sa
    /\ PodSpec.Containers (Deployment.PodSpec d) = [c]
    /\ volumes d = [secretVolume "credentials" (Secret.Name cs)]
    /\ c = {| Container.Name := "external-dns";
              Container.SecurityContext := None;
              Container.Image := ExternalDNSDeployment.Image o;
              Container.ImagePullPolicy := corev1.PullIfNotPresent;
              Container.Env :=
                (if String.eqb (ExternalDNSDeployment.Provider o) "aws"
                 then [ env "AWS_SHARED_CREDENTIALS_FILE" "/etc/provider/credentials";
                        env "AWS_REGION" "us-east-1" ]
                 else []);
              Container.Command := ["/external-dns"];
              Container.Args :=
                ([ "--source=service";
                   "--source=openshift-route";
                   "--domain-filter=" +:+ ExternalDNSDeployment.DomainFilter o;
                   "--provider=" +:+ ExternalDNSDeployment.Provider o;
                   "--registry=noop";
                   "--txt-owner-id=hypershift" ]
                 ++ if String.eqb (ExternalDNSDeployment.Provider o) "aws"
                    then ["--aws-zone-type=public"] else [])%list;
              Container.Ports :=
                [ {| ContainerPort.Name := "metrics";
                     ContainerPort.ContainerPort := 7979;
                     ContainerPort.Protocol := "" |} ];
              Container.LivenessProbe := httpProbe "/healthz" 7979 60 60 1 5 5;
              Container.ReadinessProbe := None;
              Container.Resources :=
                {| ResourceRequirements.Requests :=
                     {[ corev1.ResourceMemory := resource.MustParse "20Mi";
                        corev1.ResourceCPU := resource.MustParse "5m" ]} |};
              Container.VolumeMounts := [credentials_mount] |}.
Proof.
  unfold ExternalDNSDeployment_Build.
  unfold bind, load, ret, update_Container0.
  destruct (deref asNamespace h _) as [ns|]; [|discriminate].
  destruct (deref asServiceAccount h _) as [sa|]; [|discriminate].
  destruct (deref asSecret h _) as [cs|]; [|discriminate].
  destruct (String.eqb (ExternalDNSDeployment.Provider o) "aws");
    cbn; intros [= <- <-]; rewrite lookup_fresh;
    eexists ns, sa, cs, _, _; repeat split.
Qed.

(** ** Metadata of the returned objects *)

(** Running a [Build] with at most two pointer fields, whatever they point
    to. *)
Ltac run_any :=
  unfold_Build; unfold bind, load, ret, alloc;
  repeat match goal with
         | |- context [deref ?a ?h ?p] => destruct (deref a h p)
         end;
  cbv beta iota;
  intros Hb; try discriminate Hb;
  injection Hb as <- <-; rewrite lookup_fresh.

(** X2.  Every object a [Build] returns carries the kind and apiVersion
    under which the API serves its Go type. *)
Theorem Build_type_meta b h l h' :
  Build b h = Some (l, h') ->
  exists o, h' !! l = Some o /\ type_meta o = registered o.
Proof.
  destruct b as
    [o|o|o|o|o|o|o|o|o|o|o|o|o|o|o|o|o|o|o|o|o|o|o|o|o|o|o];
    simpl;
    try (run_any; eexists; split; [reflexivity|];
         try destruct (HyperShiftNamespace.EnableOCPClusterMonitoring o);
         reflexivity).
  - intros Hb. apply externaldns_Build_inv in Hb.
    destruct Hb as (ns & sa & cs & d & c & _ & _ & _ & Hl & Htm & _).
    exists (ODeployment d). split; [exact Hl|]. simpl. rewrite Htm. reflexivity.
  - intros Hb. apply operator_Build_inv in Hb.
    destruct Hb as (ns & sa & d & c & _ & _ & Hl & Htm & _).
    exists (ODeployment d). split; [exact Hl|]. simpl. rewrite Htm. reflexivity.
Qed.

(** X3.  An object built by a builder with a [Namespace] field is in the
    namespace that field points to (its [Name]); an object of a
    cluster-scoped type is in no namespace. *)
Theorem Build_namespace b h l h' :
  Build b h = Some (l, h') ->
  exists o,
    h' !! l = Some o
    /\ (forall p ns,
          namespace_field b = Some p ->
          deref asNamespace h p = Some ns ->
          ObjectMeta.Namespace (object_meta o) = Namespace.Name ns)
    /\ (cluster_scoped o = true -> ObjectMeta.Namespace (object_meta o) = "").
Proof.
  destruct b as
    [o|o|o|o|o|o|o|o|o|o|o|o|o|o|o|o|o|o|o|o|o|o|o|o|o|o|o];
    simpl.
  5:{ intros Hb. apply externaldns_Build_inv in Hb.
      destruct Hb as (ns & sa & cs & d & c & Hns & _ & _ & Hl & _ & Hom & _).
      exists (ODeployment d). split; [exact Hl|]. split; [|discriminate].
      intros p ns' [= <-] Hp. simpl. rewrite Hom. simpl. congruence. }
  5:{ intros Hb. apply operator_Build_inv in Hb.
      destruct Hb as (ns & sa & d & c & Hns & _ & Hl & _ & Hom & _).
      exists (ODeployment d). split; [exact Hl|]. split; [|discriminate].
      intros p ns' [= <-] Hp. simpl. rewrite Hom. simpl. congruence. }
  all: unfold_Build; unfold bind, load, ret, alloc;
    repeat match goal with
           | |- context [deref ?a ?h ?p] => destruct (deref a h p) eqn:?
           end;
    cbv beta iota;
    intros Hb; try discriminate Hb;
    injection Hb as <- <-; rewrite lookup_fresh;
    eexists; (split; [reflexivity|]);
    (split; [ intros p ns'; unfold namespace_field; simpl;
              intros Hp Hd; try discriminate Hp;
              injection Hp as <-; congruence
            | try discriminate;
              try destruct (HyperShiftNamespace.EnableOCPClusterMonitoring o);
              reflexivity ]).
Qed.

(** ** Platform wiring of the operator Deployment *)

(** X4.  In the operator Deployment the AWS wiring is there for the AWS
    platform and for no other: the projected service account token volume
    (audience openshift) with its mount and the variable
    AWS_SHARED_CREDENTIALS_FILE.  On every other platform, the unknown ones
    included, no volume and no mount is named "token" and MY_NAMESPACE is
    the only variable. *)
Theorem operator_deployment_aws_wiring h o l h' :
  AWSPlatform <> NonePlatform ->
  HyperShiftOperatorDeployment_Build o h = Some (l, h') ->
  exists d c,
    h' !! l = Some (ODeployment d)
    /\ container0 d = Some c
    /\ (exists e, In e (Container.Env c) /\ EnvVar.Name e = "MY_NAMESPACE")
    /\ (HyperShiftOperatorDeployment.PrivatePlatform o = AWSPlatform ->
          In {| VolumeMount.Name := "token";
                VolumeMount.MountPath :=
                  "/var/run/secrets/openshift/serviceaccount" |}
             (Container.VolumeMounts c)
          /\ In {| Volume.Name := "token";
                   Volume.VolumeSource :=
                     {| VolumeSource.Secret := None;
                        VolumeSource.Projected :=
                          Some {| ProjectedVolumeSource.Sources :=
                                    [ {| VolumeProjection.ServiceAccountToken :=
                                           Some {| ServiceAccountTokenProjection.Audience := "openshift";
                                                   ServiceAccountTokenProjection.Path := "token" |} |} ] |} |} |}
                (volumes d)
          /\ In {| EnvVar.Name := "AWS_SHARED_CREDENTIALS_FILE";
                   EnvVar.Value := "/etc/provider/credentials";
                   EnvVar.ValueFrom := None |} (Container.Env c))
    /\ (HyperShiftOperatorDeployment.PrivatePlatform o <> AWSPlatform ->
          (forall m, In m (Container.VolumeMounts c) -> VolumeMount.Name m <> "token")
          /\ (forall v, In v (volumes d) -> Volume.Name v <> "token")
          /\ (forall e, In e (Container.Env c) -> EnvVar.Name e = "MY_NAMESPACE")).
Proof.
  intros Hne Hb. apply operator_Build_inv in Hb.
  destruct Hb as (ns & sa & d & c & _ & _ & Hl & _ & _ & _ & _ & _ & _ & Hc & Hv & Hceq).
  exists d, c. unfold container0. rewrite Hc, Hv. subst c. simpl.
  unfold operator_env, operator_mounts, operator_volumes.
  split; [exact Hl|]. split; [reflexivity|]. split; [eexists; split; [left; reflexivity|reflexivity]|].
  split.
  - intros ->. apply String.eqb_neq in Hne. rewrite Hne, String.eqb_refl.
    split; [|split].
    + apply in_or_app. right. right. left. reflexivity.
    + apply in_or_app. right. right. left. reflexivity.
    + right. left. reflexivity.
  - intros Hp. apply String.eqb_neq in Hp. rewrite Hp.
    split; [|split].
    + intros m Hin. apply in_app_or in Hin. destruct Hin as [Hin|Hin].
      * destruct (oidc_configuredb h o); [|contradiction].
        destruct Hin as [<-|[]]. discriminate.
      * destruct (String.eqb _ NonePlatform); [contradiction|].
        destruct Hin as [<-|[]]. discriminate.
    + intros v Hin. apply in_app_or in Hin. destruct Hin as [Hin|Hin].
      * destruct (oidc_configuredb h o); [|contradiction].
        destruct Hin as [<-|[]]. discriminate.
      * destruct (String.eqb _ NonePlatform); [contradiction|].
        destruct Hin as [<-|[]]. discriminate.
    + intros e Hin.
      destruct (String.eqb _ NonePlatform); destruct Hin as [<-|[]]; reflexivity.
Qed.

(** X5.  [AWSPrivateCreds] has no part in what the operator Deployment
    builder returns, and [AWSPrivateRegion] has none unless the platform is
    the AWS one. *)
Theorem operator_deployment_ignores_aws_fields o v h :
  HyperShiftOperatorDeployment_Build (with_AWSPrivateCreds v o) h
  = HyperShiftOperatorDeployment_Build o h
  /\ (HyperShiftOperatorDeployment.PrivatePlatform o <> AWSPlatform ->
      HyperShiftOperatorDeployment_Build (with_AWSPrivateRegion v o) h
      = HyperShiftOperatorDeployment_Build o h).
Proof.
  split.
  - destruct o. reflexivity.
  - intros Hp. apply String.eqb_neq in Hp.
    destruct o. unfold HyperShiftOperatorDeployment_Build. simpl in *.
    rewrite Hp. reflexivity.
Qed.

(** ** Selectors, ports and probes *)

Lemma singleton_subseteq_insert (k v : string) (m : gmap string string) :
  ({[ k := v ]} : gmap string string) ⊆ <[ k := v ]> m.
Proof.
  apply map_subseteq_spec. intros i x Hi.
  apply lookup_singleton_Some in Hi. destruct Hi as [<- <-].
  apply lookup_insert_eq.
Qed.

(** X6.  Whenever a [Build] returns a Deployment, the Deployment's selector
    selects the pods of its own template (the selector's labels are among
    the template's), and every HTTP probe of every container connects to a
    port the container declares. *)
Theorem deployment_selects_its_pods b h l h' d :
  Build b h = Some (l, h') ->
  h' !! l = Some (ODeployment d) ->
  (exists sel,
     DeploymentSpec.Selector (Deployment.Spec d) = Some sel
     /\ LabelSelector.MatchLabels sel
        ⊆ ObjectMeta.Labels
            (PodTemplateSpec.ObjectMeta
               (DeploymentSpec.Template (Deployment.Spec d))))
  /\ (forall c p,
        In c (PodSpec.Containers (Deployment.PodSpec d)) ->
        In p (probe_ports c) ->
        exists cp,
          In cp (Container.Ports c)
          /\ p = intstr.Int (ContainerPort.ContainerPort cp)).
Proof.
  destruct b as
    [o|o|o|o|o|o|o|o|o|o|o|o|o|o|o|o|o|o|o|o|o|o|o|o|o|o|o];
    simpl; try (run_any; discriminate).
  - intros Hb Hd. apply externaldns_Build_inv in Hb.
    destruct Hb as (ns & sa & cs & d' & c & _ & _ & _ & Hl & _ & _ & _ & Hsel
                    & Hlab & _ & Hc & _ & Hceq).
    rewrite Hl in Hd. injection Hd as <-. split.
    + eexists. split; [exact Hsel|]. rewrite Hlab. simpl.
      apply singleton_subseteq_insert.
    + rewrite Hc. intros c' p [<-|[]]. subst c. simpl.
      intros [<-|[]]. eexists. split; [left; reflexivity | reflexivity].
  - intros Hb Hd. apply operator_Build_inv in Hb.
    destruct Hb as (ns & sa & d' & c & _ & _ & Hl & _ & _ & _ & Hsel
                    & Hlab & _ & Hc & _ & Hceq).
    rewrite Hl in Hd. injection Hd as <-. split.
    + eexists. split; [exact Hsel|]. rewrite Hlab. simpl.
      apply singleton_subseteq_insert.
    + rewrite Hc. intros c' p [<-|[]]. subst c. simpl.
      intros [<-|[<-|[]]]; eexists; (split; [left; reflexivity | reflexivity]).
Qed.


(** ** Credentials: secret, volume, mount and path *)

(** X8.  On the AWS platform the operator Deployment and the Secret of
    [HyperShiftOperatorCredentialsSecret] fit together: the Deployment has
    a volume on the secret of that name, mounted in the operator
    container, and AWS_SHARED_CREDENTIALS_FILE is the mount path followed
    by the key under which the Secret holds the credential bytes. *)
Theorem operator_credentials_file od h l h' oc hc lc hc' :
  AWSPlatform <> NonePlatform ->
  HyperShiftOperatorDeployment.PrivatePlatform od = AWSPlatform ->
  HyperShiftOperatorDeployment_Build od h = Some (l, h') ->
  HyperShiftOperatorCredentialsSecret_Build oc hc = Some (lc, hc') ->
  exists d c s v m e key,
    h' !! l = Some (ODeployment d)
    /\ container0 d = Some c
    /\ hc' !! lc = Some (OSecret s)
    /\ In v (volumes d)
    /\ VolumeSource.Secret (Volume.VolumeSource v)
       = Some {| SecretVolumeSource.SecretName := Secret.Name s |}
    /\ In m (Container.VolumeMounts c)
    /\ VolumeMount.Name m = Volume.Name v
    /\ Secret.Data s !! key
       = Some (HyperShiftOperatorCredentialsSecret.CredsBytes oc)
    /\ In e (Container.Env c)
    /\ EnvVar.Name e = "AWS_SHARED_CREDENTIALS_FILE"
    /\ EnvVar.Value e = VolumeMount.MountPath m +:+ "/" +:+ key.
Proof.
  intros Hne Haws Hd Hs. apply operator_Build_inv in Hd.
  destruct Hd as (ns & sa & d & c & _ & _ & Hl & _ & _ & _ & _ & _ & _
                  & Hc & Hv & Hceq).
  revert Hs. run_any.
  exists d, c. eexists _, (secretVolume "credentials" awsCredsSecretName),
    credentials_mount,
    (env "AWS_SHARED_CREDENTIALS_FILE" "/etc/provider/credentials"),
    awsCredsSecretKey.
  unfold container0. rewrite Hc, Hv. subst c. simpl.
  unfold operator_env, operator_mounts, operator_volumes.
  apply String.eqb_neq in Hne. rewrite Haws, Hne, String.eqb_refl.
  split; [exact Hl|]. split; [reflexivity|]. split; [reflexivity|].
  split; [apply in_or_app; right; left; reflexivity|].
  split; [reflexivity|].
  split; [apply in_or_app; right; left; reflexivity|].
  split; [reflexivity|].
  split; [apply lookup_singleton_eq|].
  split; [right; left; reflexivity|]. split; reflexivity.
Qed.

(** X9.  With provider "aws", an external-dns Deployment whose
    [CredentialsSecret] is a Secret [ExternalDNSCredsSecret.Build] returned
    has its one volume on that Secret, mounted in the container, and
    AWS_SHARED_CREDENTIALS_FILE is the mount path followed by the key under
    which the Secret holds the credential bytes. *)
Theorem externaldns_credentials_file od h l h' oc hc lc hc' s :
  ExternalDNSDeployment.Provider od = "aws" ->
  ExternalDNSCredsSecret_Build oc hc = Some (lc, hc') ->
  hc' !! lc = Some (OSecret s) ->
  deref asSecret h (ExternalDNSDeployment.CredentialsSecret od) = Some s ->
  ExternalDNSDeployment_Build od h = Some (l, h') ->
  exists d c v m e key,
    h' !! l = Some (ODeployment d)
    /\ container0 d = Some c
    /\ volumes d = [v]
    /\ VolumeSource.Secret (Volume.VolumeSource v)
       = Some {| SecretVolumeSource.SecretName := "external-dns-credentials" |}
    /\ Secret.Name s = "external-dns-credentials"
    /\ Container.VolumeMounts c = [m]
    /\ VolumeMount.Name m = Volume.Name v
    /\ Secret.Data s !! key = Some (ExternalDNSCredsSecret.CredsBytes oc)
    /\ In e (Container.Env c)
    /\ EnvVar.Name e = "AWS_SHARED_CREDENTIALS_FILE"
    /\ EnvVar.Value e = VolumeMount.MountPath m +:+ "/" +:+ key.
Proof.
  intros Haws Hs Hls Hcs Hd. apply externaldns_Build_inv in Hd.
  destruct Hd as (ns & sa & cs & d & c & _ & _ & Hcs' & Hl & _ & _ & _ & _ & _
                  & _ & Hc & Hv & Hceq).
  rewrite Hcs in Hcs'. injection Hcs' as <-.
  subst c. revert Hs Hls. run_any. intros [= <-].
  eexists d, _, (secretVolume "credentials" externaDNSCredsSecretName),
    credentials_mount,
    (env "AWS_SHARED_CREDENTIALS_FILE" "/etc/provider/credentials"),
    "credentials".
  unfold container0. rewrite Hc, Hv. simpl. rewrite Haws. simpl.
  split; [exact Hl|]. repeat (split; [reflexivity|]).
  split; [left; reflexivity|]. split; reflexivity.
Qed.

(** X10.  An operator Deployment configured with a bucket name, a bucket
    region, a secret key and, as its OIDC secret, a Secret that
    [HyperShiftOperatorOIDCProviderS3Secret.Build] returned for that key,
    has the OIDC wiring: a volume on that Secret, mounted in the operator
    container, and the argument
    --oidc-storage-provider-s3-credentials= followed by the mount path and
    the key under which the Secret holds the credential bytes. *)
Theorem operator_oidc_credentials_file od h l h' os hs ls hs' s :
  HyperShiftOperatorDeployment.OIDCBucketName od <> "" ->
  HyperShiftOperatorDeployment.OIDCBucketRegion od <> "" ->
  HyperShiftOperatorDeployment.OIDCStorageProviderS3SecretKey od <> "" ->
  HyperShiftOperatorOIDCProviderS3Secret.CredsKey os
  = HyperShiftOperatorDeployment.OIDCStorageProviderS3SecretKey od ->
  HyperShiftOperatorOIDCProviderS3Secret_Build os hs = Some (ls, hs') ->
  hs' !! ls = Some (OSecret s) ->
  deref asSecret h (HyperShiftOperatorDeployment.OIDCStorageProviderS3Secret od)
  = Some s ->
  HyperShiftOperatorDeployment_Build od h = Some (l, h') ->
  exists d c v m,
    h' !! l = Some (ODeployment d)
    /\ container0 d = Some c
    /\ In v (volumes d)
    /\ VolumeSource.Secret (Volume.VolumeSource v)
       = Some {| SecretVolumeSource.SecretName := Secret.Name s |}
    /\ In m (Container.VolumeMounts c)
    /\ VolumeMount.Name m = Volume.Name v
    /\ Secret.Data s !! HyperShiftOperatorDeployment.OIDCStorageProviderS3SecretKey od
       = Some (HyperShiftOperatorOIDCProviderS3Secret.OIDCStorageProviderS3CredBytes os)
    /\ In ("--oidc-storage-provider-s3-credentials=" +:+
             VolumeMount.MountPath m +:+ "/" +:+
             HyperShiftOperatorDeployment.OIDCStorageProviderS3SecretKey od)
          (Container.Args c).
Proof.
  intros Hbn Hbr Hk Hkey Hs Hls Hsec Hd. apply operator_Build_inv in Hd.
  destruct Hd as (ns & sa & d & c & _ & _ & Hl & _ & _ & _ & _ & _ & _
                  & Hc & Hv & Hceq).
  subst c. revert Hs Hls. run_any. intros [= <-].
  assert (oidc_configuredb h od = true) as Hconf.
  { apply oidc_configuredb_spec. repeat split; try assumption.
    eexists. split; [exact Hsec|]. discriminate. }
  eexists d, _, (secretVolume "oidc-storage-provider-s3-creds" _), oidc_mount.
  unfold container0. rewrite Hc, Hv. simpl.
  unfold operator_args, operator_mounts, operator_volumes, oidc_secret_name.
  rewrite Hconf, Hsec.
  split; [exact Hl|]. split; [reflexivity|].
  split; [apply in_or_app; left; left; reflexivity|].
  split; [reflexivity|].
  split; [apply in_or_app; left; left; reflexivity|].
  split; [reflexivity|].
  split; [simpl; rewrite Hkey; apply lookup_singleton_eq|].
  apply in_or_app. right. right. right. left. reflexivity.
Qed.

(** ** Builders in sequence *)

Lemma deref_fresh {A} (as_T : Object -> option A) (h : Heap) o :
  deref as_T (h ++ [o])%list (Some (length h)) = as_T o.
Proof. unfold deref. now rewrite lookup_fresh. Qed.

Lemma lookup_older (h t : Heap) (l : loc) :
  (l < length h)%nat -> ((h ++ t)%list : Heap) !! l = h !! l.
Proof. intros Hl. now apply lookup_app_l. Qed.

Lemma deref_older {A} (as_T : Object -> option A) (h t : Heap) (l : loc) :
  (l < length h)%nat ->
  deref as_T (h ++ t)%list (Some l) = deref as_T h (Some l).
Proof. intros Hl. unfold deref. now rewrite lookup_older. Qed.

Lemma bind_run {A B} (m : M A) (k : A -> M B) h a h1 :
  m h = Some (a, h1) -> bind m k h = k a h1.
Proof. intros Hm. unfold bind. now rewrite Hm. Qed.

Lemma run_HyperShiftNamespace o h :
  exists v,
    HyperShiftNamespace_Build o h = Some (length h, (h ++ [ONamespace v])%list)
    /\ Namespace.Name v = HyperShiftNamespace.Name o.
Proof.
  unfold HyperShiftNamespace_Build, alloc. eexists. split; [reflexivity|].
  now destruct (HyperShiftNamespace.EnableOCPClusterMonitoring o).
Qed.

Lemma run_HyperShiftOperatorServiceAccount p h ns :
  deref asNamespace h p = Some ns ->
  exists v,
    HyperShiftOperatorServiceAccount_Build
      {| HyperShiftOperatorServiceAccount.Namespace := p |} h
    = Some (length h, (h ++ [OServiceAccount v])%list)
    /\ TypeMeta.Kind (ServiceAccount.TypeMeta v) = "ServiceAccount"
    /\ ServiceAccount.Name v = "operator"
    /\ ServiceAccount.Namespace v = Namespace.Name ns.
Proof.
  intros Hns. unfold HyperShiftOperatorServiceAccount_Build, bind, load, alloc.
  simpl. rewrite Hns. eexists. repeat split.
Qed.

Lemma run_HyperShiftOperatorClusterRole h :
  exists v,
    HyperShiftOperatorClusterRole_Build HyperShiftOperatorClusterRole.mk h
    = Some (length h, (h ++ [OClusterRole v])%list)
    /\ TypeMeta.Kind (ClusterRole.TypeMeta v) = "ClusterRole"
    /\ ClusterRole.Name v = "hypershift-operator".
Proof.
  unfold HyperShiftOperatorClusterRole_Build, alloc. eexists. repeat split.
Qed.

Lemma run_HyperShiftOperatorRole p h ns :
  deref asNamespace h p = Some ns ->
  exists v,
    HyperShiftOperatorRole_Build {| HyperShiftOperatorRole.Namespace := p |} h
    = Some (length h, (h ++ [ORole v])%list)
    /\ TypeMeta.Kind (Role.TypeMeta v) = "Role"
    /\ Role.Name v = "hypershift-operator"
    /\ ObjectMeta.Namespace (Role.ObjectMeta v) = Namespace.Name ns.
Proof.
  intros Hns. unfold HyperShiftOperatorRole_Build, bind, load, alloc.
  simpl. rewrite Hns. eexists. repeat split.
Qed.

Lemma run_HyperShiftOperatorClusterRoleBinding pc ps h cr sa :
  deref asClusterRole h pc = Some cr ->
  deref asServiceAccount h ps = Some sa ->
  exists v,
    HyperShiftOperatorClusterRoleBinding_Build
      {| HyperShiftOperatorClusterRoleBinding.ClusterRole := pc;
         HyperShiftOperatorClusterRoleBinding.ServiceAccount := ps |} h
    = Some (length h, (h ++ [OClusterRoleBinding v])%list)
    /\ ClusterRoleBinding.Subjects v
       = [ {| Subject.Kind := "ServiceAccount";
              Subject.APIGroup := "";
              Subject.Name := ServiceAccount.Name sa;
              Subject.Namespace := ServiceAccount.Namespace sa |} ]
    /\ RoleRef.Kind (ClusterRoleBinding.RoleRef v) = "ClusterRole"
    /\ RoleRef.Name (ClusterRoleBinding.RoleRef v) = ClusterRole.Name cr.
Proof.
  intros Hcr Hsa.
  unfold HyperShiftOperatorClusterRoleBinding_Build, bind, load, alloc.
  simpl. rewrite Hcr, Hsa. eexists. repeat split.
Qed.

Lemma run_HyperShiftOperatorRoleBinding pr ps h r sa :
  deref asRole h pr = Some r ->
  deref asServiceAccount h ps = Some sa ->
  exists v,
    HyperShiftOperatorRoleBinding_Build
      {| HyperShiftOperatorRoleBinding.Role := pr;
         HyperShiftOperatorRoleBinding.ServiceAccount := ps |} h
    = Some (length h, (h ++ [ORoleBinding v])%list)
    /\ RoleBinding.Subjects v
       = [ {| Subject.Kind := "ServiceAccount";
              Subject.APIGroup := "";
              Subject.Name := ServiceAccount.Name sa;
              Subject.Namespace := ServiceAccount.Namespace sa |} ]
    /\ RoleRef.Kind (RoleBinding.RoleRef v) = "Role"
    /\ RoleRef.Name (RoleBinding.RoleRef v) = Role.Name r
    /\ ObjectMeta.Namespace (RoleBinding.ObjectMeta v)
       = ServiceAccount.Namespace sa.
Proof.
  intros Hr Hsa.
  unfold HyperShiftOperatorRoleBinding_Build, bind, load, alloc.
  simpl. rewrite Hsa, Hr. eexists. repeat split.
Qed.

(** Reading a cell allocated earlier in a sequence of builders. *)
Ltac older :=
  repeat first
    [ rewrite lookup_fresh
    | rewrite deref_fresh
    | rewrite lookup_older by (rewrite ?length_app; simpl; lia)
    | rewrite deref_older by (rewrite ?length_app; simpl; lia) ].

(** X11.  Built one after the other for one namespace, the operator's
    service account, cluster role, role and the two bindings fit together:
    each binding's subject is the service account (its name, in the
    namespace), each role reference has the kind and the name of the role
    it was given, and the RoleBinding is in the namespace of the Role. *)
Theorem operator_rbac_in_sequence (h : Heap) (name : string) (monitoring : bool) :
  exists lsa lcr lr lcrb lrb h' sa cr r crb rb,
    (ns <- HyperShiftNamespace_Build
             {| HyperShiftNamespace.Name := name;
                HyperShiftNamespace.EnableOCPClusterMonitoring := monitoring |};;
     sa <- HyperShiftOperatorServiceAccount_Build
             {| HyperShiftOperatorServiceAccount.Namespace := Some ns |};;
     cr <- HyperShiftOperatorClusterRole_Build HyperShiftOperatorClusterRole.mk;;
     r <- HyperShiftOperatorRole_Build
            {| HyperShiftOperatorRole.Namespace := Some ns |};;
     crb <- HyperShiftOperatorClusterRoleBinding_Build
              {| HyperShiftOperatorClusterRoleBinding.ClusterRole := Some cr;
                 HyperShiftOperatorClusterRoleBinding.ServiceAccount := Some sa |};;
     rb <- HyperShiftOperatorRoleBinding_Build
             {| HyperShiftOperatorRoleBinding.Role := Some r;
                HyperShiftOperatorRoleBinding.ServiceAccount := Some sa |};;
     ret (sa, cr, r, crb, rb)) h
    = Some ((lsa, lcr, lr, lcrb, lrb), h')
    /\ h' !! lsa = Some (OServiceAccount sa)
    /\ h' !! lcr = Some (OClusterRole cr)
    /\ h' !! lr = Some (ORole r)
    /\ h' !! lcrb = Some (OClusterRoleBinding crb)
    /\ h' !! lrb = Some (ORoleBinding rb)
    /\ ServiceAccount.Namespace sa = name
    /\ ClusterRoleBinding.Subjects crb
       = [ {| Subject.Kind := TypeMeta.Kind (ServiceAccount.TypeMeta sa);
              Subject.APIGroup := "";
              Subject.Name := ServiceAccount.Name sa;
              Subject.Namespace := name |} ]
    /\ RoleRef.Kind (ClusterRoleBinding.RoleRef crb)
       = TypeMeta.Kind (ClusterRole.TypeMeta cr)
    /\ RoleRef.Name (ClusterRoleBinding.RoleRef crb) = ClusterRole.Name cr
    /\ RoleBinding.Subjects rb = ClusterRoleBinding.Subjects crb
    /\ RoleRef.Kind (RoleBinding.RoleRef rb) = TypeMeta.Kind (Role.TypeMeta r)
    /\ RoleRef.Name (RoleBinding.RoleRef rb) = Role.Name r
    /\ ObjectMeta.Namespace (RoleBinding.ObjectMeta rb)
       = ObjectMeta.Namespace (Role.ObjectMeta r)
    /\ ObjectMeta.Namespace (Role.ObjectMeta r) = name.
Proof.
  destruct (run_HyperShiftNamespace
              {| HyperShiftNamespace.Name := name;
                 HyperShiftNamespace.EnableOCPClusterMonitoring := monitoring |} h)
    as (ns & Hns & Hname). simpl in Hname.
  set (h1 := (h ++ [ONamespace ns])%list) in *.
  assert (deref asNamespace h1 (Some (length h)) = Some ns) as D1
    by (unfold h1; older; reflexivity).
  destruct (run_HyperShiftOperatorServiceAccount _ h1 ns D1)
    as (sa & Hsa & Hsak & Hsan & Hsans).
  set (h2 := (h1 ++ [OServiceAccount sa])%list) in *.
  destruct (run_HyperShiftOperatorClusterRole h2) as (cr & Hcr & Hcrk & Hcrn).
  set (h3 := (h2 ++ [OClusterRole cr])%list) in *.
  assert (deref asNamespace h3 (Some (length h)) = Some ns) as D3
    by (unfold h3, h2, h1; older; reflexivity).
  destruct (run_HyperShiftOperatorRole _ h3 ns D3)
    as (r & Hr & Hrk & Hrn & Hrns).
  set (h4 := (h3 ++ [ORole r])%list) in *.
  assert (deref asClusterRole h4 (Some (length h2)) = Some cr) as D4c
    by (unfold h4, h3; older; reflexivity).
  assert (deref asServiceAccount h4 (Some (length h1)) = Some sa) as D4s
    by (unfold h4, h3, h2; older; reflexivity).
  destruct (run_HyperShiftOperatorClusterRoleBinding _ _ h4 cr sa D4c D4s)
    as (crb & Hcrb & Hcrbs & Hcrbk & Hcrbn).
  set (h5 := (h4 ++ [OClusterRoleBinding crb])%list) in *.
  assert (deref asRole h5 (Some (length h3)) = Some r) as D5r
    by (unfold h5, h4; older; reflexivity).
  assert (deref asServiceAccount h5 (Some (length h1)) = Some sa) as D5s
    by (unfold h5, h4, h3, h2; older; reflexivity).
  destruct (run_HyperShiftOperatorRoleBinding _ _ h5 r sa D5r D5s)
    as (rb & Hrb & Hrbs & Hrbk & Hrbn & Hrbns).
  exists (length h1), (length h2), (length h3), (length h4), (length h5),
    (h5 ++ [ORoleBinding rb])%list, sa, cr, r, crb, rb.
  split.
  { rewrite (bind_run _ _ _ _ _ Hns), (bind_run _ _ _ _ _ Hsa),
      (bind_run _ _ _ _ _ Hcr), (bind_run _ _ _ _ _ Hr),
      (bind_run _ _ _ _ _ Hcrb), (bind_run _ _ _ _ _ Hrb).
    reflexivity. }
  rewrite Hcrbs, Hrbs, Hcrbk, Hcrk, Hcrbn, Hrbk, Hrk, Hrbn, Hrbns, Hrns,
    Hsak, Hsans, Hname.
  unfold h5, h4, h3, h2, h1.
  repeat split; older; reflexivity.
Qed.

Lemma run_ExternalDNSServiceAccount p h ns :
  deref asNamespace h p = Some ns ->
  exists v,
    ExternalDNSServiceAccount_Build {| ExternalDNSServiceAccount.Namespace := p |} h
    = Some (length h, (h ++ [OServiceAccount v])%list)
    /\ ServiceAccount.Name v = "external-dns"
    /\ ServiceAccount.Namespace v = Namespace.Name ns.
Proof.
  intros Hns. unfold ExternalDNSServiceAccount_Build, bind, load, alloc.
  simpl. rewrite Hns. eexists. repeat split.
Qed.

Lemma run_ExternalDNSCredsSecret p bytes h ns :
  deref asNamespace h p = Some ns ->
  exists v,
    ExternalDNSCredsSecret_Build
      {| ExternalDNSCredsSecret.Namespace := p;
         ExternalDNSCredsSecret.CredsBytes := bytes |} h
    = Some (length h, (h ++ [OSecret v])%list)
    /\ Secret.Name v = "external-dns-credentials"
    /\ ObjectMeta.Namespace (Secret.ObjectMeta v) = Namespace.Name ns
    /\ Secret.Data v !! "credentials" = Some bytes.
Proof.
  intros Hns. unfold ExternalDNSCredsSecret_Build, bind, load, alloc.
  simpl. rewrite Hns. eexists. repeat split.
Qed.

Lemma run_ExternalDNSDeployment o h ns sa cs :
  deref asNamespace h (ExternalDNSDeployment.Namespace o) = Some ns ->
  deref asServiceAccount h (ExternalDNSDeployment.ServiceAccount o) = Some sa ->
  deref asSecret h (ExternalDNSDeployment.CredentialsSecret o) = Some cs ->
  exists d,
    ExternalDNSDeployment_Build o h
    = Some (length h, (h ++ [ODeployment d])%list)
    /\ ObjectMeta.Namespace (Deployment.ObjectMeta d) = Namespace.Name ns
    /\ PodSpec.ServiceAccountName (Deployment.PodSpec d) = ServiceAccount.Name sa
    /\ volumes d = [secretVolume "credentials" (Secret.Name cs)].
Proof.
  intros Hns Hsa Hcs.
  destruct (externaldns_Build_shape h o ns sa cs Hns Hsa Hcs)
    as (d0 & c0 & Hres & _).
  unfold result in Hres.
  destruct (ExternalDNSDeployment_Build o h) as [[l h']|] eqn:Hb; [|discriminate].
  pose proof (proj1 (Build_allocator (BExternalDNSDeployment o)) h l h' Hb)
    as [-> [x ->]].
  apply externaldns_Build_inv in Hb.
  destruct Hb as (ns' & sa' & cs' & d & c & Hns' & Hsa' & Hcs' & Hl & _ & Hom
                  & _ & _ & _ & Hsan & _ & Hv & _).
  rewrite lookup_fresh in Hl. injection Hl as ->.
  rewrite Hns in Hns'. injection Hns' as <-.
  rewrite Hsa in Hsa'. injection Hsa' as <-.
  rewrite Hcs in Hcs'. injection Hcs' as <-.
  exists d. split; [reflexivity|]. rewrite Hom. auto.
Qed.

(** X12.  Built one after the other for one namespace, the external-dns
    service account, credentials Secret and Deployment fit together: the
    three are in that namespace, the pods run as the service account, and
    the Deployment's volume is on the credentials Secret. *)
Theorem externaldns_in_sequence (h : Heap) (name image provider filter : string)
    (monitoring : bool) (bytes : list Byte.byte) :
  exists lsa lcs ld h' sa cs d,
    (ns <- HyperShiftNamespace_Build
             {| HyperShiftNamespace.Name := name;
                HyperShiftNamespace.EnableOCPClusterMonitoring := monitoring |};;
     sa <- ExternalDNSServiceAccount_Build
             {| ExternalDNSServiceAccount.Namespace := Some ns |};;
     cs <- ExternalDNSCredsSecret_Build
             {| ExternalDNSCredsSecret.Namespace := Some ns;
                ExternalDNSCredsSecret.CredsBytes := bytes |};;
     d <- ExternalDNSDeployment_Build
            {| ExternalDNSDeployment.Namespace := Some ns;
               ExternalDNSDeployment.Image := image;
               ExternalDNSDeployment.ServiceAccount := Some sa;
               ExternalDNSDeployment.Provider := provider;
               ExternalDNSDeployment.DomainFilter := filter;
               ExternalDNSDeployment.CredentialsSecret := Some cs |};;
     ret (sa, cs, d)) h
    = Some ((lsa, lcs, ld), h')
    /\ h' !! lsa = Some (OServiceAccount sa)
    /\ h' !! lcs = Some (OSecret cs)
    /\ h' !! ld = Some (ODeployment d)
    /\ ServiceAccount.Namespace sa = name
    /\ ObjectMeta.Namespace (Secret.ObjectMeta cs) = name
    /\ ObjectMeta.Namespace (Deployment.ObjectMeta d) = name
    /\ PodSpec.ServiceAccountName (Deployment.PodSpec d) = ServiceAccount.Name sa
    /\ (exists v,
          volumes d = [v]
          /\ VolumeSource.Secret (Volume.VolumeSource v)
             = Some {| SecretVolumeSource.SecretName := Secret.Name cs |})
    /\ Secret.Data cs !! "credentials" = Some bytes.
Proof.
  destruct (run_HyperShiftNamespace
              {| HyperShiftNamespace.Name := name;
                 HyperShiftNamespace.EnableOCPClusterMonitoring := monitoring |} h)
    as (ns & Hns & Hname). simpl in Hname.
  set (h1 := (h ++ [ONamespace ns])%list) in *.
  assert (deref asNamespace h1 (Some (length h)) = Some ns) as D1
    by (unfold h1; older; reflexivity).
  destruct (run_ExternalDNSServiceAccount _ h1 ns D1) as (sa & Hsa & Hsan & Hsans).
  set (h2 := (h1 ++ [OServiceAccount sa])%list) in *.
  assert (deref asNamespace h2 (Some (length h)) = Some ns) as D2
    by (unfold h2, h1; older; reflexivity).
  destruct (run_ExternalDNSCredsSecret _ bytes h2 ns D2)
    as (cs & Hcs & Hcsn & Hcsns & Hdata).
  set (h3 := (h2 ++ [OSecret cs])%list) in *.
  assert (deref asNamespace h3 (Some (length h)) = Some ns) as D3n
    by (unfold h3, h2, h1; older; reflexivity).
  assert (deref asServiceAccount h3 (Some (length h1)) = Some sa) as D3s
    by (unfold h3, h2; older; reflexivity).
  assert (deref asSecret h3 (Some (length h2)) = Some cs) as D3c
    by (unfold h3; older; reflexivity).
  destruct (run_ExternalDNSDeployment
              {| ExternalDNSDeployment.Namespace := Some (length h);
                 ExternalDNSDeployment.Image := image;
                 ExternalDNSDeployment.ServiceAccount := Some (length h1);
                 ExternalDNSDeployment.Provider := provider;
                 ExternalDNSDeployment.DomainFilter := filter;
                 ExternalDNSDeployment.CredentialsSecret := Some (length h2) |}
              h3 ns sa cs D3n D3s D3c)
    as (d & Hd & Hdns & Hdsa & Hdv).
  exists (length h1), (length h2), (length h3), (h3 ++ [ODeployment d])%list,
    sa, cs, d.
  split.
  { rewrite (bind_run _ _ _ _ _ Hns), (bind_run _ _ _ _ _ Hsa),
      (bind_run _ _ _ _ _ Hcs), (bind_run _ _ _ _ _ Hd).
    reflexivity. }
  rewrite Hsans, Hcsns, Hdns, Hdsa, Hdv, Hname. unfold h3, h2, h1.
  repeat split; older; try reflexivity.
  - eexists. split; reflexivity.
  - exact Hdata.
Qed.

(** ** The bindings to a group *)

(** X13.  The binding [HyperShiftClientClusterRoleBinding.Build] returns
    has two subjects, the configured service account and the group
    [GroupName]; the one [HyperShiftReaderClusterRoleBinding.Build] returns
    has the group alone.  A group subject is in the RBAC API group and in
    no namespace, and each binding refers to the cluster role it was given
    by name. *)
Theorem group_bindings_subjects :
  (forall h o cr sa,
     deref asClusterRole h (HyperShiftClientClusterRoleBinding.ClusterRole o)
       = Some cr ->
     deref asServiceAccount h (HyperShiftClientClusterRoleBinding.ServiceAccount o)
       = Some sa ->
     exists b,
       result (HyperShiftClientClusterRoleBinding_Build o) h
         = Some (OClusterRoleBinding b)
       /\ ClusterRoleBinding.Subjects b
          = [ {| Subject.Kind := "ServiceAccount";
                 Subject.APIGroup := "";
                 Subject.Name := ServiceAccount.Name sa;
                 Subject.Namespace := ServiceAccount.Namespace sa |};
              {| Subject.Kind := "Group";
                 Subject.APIGroup := "rbac.authorization.k8s.io";
                 Subject.Name := HyperShiftClientClusterRoleBinding.GroupName o;
                 Subject.Namespace := "" |} ]
       /\ RoleRef.Kind (ClusterRoleBinding.RoleRef b) = "ClusterRole"
       /\ RoleRef.Name (ClusterRoleBinding.RoleRef b) = ClusterRole.Name cr)
  /\ (forall h o cr,
        deref asClusterRole h (HyperShiftReaderClusterRoleBinding.ClusterRole o)
          = Some cr ->
        exists b,
          result (HyperShiftReaderClusterRoleBinding_Build o) h
            = Some (OClusterRoleBinding b)
          /\ ClusterRoleBinding.Subjects b
             = [ {| Subject.Kind := "Group";
                    Subject.APIGroup := "rbac.authorization.k8s.io";
                    Subject.Name := HyperShiftReaderClusterRoleBinding.GroupName o;
                    Subject.Namespace := "" |} ]
          /\ RoleRef.Kind (ClusterRoleBinding.RoleRef b) = "ClusterRole"
          /\ RoleRef.Name (ClusterRoleBinding.RoleRef b) = ClusterRole.Name cr).
Proof.
  split.
  - intros h o cr sa Hcr Hsa.
    unfold HyperShiftClientClusterRoleBinding_Build. run_build.
    eexists. repeat split.
  - intros h o cr Hcr.
    unfold HyperShiftReaderClusterRoleBinding_Build. run_build.
    eexists. repeat split.
Qed.

(** ** Roles that only read *)

Lemma read_only_rules (rules : list PolicyRule.t) :
  forallb (fun r => forallb read_verb (PolicyRule.Verbs r)) rules = true ->
  forall r v, In r rules -> In v (PolicyRule.Verbs r) -> read_verb v = true.
Proof.
  intros H r v Hr Hv.
  rewrite forallb_forall in H. specialize (H r Hr).
  rewrite forallb_forall in H. exact (H v Hv).
Qed.

(** X14.  The cluster roles of external-dns and of the readers, and the
    prometheus role, grant only the verbs get, list and watch; in the core
    API group the readers' role names its resources one by one and secrets
    are not among them. *)
Theorem read_only_roles h :
  (exists r,
     result (ExternalDNSClusterRole_Build ExternalDNSClusterRole.mk) h
       = Some (OClusterRole r)
     /\ forall rule v, In rule (ClusterRole.Rules r) ->
          In v (PolicyRule.Verbs rule) -> read_verb v = true)
  /\ (exists r,
        result (HyperShiftReaderClusterRole_Build HyperShiftReaderClusterRole.mk) h
          = Some (OClusterRole r)
        /\ (forall rule v, In rule (ClusterRole.Rules r) ->
              In v (PolicyRule.Verbs rule) -> read_verb v = true)
        /\ (forall rule, In rule (ClusterRole.Rules r) ->
              In "" (PolicyRule.APIGroups rule) ->
              ~ In "secrets" (PolicyRule.Resources rule)
              /\ ~ In "*" (PolicyRule.Resources rule)))
  /\ (forall o ns,
        deref asNamespace h (HyperShiftPrometheusRole.Namespace o) = Some ns ->
        exists r,
          result (HyperShiftPrometheusRole_Build o) h = Some (ORole r)
          /\ forall rule v, In rule (Role.Rules r) ->
               In v (PolicyRule.Verbs rule) -> read_verb v = true).
Proof.
  split; [|split].
  - unfold ExternalDNSClusterRole_Build. rewrite result_alloc.
    eexists. split; [reflexivity|]. apply read_only_rules. reflexivity.
  - unfold HyperShiftReaderClusterRole_Build. rewrite result_alloc.
    eexists. split; [reflexivity|]. split.
    + apply read_only_rules. reflexivity.
    + intros rule Hr Hg. simpl in Hr.
      repeat (destruct Hr as [<-|Hr];
              [simpl in Hg |- *;
               first [ exfalso; intuition discriminate
                     | split; intros Hin; intuition discriminate ] |]).
      contradiction.
  - intros o ns Hns. unfold HyperShiftPrometheusRole_Build. run_build.
    eexists. split; [reflexivity|]. apply read_only_rules. reflexivity.
Qed.

(** ** Arguments of external-dns *)

(** X15.  The container of the external-dns Deployment is always given
    the configured provider and domain filter, each as one argument, and is
    given --aws-zone-type=public exactly when the provider is "aws",
    whatever the configured strings are. *)
Theorem externaldns_arguments o h l h' :
  ExternalDNSDeployment_Build o h = Some (l, h') ->
  exists d c,
    h' !! l = Some (ODeployment d)
    /\ container0 d = Some c
    /\ In ("--provider=" +:+ ExternalDNSDeployment.Provider o) (Container.Args c)
    /\ In ("--domain-filter=" +:+ ExternalDNSDeployment.DomainFilter o)
          (Container.Args c)
    /\ (In "--aws-zone-type=public" (Container.Args c)
        <-> ExternalDNSDeployment.Provider o = "aws").
Proof.
  intros Hb. apply externaldns_Build_inv in Hb.
  destruct Hb as (ns & sa & cs & d & c & _ & _ & _ & Hl & _ & _ & _ & _ & _
                  & _ & Hc & _ & Hceq).
  exists d, c. unfold container0. rewrite Hc. subst c. simpl.
  split; [exact Hl|]. split; [reflexivity|].
  split; [auto 10|]. split; [auto 10|].
  destruct (String.eqb (ExternalDNSDeployment.Provider o) "aws") eqn:Hp.
  - apply String.eqb_eq in Hp. split; [auto|]. intros _. simpl. auto 10.
  - apply String.eqb_neq in Hp. split; [|contradiction]. simpl.
    intros [H|[H|[H|[H|[H|[H|[]]]]]]]; discriminate.
Qed.

(** ** Priority classes *)

(** X16.  The three priority classes have distinct names and rank the
    control plane pods below the API-critical pods and these below etcd;
    none is the cluster's default and each value is within what the API
    admits for a user-defined class (at most 1000000000). *)
Theorem priority_classes_ranked h :
  exists d a e,
    result (HyperShiftControlPlanePriorityClass_Build
              HyperShiftControlPlanePriorityClass.mk) h = Some (OPriorityClass d)
    /\ result (HyperShiftAPICriticalPriorityClass_Build
                 HyperShiftAPICriticalPriorityClass.mk) h = Some (OPriorityClass a)
    /\ result (HyperShiftEtcdPriorityClass_Build
                 HyperShiftEtcdPriorityClass.mk) h = Some (OPriorityClass e)
    /\ PriorityClass.Value d < PriorityClass.Value a
    /\ PriorityClass.Value a < PriorityClass.Value e
    /\ PriorityClass.Value e <= 1000000000
    /\ ObjectMeta.Name (PriorityClass.ObjectMeta d)
       <> ObjectMeta.Name (PriorityClass.ObjectMeta a)
    /\ ObjectMeta.Name (PriorityClass.ObjectMeta a)
       <> ObjectMeta.Name (PriorityClass.ObjectMeta e)
    /\ ObjectMeta.Name (PriorityClass.ObjectMeta d)
       <> ObjectMeta.Name (PriorityClass.ObjectMeta e)
    /\ PriorityClass.GlobalDefault d = false
    /\ PriorityClass.GlobalDefault a = false
    /\ PriorityClass.GlobalDefault e = false.
Proof.
  unfold HyperShiftControlPlanePriorityClass_Build,
    HyperShiftAPICriticalPriorityClass_Build, HyperShiftEtcdPriorityClass_Build.
  rewrite !result_alloc. eexists _, _, _.
  repeat (split; [reflexivity|]). simpl.
  repeat split; solve [lia | discriminate].
Qed.

(** ** Secrets *)

(** X17.  Whenever a [Build] returns a Secret, the Secret holds one entry
    and no more, whatever the configured key is. *)
Theorem secrets_hold_one_entry b h l h' s :
  Build b h = Some (l, h') ->
  h' !! l = Some (OSecret s) ->
  size (Secret.Data s) = 1%nat.
Proof.
  destruct b as
    [o|o|o|o|o|o|o|o|o|o|o|o|o|o|o|o|o|o|o|o|o|o|o|o|o|o|o];
    simpl;
    try (run_any; intros [= <-]; apply map_size_singleton);
    try (run_any; discriminate).
  - intros Hb Hs. apply externaldns_Build_inv in Hb.
    destruct Hb as (? & ? & ? & ? & ? & _ & _ & _ & Hl & _). congruence.
  - intros Hb Hs. apply operator_Build_inv in Hb.
    destruct Hb as (? & ? & ? & ? & _ & _ & Hl & _). congruence.
Qed.

(** ** Calling twice *)

(** X18.  A second call of a [Build], made in the heap the first call
    left, returns a pointer to a new cell, distinct from the first, that
    holds an object equal to the first; the first object is untouched and
    the heap has grown by these two cells only. *)
Theorem Build_twice b h l1 h1 :
  (forall l, In (Some l) (pointers b) -> (l < length h)%nat) ->
  Build b h = Some (l1, h1) ->
  exists l2 h2 o,
    Build b h1 = Some (l2, h2)
    /\ l2 <> l1
    /\ h1 !! l1 = Some o
    /\ h2 !! l1 = Some o
    /\ h2 !! l2 = Some o
    /\ length h2 = S (S (length h)).
Proof.
  intros Hps H1.
  destruct (Build_again b h l1 h1 Hps H1) as (l2 & h2 & H2 & Hne & H21 & H11).
  pose proof (Build_allocator b) as Hb.
  destruct (allocator_frame _ _ _ _ _ Hb H1) as (_ & [o Ho] & _).
  destruct (proj1 Hb _ _ _ H1) as [_ [o1 ->]].
  destruct (proj1 Hb _ _ _ H2) as [_ [o2 ->]].
  exists l2, (h ++ [o1] ++ [o2])%list, o.
  rewrite app_assoc. repeat split; try assumption; try congruence.
  rewrite !length_app. simpl. lia.
Qed.

End HyperShift.

(** ** The theorems at the installation

    The platform types are "None" and "AWS" and the component label is
    "hypershift.openshift.io/operator-component". *)

Ltac at_install :=
  repeat match goal with
         | |- _ /\ _ => split
         | |- deref _ _ _ = Some _ => vm_compute; reflexivity
         | |- well_typed _ _ _ => intros _; vm_compute; eexists; reflexivity
         | |- _ <> _ => discriminate
         | |- @eq string _ _ => reflexivity
         end.

Lemma operator_deployment_aws_region_witness :
  exists ns sa,
    ("AWS" <> "None"
     /\ HyperShiftOperatorDeployment.PrivatePlatform install_operator = "AWS"
     /\ deref asNamespace install_heap
          (HyperShiftOperatorDeployment.Namespace install_operator) = Some ns
     /\ deref asServiceAccount install_heap
          (HyperShiftOperatorDeployment.ServiceAccount install_operator) = Some sa
     /\ well_typed asSecret install_heap
          (HyperShiftOperatorDeployment.OIDCStorageProviderS3Secret install_operator))
    /\ exists d c,
         result
           (HyperShiftOperatorDeployment_Build "None" "AWS"
              "hypershift.openshift.io/operator-component" install_operator)
           install_heap = Some (ODeployment d)
         /\ container0 d = Some c
         /\ Container.Name c = "operator"
         /\ (exists e, In e (Container.Env c) /\ EnvVar.Name e = "AWS_REGION")
         /\ (forall e, In e (Container.Env c) -> EnvVar.Name e = "AWS_REGION" ->
               EnvVar.Value e = "eu-west-1").
Proof.
  eexists _, _. split; [at_install|].
  eapply (operator_deployment_aws_region "None" "AWS"
            "hypershift.openshift.io/operator-component" install_heap
            install_operator); at_install.
Defined.

Lemma operator_deployment_credentials_volume_witness :
  exists ns sa,
    (deref asNamespace install_heap
       (HyperShiftOperatorDeployment.Namespace install_operator) = Some ns
     /\ deref asServiceAccount install_heap
          (HyperShiftOperatorDeployment.ServiceAccount install_operator) = Some sa
     /\ well_typed asSecret install_heap
          (HyperShiftOperatorDeployment.OIDCStorageProviderS3Secret install_operator))
    /\ exists d c,
         result
           (HyperShiftOperatorDeployment_Build "None" "AWS"
              "hypershift.openshift.io/operator-component" install_operator)
           install_heap = Some (ODeployment d)
         /\ container0 d = Some c
         /\ In (secretVolume "credentials" "hypershift-operator-aws-credentials")
               (volumes d)
         /\ In credentials_mount (Container.VolumeMounts c).
Proof.
  eexists _, _. split; [at_install|].
  edestruct (operator_deployment_credentials_volume "None" "AWS"
               "hypershift.openshift.io/operator-component" install_heap
               install_operator) as (d & c & Hres & Hc & _ & _ & Hcred);
    [at_install ..|].
  exists d, c. split; [exact Hres|]. split; [exact Hc|].
  apply Hcred. discriminate.
Defined.

Lemma operator_deployment_oidc_wiring_witness :
  exists ns sa,
    (deref asNamespace install_heap
       (HyperShiftOperatorDeployment.Namespace install_operator) = Some ns
     /\ deref asServiceAccount install_heap
          (HyperShiftOperatorDeployment.ServiceAccount install_operator) = Some sa
     /\ well_typed asSecret install_heap
          (HyperShiftOperatorDeployment.OIDCStorageProviderS3Secret install_operator))
    /\ exists d c,
         result
           (HyperShiftOperatorDeployment_Build "None" "AWS"
              "hypershift.openshift.io/operator-component" install_operator)
           install_heap = Some (ODeployment d)
         /\ container0 d = Some c
         /\ In "--oidc-storage-provider-s3-bucket-name=bucket" (Container.Args c)
         /\ In oidc_mount (Container.VolumeMounts c).
Proof.
  eexists _, _. split; [at_install|].
  edestruct (operator_deployment_oidc_wiring "None" "AWS"
               "hypershift.openshift.io/operator-component" install_heap
               install_operator) as (d & c & Hres & Hc & Hyes & _);
    [at_install ..|].
  exists d, c. split; [exact Hres|]. split; [exact Hc|].
  assert (oidc_configured install_heap install_operator) as Hconf.
  { apply oidc_configuredb_spec. vm_compute. reflexivity. }
  destruct (Hyes Hconf) as ((Hname & _ & _) & _ & Hmount).
  split; [exact Hname | exact Hmount].
Defined.

Lemma externaldns_mount_names_volume_of_secret_witness :
  exists ns sa cs,
    (deref asNamespace install_heap
       (ExternalDNSDeployment.Namespace install_externaldns) = Some ns
     /\ deref asServiceAccount install_heap
          (ExternalDNSDeployment.ServiceAccount install_externaldns) = Some sa
     /\ deref asSecret install_heap
          (ExternalDNSDeployment.CredentialsSecret install_externaldns) = Some cs)
    /\ exists d c m v,
         result
           (ExternalDNSDeployment_Build
              "hypershift.openshift.io/operator-component" install_externaldns)
           install_heap = Some (ODeployment d)
         /\ container0 d = Some c
         /\ Container.VolumeMounts c = [m]
         /\ volumes d = [v]
         /\ VolumeMount.Name m = "credentials"
         /\ VolumeMount.Name m = Volume.Name v
         /\ VolumeSource.Secret (Volume.VolumeSource v)
            = Some {| SecretVolumeSource.SecretName := Secret.Name cs |}.
Proof.
  eexists _, _, _. split; [at_install|].
  eapply (externaldns_mount_names_volume_of_secret
            "hypershift.openshift.io/operator-component" install_heap
            install_externaldns); at_install.
Defined.

(** C2, as stated, fails at the installation: the credentials Secret that
    [ExternalDNSCredsSecret.Build] returned is named
    "external-dns-credentials", and the volume mount of the Deployment is
    named "credentials". *)
Lemma externaldns_mount_name_is_not_secret_name :
  exists cs d c m,
    result
      (ExternalDNSCredsSecret_Build
         {| ExternalDNSCredsSecret.Namespace := Some install_namespace;
            ExternalDNSCredsSecret.CredsBytes := [Byte.x41; Byte.x4b] |})
      install_heap = Some (OSecret cs)
    /\ deref asSecret install_heap
         (ExternalDNSDeployment.CredentialsSecret install_externaldns) = Some cs
    /\ result
         (ExternalDNSDeployment_Build
            "hypershift.openshift.io/operator-component" install_externaldns)
         install_heap = Some (ODeployment d)
    /\ container0 d = Some c
    /\ Container.VolumeMounts c = [m]
    /\ Secret.Name cs = "external-dns-credentials"
    /\ VolumeMount.Name m = "credentials"
    /\ VolumeMount.Name m <> Secret.Name cs.
Proof.
  eexists _, _, _, _.
  split; [vm_compute; reflexivity|].
  split; [vm_compute; reflexivity|].
  split; [vm_compute; reflexivity|].
  split; [reflexivity|].
  split; [reflexivity|].
  split; [reflexivity|].
  split; [reflexivity|].
  discriminate.
Qed.

Lemma externaldns_deployment_provider_witness :
  exists ns sa cs,
    (deref asNamespace install_heap
       (ExternalDNSDeployment.Namespace install_externaldns) = Some ns
     /\ deref asServiceAccount install_heap
          (ExternalDNSDeployment.ServiceAccount install_externaldns) = Some sa
     /\ deref asSecret install_heap
          (ExternalDNSDeployment.CredentialsSecret install_externaldns) = Some cs)
    /\ exists d c,
         result
           (ExternalDNSDeployment_Build
              "hypershift.openshift.io/operator-component" install_externaldns)
           install_heap = Some (ODeployment d)
         /\ container0 d = Some c
         /\ In (env "AWS_REGION" "us-east-1") (Container.Env c)
         /\ last (Container.Args c) = Some "--aws-zone-type=public".
Proof.
  eexists _, _, _. split; [at_install|].
  edestruct (externaldns_deployment_provider
               "hypershift.openshift.io/operator-component" install_heap
               install_externaldns) as (d & c & Hres & Hc & Haws & _);
    [at_install ..|].
  exists d, c. split; [exact Hres|]. split; [exact Hc|].
  destruct (Haws eq_refl) as (_ & _ & Hlast). split; [|exact Hlast].
  vm_compute in Hres. injection Hres as <-.
  vm_compute in Hc. injection Hc as <-.
  right. left. reflexivity.
Defined.

Lemma deployment_mounts_name_volumes_witness :
  (exists d,
     result
       (ExternalDNSDeployment_Build
          "hypershift.openshift.io/operator-component" install_externaldns)
       install_heap = Some (ODeployment d)
     /\ forall c m,
          In c (PodSpec.Containers (Deployment.PodSpec d)) ->
          In m (Container.VolumeMounts c) ->
          exists v, In v (volumes d) /\ Volume.Name v = VolumeMount.Name m)
  /\ (exists d,
        result
          (HyperShiftOperatorDeployment_Build "None" "AWS"
             "hypershift.openshift.io/operator-component" install_operator)
          install_heap = Some (ODeployment d)
        /\ forall c m,
             In c (PodSpec.Containers (Deployment.PodSpec d)) ->
             In m (Container.VolumeMounts c) ->
             exists v, In v (volumes d) /\ Volume.Name v = VolumeMount.Name m).
Proof.
  split.
  - eapply (proj1 (deployment_mounts_name_volumes "None" "AWS"
                     "hypershift.openshift.io/operator-component")
              install_heap install_externaldns); at_install.
  - eapply (proj2 (deployment_mounts_name_volumes "None" "AWS"
                     "hypershift.openshift.io/operator-component")
              install_heap install_operator); at_install.
Defined.

Lemma prometheus_rolebinding_subject_witness :
  exists ns r,
    (deref asNamespace install_heap
       (HyperShiftOperatorPrometheusRoleBinding.Namespace
          install_prometheus_binding) = Some ns
     /\ deref asRole install_heap
          (HyperShiftOperatorPrometheusRoleBinding.Role
             install_prometheus_binding) = Some r)
    /\ exists rb s,
         result
           (HyperShiftOperatorPrometheusRoleBinding_Build
              install_prometheus_binding) install_heap = Some (ORoleBinding rb)
         /\ RoleBinding.Subjects rb = [s]
         /\ Subject.Kind s = "ServiceAccount"
         /\ Subject.Name s = "prometheus-k8s"
         /\ Subject.Namespace s = "openshift-monitoring".
Proof.
  eexists _, _. split; [at_install|].
  edestruct (prometheus_rolebinding_subject install_heap
               install_prometheus_binding)
    as (rb & s & Hres & Hs & Hk & Hon & _); [at_install ..|].
  exists rb, s. destruct (Hon eq_refl) as [Hn Hns]. auto.
Defined.

Lemma bindings_reference_account_and_role_witness :
  (exists b s,
     result
       (ExternalDNSClusterRoleBinding_Build
          {| ExternalDNSClusterRoleBinding.ClusterRole :=
               Some install_externaldns_clusterrole;
             ExternalDNSClusterRoleBinding.ServiceAccount :=
               Some install_externaldns_sa |})
       install_heap = Some (OClusterRoleBinding b)
     /\ ClusterRoleBinding.Subjects b = [s]
     /\ Subject.Kind s = "ServiceAccount"
     /\ Subject.Name s = "external-dns"
     /\ Subject.Namespace s = "hypershift"
     /\ RoleRef.Name (ClusterRoleBinding.RoleRef b) = "external-dns")
  /\ (exists b s,
        result
          (HyperShiftOperatorClusterRoleBinding_Build
             {| HyperShiftOperatorClusterRoleBinding.ClusterRole :=
                  Some install_operator_clusterrole;
                HyperShiftOperatorClusterRoleBinding.ServiceAccount :=
                  Some install_operator_sa |})
          install_heap = Some (OClusterRoleBinding b)
        /\ ClusterRoleBinding.Subjects b = [s]
        /\ Subject.Kind s = "ServiceAccount"
        /\ Subject.Name s = "operator"
        /\ Subject.Namespace s = "hypershift"
        /\ RoleRef.Name (ClusterRoleBinding.RoleRef b) = "hypershift-operator")
  /\ (exists b s,
        result
          (HyperShiftOperatorRoleBinding_Build
             {| HyperShiftOperatorRoleBinding.Role := Some install_operator_role;
                HyperShiftOperatorRoleBinding.ServiceAccount :=
                  Some install_operator_sa |})
          install_heap = Some (ORoleBinding b)
        /\ RoleBinding.Subjects b = [s]
        /\ Subject.Kind s = "ServiceAccount"
        /\ Subject.Name s = "operator"
        /\ Subject.Namespace s = "hypershift"
        /\ RoleRef.Name (RoleBinding.RoleRef b) = "hypershift-operator").
Proof.
  destruct bindings_reference_account_and_role as (H1 & H2 & H3).
  split; [|split].
  - match goal with
    | |- context [ExternalDNSClusterRoleBinding_Build ?o] =>
        edestruct (H1 install_heap o)
          as (b & s & Hres & Hs & Hk & Hn & Hns & Hr); [at_install ..|]
    end.
    exists b, s. repeat split; assumption.
  - match goal with
    | |- context [HyperShiftOperatorClusterRoleBinding_Build ?o] =>
        edestruct (H2 install_heap o)
          as (b & s & Hres & Hs & Hk & Hn & Hns & Hr); [at_install ..|]
    end.
    exists b, s. repeat split; assumption.
  - match goal with
    | |- context [HyperShiftOperatorRoleBinding_Build ?o] =>
        edestruct (H3 install_heap o)
          as (b & s & Hres & Hs & Hk & Hn & Hns & Hr); [at_install ..|]
    end.
    exists b, s. repeat split; assumption.
Defined.

(** Two calls of the external-dns Deployment builder, the second in the
    heap the first left. *)
Lemma Build_deterministic_side_effect_free_witness :
  exists l1 h1' l2 h2',
    (agree (pointers (BExternalDNSDeployment install_externaldns))
       install_heap h1'
     /\ Build "None" "AWS" "hypershift.openshift.io/operator-component"
          PrometheusRuleSpec.zero (BExternalDNSDeployment install_externaldns)
          install_heap = Some (l1, h1')
     /\ Build "None" "AWS" "hypershift.openshift.io/operator-component"
          PrometheusRuleSpec.zero (BExternalDNSDeployment install_externaldns)
          h1' = Some (l2, h2'))
    /\ (exists o, h1' !! l1 = Some o /\ h2' !! l2 = Some o)
    /\ install_heap !! l1 = None
    /\ h1' !! l2 = None
    /\ (forall (l : loc) o, install_heap !! l = Some o -> h1' !! l = Some o)
    /\ (forall (l : loc) o, h1' !! l = Some o -> h2' !! l = Some o).
Proof.
  eexists _, _, _, _.
  split; [split; [|split]|].
  2: vm_compute; reflexivity.
  2: vm_compute; reflexivity.
  - intros l [H|[H|[H|[]]]]; injection H as <-; vm_compute; reflexivity.
  - eapply (Build_deterministic_side_effect_free "None" "AWS"
              "hypershift.openshift.io/operator-component"
              PrometheusRuleSpec.zero
              (BExternalDNSDeployment install_externaldns) install_heap).
    + intros l [H|[H|[H|[]]]]; injection H as <-; vm_compute; reflexivity.
    + vm_compute; reflexivity.
    + vm_compute; reflexivity.
Defined.


(** ** The further theorems at the installation *)

(** The call at hand returns. *)
Ltac returns := eexists _, _; vm_compute; reflexivity.

(** The operator Deployment builder with a nil OIDC secret does not
    panic. *)
Lemma Build_panics_iff_nil_witness :
  Forall (well_typed_field install_heap)
    (fields (BHyperShiftOperatorDeployment install_operator_public))
  /\ (Build "None" "AWS" "hypershift.openshift.io/operator-component"
        PrometheusRuleSpec.zero
        (BHyperShiftOperatorDeployment install_operator_public) install_heap
      = None
      <-> In nil (required (BHyperShiftOperatorDeployment install_operator_public))).
Proof.
  assert (Forall (well_typed_field install_heap)
            (fields (BHyperShiftOperatorDeployment install_operator_public)))
    as Hwt.
  { repeat constructor; unfold well_typed_field; simpl.
    - intros _. vm_compute. eexists. reflexivity.
    - intros _. vm_compute. eexists. reflexivity.
    - intros Hnil. exfalso. apply Hnil. reflexivity. }
  split; [exact Hwt|].
  exact (Build_panics_iff_nil _ _ _ _ _ _ Hwt).
Defined.

Lemma Build_type_meta_witness :
  exists l h',
    Build "None" "AWS" "hypershift.openshift.io/operator-component"
      PrometheusRuleSpec.zero (BHyperShiftOperatorDeployment install_operator)
      install_heap = Some (l, h')
    /\ exists o, h' !! l = Some o /\ type_meta o = registered o.
Proof.
  assert (exists l h',
            Build "None" "AWS" "hypershift.openshift.io/operator-component"
              PrometheusRuleSpec.zero
              (BHyperShiftOperatorDeployment install_operator) install_heap
            = Some (l, h')) as (l & h' & Hb) by returns.
  exists l, h'. split; [exact Hb|].
  exact (Build_type_meta _ _ _ _ _ _ _ _ Hb).
Defined.

Lemma Build_namespace_witness :
  exists l h',
    Build "None" "AWS" "hypershift.openshift.io/operator-component"
      PrometheusRuleSpec.zero (BExternalDNSCredsSecret install_externaldns_creds_secret)
      install_heap = Some (l, h')
    /\ exists o ns,
         h' !! l = Some o
         /\ deref asNamespace install_heap (Some install_namespace) = Some ns
         /\ ObjectMeta.Namespace (object_meta o) = Namespace.Name ns.
Proof.
  assert (exists l h',
            Build "None" "AWS" "hypershift.openshift.io/operator-component"
              PrometheusRuleSpec.zero
              (BExternalDNSCredsSecret install_externaldns_creds_secret)
              install_heap = Some (l, h')) as (l & h' & Hb) by returns.
  exists l, h'. split; [exact Hb|].
  destruct (Build_namespace _ _ _ _ _ _ _ _ Hb) as (o & Ho & Hns & _).
  assert (exists ns, deref asNamespace install_heap (Some install_namespace)
                     = Some ns) as [ns Hd]
    by (eexists; vm_compute; reflexivity).
  exists o, ns. split; [exact Ho|]. split; [exact Hd|].
  exact (Hns _ ns eq_refl Hd).
Defined.

Lemma operator_deployment_aws_wiring_witness :
  exists l h',
    ("AWS" <> "None"
     /\ HyperShiftOperatorDeployment_Build "None" "AWS"
          "hypershift.openshift.io/operator-component" install_operator
          install_heap = Some (l, h'))
    /\ exists d c,
         h' !! l = Some (ODeployment d)
         /\ container0 d = Some c
         /\ In {| VolumeMount.Name := "token";
                  VolumeMount.MountPath :=
                    "/var/run/secrets/openshift/serviceaccount" |}
               (Container.VolumeMounts c).
Proof.
  assert (exists l h',
            HyperShiftOperatorDeployment_Build "None" "AWS"
              "hypershift.openshift.io/operator-component" install_operator
              install_heap = Some (l, h')) as (l & h' & Hb) by returns.
  assert ("AWS" <> "None") as Hne by discriminate.
  exists l, h'. split; [split; [exact Hne | exact Hb]|].
  destruct (operator_deployment_aws_wiring _ _ _ _ _ _ _ Hne Hb)
    as (d & c & Hl & Hc & _ & Haws & _).
  exists d, c. split; [exact Hl|]. split; [exact Hc|].
  exact (proj1 (Haws eq_refl)).
Defined.

Lemma operator_deployment_ignores_aws_fields_witness :
  HyperShiftOperatorDeployment.PrivatePlatform install_operator_public <> "AWS"
  /\ HyperShiftOperatorDeployment_Build "None" "AWS"
       "hypershift.openshift.io/operator-component"
       (with_AWSPrivateCreds "/other" install_operator_public) install_heap
     = HyperShiftOperatorDeployment_Build "None" "AWS"
         "hypershift.openshift.io/operator-component" install_operator_public
         install_heap
  /\ HyperShiftOperatorDeployment_Build "None" "AWS"
       "hypershift.openshift.io/operator-component"
       (with_AWSPrivateRegion "us-west-2" install_operator_public) install_heap
     = HyperShiftOperatorDeployment_Build "None" "AWS"
         "hypershift.openshift.io/operator-component" install_operator_public
         install_heap.
Proof.
  assert (HyperShiftOperatorDeployment.PrivatePlatform install_operator_public
          <> "AWS") as Hp by discriminate.
  split; [exact Hp|].
  split.
  - exact (proj1 (operator_deployment_ignores_aws_fields "None" "AWS"
                    "hypershift.openshift.io/operator-component"
                    install_operator_public "/other" install_heap)).
  - exact (proj2 (operator_deployment_ignores_aws_fields "None" "AWS"
                    "hypershift.openshift.io/operator-component"
                    install_operator_public "us-west-2" install_heap) Hp).
Defined.

Lemma deployment_selects_its_pods_witness :
  exists l h' d,
    (Build "None" "AWS" "hypershift.openshift.io/operator-component"
       PrometheusRuleSpec.zero (BExternalDNSDeployment install_externaldns)
       install_heap = Some (l, h')
     /\ h' !! l = Some (ODeployment d))
    /\ exists sel,
         DeploymentSpec.Selector (Deployment.Spec d) = Some sel
         /\ LabelSelector.MatchLabels sel
            ⊆ ObjectMeta.Labels
                (PodTemplateSpec.ObjectMeta
                   (DeploymentSpec.Template (Deployment.Spec d))).
Proof.
  assert (exists l h',
            Build "None" "AWS" "hypershift.openshift.io/operator-component"
              PrometheusRuleSpec.zero (BExternalDNSDeployment install_externaldns)
              install_heap = Some (l, h')) as (l & h' & Hb) by returns.
  destruct (externaldns_Build_inv _ _ _ _ _ Hb)
    as (_ & _ & _ & d & _ & _ & _ & _ & Hl & _).
  exists l, h', d. split; [split; [exact Hb | exact Hl]|].
  exact (proj1 (deployment_selects_its_pods _ _ _ _ _ _ _ _ _ Hb Hl)).
Defined.


Lemma operator_credentials_file_witness :
  exists l h' lc hc',
    ("AWS" <> "None"
     /\ HyperShiftOperatorDeployment.PrivatePlatform install_operator = "AWS"
     /\ HyperShiftOperatorDeployment_Build "None" "AWS"
          "hypershift.openshift.io/operator-component" install_operator
          install_heap = Some (l, h')
     /\ HyperShiftOperatorCredentialsSecret_Build install_operator_creds_secret
          install_heap = Some (lc, hc'))
    /\ exists d c e,
         h' !! l = Some (ODeployment d)
         /\ container0 d = Some c
         /\ In e (Container.Env c)
         /\ EnvVar.Name e = "AWS_SHARED_CREDENTIALS_FILE".
Proof.
  assert (exists l h',
            HyperShiftOperatorDeployment_Build "None" "AWS"
              "hypershift.openshift.io/operator-component" install_operator
              install_heap = Some (l, h')) as (l & h' & Hd) by returns.
  assert (exists l h',
            HyperShiftOperatorCredentialsSecret_Build
              install_operator_creds_secret install_heap = Some (l, h'))
    as (lc & hc' & Hs) by returns.
  assert ("AWS" <> "None") as Hne by discriminate.
  exists l, h', lc, hc'. split; [auto|].
  destruct (operator_credentials_file "None" "AWS"
              "hypershift.openshift.io/operator-component" install_operator
              install_heap l h' install_operator_creds_secret install_heap
              lc hc' Hne eq_refl Hd Hs)
    as (d & c & s & v & m & e & key & H1 & H2 & _ & _ & _ & _ & _ & _ & H3 & H4 & _).
  exists d, c, e. auto.
Defined.

Lemma externaldns_credentials_file_witness :
  exists l h' lc hc' s,
    (ExternalDNSDeployment.Provider install_externaldns = "aws"
     /\ ExternalDNSCredsSecret_Build install_externaldns_creds_secret install_heap
        = Some (lc, hc')
     /\ hc' !! lc = Some (OSecret s)
     /\ deref asSecret install_heap
          (ExternalDNSDeployment.CredentialsSecret install_externaldns) = Some s
     /\ ExternalDNSDeployment_Build
          "hypershift.openshift.io/operator-component" install_externaldns
          install_heap = Some (l, h'))
    /\ exists d c e,
         h' !! l = Some (ODeployment d)
         /\ container0 d = Some c
         /\ In e (Container.Env c)
         /\ EnvVar.Name e = "AWS_SHARED_CREDENTIALS_FILE".
Proof.
  assert (exists l h',
            ExternalDNSDeployment_Build
              "hypershift.openshift.io/operator-component" install_externaldns
              install_heap = Some (l, h')) as (l & h' & Hd) by returns.
  assert (exists l h',
            ExternalDNSCredsSecret_Build install_externaldns_creds_secret
              install_heap = Some (l, h')) as (lc & hc' & Hs) by returns.
  assert (exists s,
            deref asSecret install_heap
              (ExternalDNSDeployment.CredentialsSecret install_externaldns)
            = Some s) as (s & Hds) by (eexists; vm_compute; reflexivity).
  assert (hc' !! lc = Some (OSecret s)) as Hl.
  { revert Hs Hds. vm_compute. intros [= <- <-] [= <-]. reflexivity. }
  exists l, h', lc, hc', s. split; [auto 10|].
  destruct (externaldns_credentials_file
              "hypershift.openshift.io/operator-component" install_externaldns
              install_heap l h' install_externaldns_creds_secret install_heap
              lc hc' s eq_refl Hs Hl Hds Hd)
    as (d & c & v & m & e & key & H1 & H2 & _ & _ & _ & _ & _ & _ & H3 & H4 & _).
  exists d, c, e. auto.
Defined.

Lemma operator_oidc_credentials_file_witness :
  exists l h' ls hs' s,
    (HyperShiftOperatorDeployment.OIDCBucketName install_operator <> ""
     /\ HyperShiftOperatorDeployment.OIDCBucketRegion install_operator <> ""
     /\ HyperShiftOperatorDeployment.OIDCStorageProviderS3SecretKey install_operator
        <> ""
     /\ HyperShiftOperatorOIDCProviderS3Secret.CredsKey install_oidc_creds_secret
        = HyperShiftOperatorDeployment.OIDCStorageProviderS3SecretKey
            install_operator
     /\ HyperShiftOperatorOIDCProviderS3Secret_Build install_oidc_creds_secret
          install_heap = Some (ls, hs')
     /\ hs' !! ls = Some (OSecret s)
     /\ deref asSecret install_heap
          (HyperShiftOperatorDeployment.OIDCStorageProviderS3Secret
             install_operator) = Some s
     /\ HyperShiftOperatorDeployment_Build "None" "AWS"
          "hypershift.openshift.io/operator-component" install_operator
          install_heap = Some (l, h'))
    /\ exists d c m,
         h' !! l = Some (ODeployment d)
         /\ container0 d = Some c
         /\ In m (Container.VolumeMounts c)
         /\ In ("--oidc-storage-provider-s3-credentials=" +:+
                  VolumeMount.MountPath m +:+ "/" +:+ "credentials")
               (Container.Args c).
Proof.
  assert (exists l h',
            HyperShiftOperatorDeployment_Build "None" "AWS"
              "hypershift.openshift.io/operator-component" install_operator
              install_heap = Some (l, h')) as (l & h' & Hd) by returns.
  assert (exists l h',
            HyperShiftOperatorOIDCProviderS3Secret_Build install_oidc_creds_secret
              install_heap = Some (l, h')) as (ls & hs' & Hs) by returns.
  assert (exists s,
            deref asSecret install_heap
              (HyperShiftOperatorDeployment.OIDCStorageProviderS3Secret
                 install_operator) = Some s)
    as (s & Hds) by (eexists; vm_compute; reflexivity).
  assert (hs' !! ls = Some (OSecret s)) as Hl.
  { revert Hs Hds. vm_compute. intros [= <- <-] [= <-]. reflexivity. }
  assert (HyperShiftOperatorDeployment.OIDCBucketName install_operator <> "")
    as Hbn by discriminate.
  assert (HyperShiftOperatorDeployment.OIDCBucketRegion install_operator <> "")
    as Hbr by discriminate.
  assert (HyperShiftOperatorDeployment.OIDCStorageProviderS3SecretKey
            install_operator <> "") as Hk by discriminate.
  exists l, h', ls, hs', s. split; [auto 10|].
  destruct (operator_oidc_credentials_file "None" "AWS"
              "hypershift.openshift.io/operator-component" install_operator
              install_heap l h' install_oidc_creds_secret install_heap
              ls hs' s Hbn Hbr Hk eq_refl Hs Hl Hds Hd)
    as (d & c & v & m & H1 & H2 & _ & _ & Hm & _ & _ & Ha).
  exists d, c, m. split; [exact H1|]. split; [exact H2|].
  split; [exact Hm | exact Ha].
Defined.

Lemma group_bindings_subjects_witness :
  exists b,
    result (HyperShiftClientClusterRoleBinding_Build install_client_binding)
      install_heap = Some (OClusterRoleBinding b)
    /\ length (ClusterRoleBinding.Subjects b) = 2%nat.
Proof.
  assert (exists cr,
            deref asClusterRole install_heap
              (HyperShiftClientClusterRoleBinding.ClusterRole install_client_binding)
            = Some cr) as (cr & Hcr) by (eexists; vm_compute; reflexivity).
  assert (exists sa,
            deref asServiceAccount install_heap
              (HyperShiftClientClusterRoleBinding.ServiceAccount
                 install_client_binding) = Some sa)
    as (sa & Hsa) by (eexists; vm_compute; reflexivity).
  destruct (proj1 group_bindings_subjects install_heap install_client_binding
              cr sa Hcr Hsa) as (b & Hres & Hs & _).
  exists b. split; [exact Hres|]. rewrite Hs. reflexivity.
Defined.

Lemma read_only_roles_witness :
  exists ns r,
    deref asNamespace install_heap (Some install_namespace) = Some ns
    /\ result
         (HyperShiftPrometheusRole_Build
            {| HyperShiftPrometheusRole.Namespace := Some install_namespace |})
         install_heap = Some (ORole r)
    /\ forall rule v, In rule (Role.Rules r) ->
         In v (PolicyRule.Verbs rule) -> read_verb v = true.
Proof.
  assert (exists ns,
            deref asNamespace install_heap (Some install_namespace) = Some ns)
    as (ns & Hns) by (eexists; vm_compute; reflexivity).
  destruct (proj2 (proj2 (read_only_roles install_heap))
              {| HyperShiftPrometheusRole.Namespace := Some install_namespace |}
              ns Hns) as (r & Hres & Hro).
  exists ns, r. auto.
Defined.

Lemma externaldns_arguments_witness :
  exists l h',
    ExternalDNSDeployment_Build "hypershift.openshift.io/operator-component"
      install_externaldns install_heap = Some (l, h')
    /\ exists d c,
         h' !! l = Some (ODeployment d)
         /\ container0 d = Some c
         /\ In "--provider=aws" (Container.Args c)
         /\ In "--aws-zone-type=public" (Container.Args c).
Proof.
  assert (exists l h',
            ExternalDNSDeployment_Build
              "hypershift.openshift.io/operator-component" install_externaldns
              install_heap = Some (l, h')) as (l & h' & Hd) by returns.
  exists l, h'. split; [exact Hd|].
  destruct (externaldns_arguments _ _ _ _ _ Hd)
    as (d & c & H1 & H2 & Hp & _ & Hz).
  exists d, c. split; [exact H1|]. split; [exact H2|].
  split; [exact Hp | exact (proj2 Hz eq_refl)].
Defined.

Lemma secrets_hold_one_entry_witness :
  exists l h' s,
    (Build "None" "AWS" "hypershift.openshift.io/operator-component"
       PrometheusRuleSpec.zero
       (BHyperShiftOperatorOIDCProviderS3Secret install_oidc_creds_secret)
       install_heap = Some (l, h')
     /\ h' !! l = Some (OSecret s))
    /\ size (Secret.Data s) = 1%nat.
Proof.
  assert (exists l h',
            Build "None" "AWS" "hypershift.openshift.io/operator-component"
              PrometheusRuleSpec.zero
              (BHyperShiftOperatorOIDCProviderS3Secret install_oidc_creds_secret)
              install_heap = Some (l, h')) as (l & h' & Hb) by returns.
  assert (exists s, h' !! l = Some (OSecret s)) as (s & Hl).
  { revert Hb. vm_compute. intros [= <- <-]. eexists. reflexivity. }
  exists l, h', s. split; [auto|].
  exact (secrets_hold_one_entry _ _ _ _ _ _ _ _ _ Hb Hl).
Defined.

Lemma Build_twice_witness :
  exists l1 h1,
    ((forall l, In (Some l) (pointers (BExternalDNSDeployment install_externaldns)) ->
        (l < length install_heap)%nat)
     /\ Build "None" "AWS" "hypershift.openshift.io/operator-component"
          PrometheusRuleSpec.zero (BExternalDNSDeployment install_externaldns)
          install_heap = Some (l1, h1))
    /\ exists l2 h2 o,
         Build "None" "AWS" "hypershift.openshift.io/operator-component"
           PrometheusRuleSpec.zero (BExternalDNSDeployment install_externaldns)
           h1 = Some (l2, h2)
         /\ l2 <> l1
         /\ h1 !! l1 = Some o
         /\ h2 !! l1 = Some o
         /\ h2 !! l2 = Some o
         /\ length h2 = S (S (length install_heap)).
Proof.
  assert (exists l h',
            Build "None" "AWS" "hypershift.openshift.io/operator-component"
              PrometheusRuleSpec.zero (BExternalDNSDeployment install_externaldns)
              install_heap = Some (l, h')) as (l1 & h1 & Hb) by returns.
  assert (forall l,
            In (Some l) (pointers (BExternalDNSDeployment install_externaldns)) ->
            (l < length install_heap)%nat) as Hps.
  { intros l [H|[H|[H|[]]]]; injection H as <-; vm_compute; lia. }
  exists l1, h1. split; [auto|].
  exact (Build_twice _ _ _ _ _ _ _ _ Hps Hb).
Defined.
